(** * TrenchBroom: the vertex/edge/face tool, the convex-merge command
      and the palette lookup

    A shallow embedding of
    - [Core/Source/Controller/VertexTool.cpp]  (module [VertexTool]),
    - [common/src/View/MapFrame.cpp], the CSG convex-merge command
      (module [MapFrame]),
    - [Core/Source/Model/Assets/Palette.cpp]   (module [Palette]),
    followed by the properties established about them. *)

From Stdlib Require Import ZArith String Lia.
From stdpp Require Import base decidable option list gmap.

Local Open Scope Z_scope.

(** ** Controller/VertexTool.cpp *)

Module VertexTool.

(** [EState], the mode of the tool. *)
Inductive EState : Type := INACTIVE | ACTIVE | SELECTED | DRAGGING.

Global Instance EState_eq_dec : EqDecision EState.
Proof. solve_decision. Defined.

(** Pointers are modelled by the address they hold; [None] is [NULL]. *)
Definition BrushPtr : Type := nat.
Definition FigurePtr : Type := nat.

(** [Model::Hit]: the owning brush, the handle index and the hit point. *)
Record Hit (V : Type) : Type := mkHit {
  hit_brush : BrushPtr;
  hit_index : Z;
  hitPoint : V
}.
Arguments mkHit {V} _ _ _.
Arguments hit_brush {V} _.
Arguments hit_index {V} _.
Arguments hitPoint {V} _.

(** [Model::MoveResult], as read by [doLeftDrag]. *)
Record MoveResult : Type := mkMoveResult {
  index : Z;
  moved : bool
}.

(** The collaborators the tool consumes and whose code is not part of
    this translation unit: vector arithmetic, the editor (map, grid,
    selection flags, brush geometry) and the picker. *)
Class Host : Type := {
  Vec3f : Type;
  BBox : Type;
  Color : Type;
  HitType : Type;
  ToolEvent : Type;
  Editor : Type;
  (* Vec3f::operator+, operator- and null() *)
  vec_add : Vec3f -> Vec3f -> Vec3f;
  vec_sub : Vec3f -> Vec3f -> Vec3f;
  vec_null : Vec3f -> bool;
  (* m_editor.map().worldBounds() *)
  worldBounds : Editor -> BBox;
  (* brush->selected *)
  brush_selected : Editor -> BrushPtr -> bool;
  (* m_editor.grid().moveDelta(position, bounds, delta) *)
  grid_moveDelta : Editor -> Vec3f -> BBox -> Vec3f -> Vec3f;
  (* event.hits->first(type, ignoreOccluders); None is NULL *)
  hits_first : ToolEvent -> HitType -> bool -> option (Hit Vec3f)
}.

(** The member functions every handle kind (vertex, edge, face) supplies
    to the shared tool. *)
Class HandleKind `{Host} : Type := {
  hitType : HitType;
  undoName : string;
  movePosition : Editor -> BrushPtr -> Z -> Vec3f;
  (* performMove mutates the brush inside the map and reports the result *)
  performMove : Editor -> BrushPtr -> Z -> Vec3f -> MoveResult * Editor;
  handleColor : Color;
  hiddenHandleColor : Color;
  selectedHandleColor : Color;
  hiddenSelectedHandleColor : Color
}.

(** The three events the tool listens to. *)
Inductive Signal : Type :=
| BrushesDidChange | SelectionAdded | SelectionRemoved.

Section Model.
Context `{HK : HandleKind}.

(** Calls that leave the tool: figures, listeners, the undo manager and
    the geometry operation. They are recorded in the order they are made. *)
Inductive Call : Type :=
| NewHandleFigure (f : FigurePtr)
| NewPointGuideFigure (f : FigurePtr)
| SetColor (f : FigurePtr) (c : Color)
| SetHiddenColor (f : FigurePtr) (c : Color)
| UpdateHandleFigure (f : FigurePtr)
| UpdateSelectedHandleFigures (sel guide : FigurePtr) (b : BrushPtr) (i : Z)
| AddFigure (f : FigurePtr)
| RemoveFigure (f : FigurePtr)
| DeleteFigure (f : FigurePtr)
| AddListener (s : Signal)
| RemoveListener (s : Signal)
| UndoBegin (name : string)
| UndoEnd
| PerformMove (b : BrushPtr) (i : Z) (delta : Vec3f).

(** Everything outside the tool object. *)
Record World : Type := mkWorld {
  editor : Editor;
  next_figure : FigurePtr;
  calls : list Call
}.

(** The data members of [VertexTool]. *)
Record Tool : Type := mkTool {
  m_state : EState;
  m_brush : option BrushPtr;
  m_index : Z;
  m_handleFigure : option FigurePtr;
  m_selectedHandleFigure : option FigurePtr;
  m_guideFigure : option FigurePtr
}.

(** Outcome of running a member function. *)
Inductive Res (A : Type) : Type :=
| Ret (a : A) (t : Tool) (w : World)
| AssertionFailed
| NullDereference.
Arguments Ret {A} _ _ _.
Arguments AssertionFailed {A}.
Arguments NullDereference {A}.

Definition M (A : Type) : Type := Tool -> World -> Res A.

Global Instance M_ret : MRet M := fun A a t w => Ret a t w.
Global Instance M_bind : MBind M := fun A B k c t w =>
  match c t w with
  | Ret a t' w' => k a t' w'
  | AssertionFailed => AssertionFailed
  | NullDereference => NullDereference
  end.

Definition get_tool : M Tool := fun t w => Ret t t w.
Definition get_editor : M Editor := fun t w => Ret (editor w) t w.
Definition set_m_state (s : EState) : M unit := fun t w =>
  Ret tt (mkTool s (m_brush t) (m_index t) (m_handleFigure t)
                 (m_selectedHandleFigure t) (m_guideFigure t)) w.
Definition set_m_brush (b : option BrushPtr) : M unit := fun t w =>
  Ret tt (mkTool (m_state t) b (m_index t) (m_handleFigure t)
                 (m_selectedHandleFigure t) (m_guideFigure t)) w.
Definition set_m_index (i : Z) : M unit := fun t w =>
  Ret tt (mkTool (m_state t) (m_brush t) i (m_handleFigure t)
                 (m_selectedHandleFigure t) (m_guideFigure t)) w.
Definition set_m_handleFigure (f : option FigurePtr) : M unit := fun t w =>
  Ret tt (mkTool (m_state t) (m_brush t) (m_index t) f
                 (m_selectedHandleFigure t) (m_guideFigure t)) w.
Definition set_m_selectedHandleFigure (f : option FigurePtr) : M unit :=
  fun t w =>
  Ret tt (mkTool (m_state t) (m_brush t) (m_index t) (m_handleFigure t)
                 f (m_guideFigure t)) w.
Definition set_m_guideFigure (f : option FigurePtr) : M unit := fun t w =>
  Ret tt (mkTool (m_state t) (m_brush t) (m_index t) (m_handleFigure t)
                 (m_selectedHandleFigure t) f) w.

(** Record an outgoing call. *)
Definition call (c : Call) : M unit := fun t w =>
  Ret tt t (mkWorld (editor w) (next_figure w) (calls w ++ [c])).

(** [new]: a fresh address. *)
Definition new_figure : M FigurePtr := fun t w =>
  Ret (next_figure w) t (mkWorld (editor w) (S (next_figure w)) (calls w)).

(** [*p]: undefined behaviour on [NULL]. *)
Definition deref {A : Type} (p : option A) : M A := fun t w =>
  match p with
  | Some a => Ret a t w
  | None => NullDereference
  end.

(** [if (c) body;] without an else branch. *)
Definition when (c : bool) (body : M unit) : M unit :=
  if c then body else mret tt.

(** Build mode: [NDEBUG = true] compiles [assert] to nothing. *)
Variable NDEBUG : bool.

Definition assert (c : bool) : M unit := fun t w =>
  if NDEBUG then Ret tt t w
  else if c then Ret tt t w else AssertionFailed.

(** [int VertexTool::index(Model::Hit& hit)] *)
Definition index_of_hit (hit : Hit Vec3f) : Z := hit_index hit.

(** The call [updateHandleFigure( *m_handleFigure )]. *)
Definition updateHandleFigure_member : M unit :=
  t ← get_tool;
  f ← deref (m_handleFigure t);
  call (UpdateHandleFigure f).

(** The call [updateSelectedHandleFigures( *m_selectedHandleFigure,
    *m_guideFigure, *m_brush, m_index)]. *)
Definition updateSelectedHandleFigures_member : M unit :=
  t ← get_tool;
  sel ← deref (m_selectedHandleFigure t);
  guide ← deref (m_guideFigure t);
  b ← deref (m_brush t);
  call (UpdateSelectedHandleFigures sel guide b (m_index t)).

(** The loop of [brushesDidChange]: the first selected brush triggers the
    refresh and leaves the loop. *)
Fixpoint brushesDidChange_loop (brushes : list BrushPtr) : M unit :=
  match brushes with
  | [] => mret tt
  | b :: rest =>
      e ← get_editor;
      if brush_selected e b then
        t ← get_tool;
        when (bool_decide (m_state t = ACTIVE)) updateHandleFigure_member;;
        t ← get_tool;
        when (bool_decide (m_state t = SELECTED)
              || bool_decide (m_state t = DRAGGING))
             updateSelectedHandleFigures_member
      else brushesDidChange_loop rest
  end.

Definition brushesDidChange (brushes : list BrushPtr) : M unit :=
  t ← get_tool;
  assert (negb (bool_decide (m_state t = INACTIVE)));;
  brushesDidChange_loop brushes.

Definition selectionChanged : M unit :=
  t ← get_tool;
  assert (negb (bool_decide (m_state t = INACTIVE)));;
  t ← get_tool;
  when (bool_decide (m_state t = ACTIVE)) updateHandleFigure_member;;
  t ← get_tool;
  when (bool_decide (m_state t = SELECTED)
        || bool_decide (m_state t = DRAGGING))
       updateSelectedHandleFigures_member.

Definition deleteHandleFigure : M unit :=
  t ← get_tool;
  match m_handleFigure t with
  | Some f =>
      call (RemoveFigure f);;
      call (DeleteFigure f);;
      set_m_handleFigure None
  | None => mret tt
  end.

Definition createHandleFigure : M unit :=
  deleteHandleFigure;;
  f ← new_figure;
  call (NewHandleFigure f);;
  set_m_handleFigure (Some f);;
  call (SetColor f handleColor);;
  call (SetHiddenColor f hiddenHandleColor);;
  updateHandleFigure_member;;
  call (AddFigure f).

Definition deleteSelectedHandleFigures : M unit :=
  t ← get_tool;
  match m_selectedHandleFigure t with
  | Some f =>
      call (RemoveFigure f);;
      call (DeleteFigure f);;
      set_m_selectedHandleFigure None
  | None => mret tt
  end;;
  t ← get_tool;
  match m_guideFigure t with
  | Some g =>
      call (RemoveFigure g);;
      call (DeleteFigure g);;
      set_m_guideFigure None
  | None => mret tt
  end.

Definition createSelectedHandleFigures : M unit :=
  t ← get_tool;
  assert (bool_decide (m_brush t ≠ None));;
  assert (bool_decide (0 ≤ m_index t));;
  deleteSelectedHandleFigures;;
  f ← new_figure;
  call (NewHandleFigure f);;
  set_m_selectedHandleFigure (Some f);;
  call (SetColor f selectedHandleColor);;
  call (SetHiddenColor f hiddenSelectedHandleColor);;
  g ← new_figure;
  call (NewPointGuideFigure g);;
  set_m_guideFigure (Some g);;
  call (SetColor g selectedHandleColor);;
  call (SetHiddenColor g hiddenSelectedHandleColor);;
  updateSelectedHandleFigures_member;;
  call (AddFigure f);;
  call (AddFigure g).

(** The constructor's member initialisers. *)
Definition VertexTool_new : Tool :=
  mkTool INACTIVE None (-1) None None None.

Definition activated : M unit :=
  t ← get_tool;
  assert (bool_decide (m_state t = INACTIVE));;
  createHandleFigure;;
  call (AddListener BrushesDidChange);;
  call (AddListener SelectionAdded);;
  call (AddListener SelectionRemoved);;
  set_m_state ACTIVE.

Definition deactivated : M unit :=
  t ← get_tool;
  assert (negb (bool_decide (m_state t = INACTIVE)));;
  deleteHandleFigure;;
  call (RemoveListener BrushesDidChange);;
  call (RemoveListener SelectionAdded);;
  call (RemoveListener SelectionRemoved);;
  set_m_state INACTIVE.

Definition leftMouseDown (event : ToolEvent) : M bool :=
  t ← get_tool;
  assert (bool_decide (m_state t = ACTIVE));;
  match hits_first event hitType true with
  | Some hit =>
      set_m_brush (Some (hit_brush hit));;
      set_m_index (index_of_hit hit);;
      deleteHandleFigure;;
      createSelectedHandleFigures;;
      set_m_state SELECTED;;
      mret true
  | None => mret false
  end.

Definition leftMouseUp (event : ToolEvent) : M bool :=
  t ← get_tool;
  assert (bool_decide (m_state t = ACTIVE)
          || bool_decide (m_state t = SELECTED));;
  t ← get_tool;
  if bool_decide (m_state t = SELECTED) then
    deleteSelectedHandleFigures;;
    createHandleFigure;;
    set_m_brush None;;
    set_m_index (-1);;
    set_m_state ACTIVE;;
    mret true
  else mret false.

(** [initialPoint] is an out-parameter: its value after the call is
    returned next to the result. *)
Definition doBeginLeftDrag (event : ToolEvent) (initialPoint : Vec3f)
  : M (bool * Vec3f) :=
  match hits_first event hitType true with
  | None => mret (false, initialPoint)
  | Some hit =>
      t ← get_tool;
      assert (bool_decide (m_state t = SELECTED));;
      set_m_brush (Some (hit_brush hit));;
      set_m_index (index_of_hit hit);;
      let initialPoint := hitPoint hit in
      deleteHandleFigure;;
      call (UndoBegin undoName);;
      set_m_state DRAGGING;;
      mret (true, initialPoint)
  end.

(** The geometry operation: logged, and applied to the editor's map. *)
Definition performMove_member (b : BrushPtr) (i : Z) (delta : Vec3f)
  : M MoveResult := fun t w =>
  let r := performMove (editor w) b i delta in
  Ret (fst r) t
      (mkWorld (snd r) (next_figure w) (calls w ++ [PerformMove b i delta])).

(** The snapped delta [doLeftDrag] computes. *)
Definition drag_delta (e : Editor) (b : BrushPtr) (i : Z)
           (curMousePoint referencePoint : Vec3f) : Vec3f :=
  let position := movePosition e b i in
  grid_moveDelta e position (worldBounds e)
                 (vec_sub curMousePoint referencePoint).

(** [referencePoint] is an in-out parameter: its value after the call is
    returned next to the result. *)
Definition doLeftDrag (event : ToolEvent)
           (lastMousePoint curMousePoint referencePoint : Vec3f)
  : M (bool * Vec3f) :=
  t ← get_tool;
  assert (bool_decide (m_state t = DRAGGING));;
  assert (bool_decide (m_brush t ≠ None));;
  assert (bool_decide (m_index t ≠ -1));;
  e ← get_editor;
  b ← deref (m_brush t);
  let delta := drag_delta e b (m_index t) curMousePoint referencePoint in
  if vec_null delta then mret (true, referencePoint)
  else
    result ← performMove_member b (m_index t) delta;
    set_m_index (index result);;
    if bool_decide (index result = -1) then mret (false, referencePoint)
    else
      let referencePoint :=
        if moved result then vec_add referencePoint delta
        else referencePoint in
      updateSelectedHandleFigures_member;;
      mret (true, referencePoint).

Definition doEndLeftDrag (event : ToolEvent) : M unit :=
  t ← get_tool;
  assert (bool_decide (m_state t = DRAGGING));;
  call UndoEnd;;
  deleteSelectedHandleFigures;;
  createHandleFigure;;
  set_m_brush None;;
  set_m_index (-1);;
  set_m_state ACTIVE.

(** The calls a host can make on the tool. *)
Inductive Op : Type :=
| Activated
| Deactivated
| LeftMouseDown (event : ToolEvent)
| LeftMouseUp (event : ToolEvent)
| BeginLeftDrag (event : ToolEvent) (initialPoint : Vec3f)
| LeftDrag (event : ToolEvent)
           (lastMousePoint curMousePoint referencePoint : Vec3f)
| EndLeftDrag (event : ToolEvent)
| NotifyBrushesDidChange (brushes : list BrushPtr)
| NotifySelectionChanged.

(** Make one call and drop what it returns. *)
Definition run (op : Op) : M unit :=
  match op with
  | Activated => activated
  | Deactivated => deactivated
  | LeftMouseDown ev => leftMouseDown ev;; mret tt
  | LeftMouseUp ev => leftMouseUp ev;; mret tt
  | BeginLeftDrag ev p => doBeginLeftDrag ev p;; mret tt
  | LeftDrag ev l c r => doLeftDrag ev l c r;; mret tt
  | EndLeftDrag ev => doEndLeftDrag ev
  | NotifyBrushesDidChange brushes => brushesDidChange brushes
  | NotifySelectionChanged => selectionChanged
  end.

(** Make the calls of a list in turn. *)
Fixpoint run_all (ops : list Op) : M unit :=
  match ops with
  | [] => mret tt
  | op :: rest => run op;; run_all rest
  end.

End Model.

Arguments Ret {_ A} _ _ _.
Arguments AssertionFailed {_ A}.
Arguments NullDereference {_ A}.

(** *** Vocabulary for stating properties of the tool *)
Section Vocabulary.
Context `{HK : HandleKind}.

(** The entry assertions of [doLeftDrag] hold: the tool is dragging a
    handle of brush [b]. A release build does not look at the index. *)
Definition drag_ready (NDEBUG : bool) (t : Tool) (b : BrushPtr) : Prop :=
  m_state t = DRAGGING /\ m_brush t = Some b /\
  (NDEBUG = false -> m_index t <> -1).

(** The selected-handle and guide figures exist. *)
Definition figures_ready (t : Tool) (sel guide : FigurePtr) : Prop :=
  m_selectedHandleFigure t = Some sel /\ m_guideFigure t = Some guide.

(** The tool with another handle index. *)
Definition with_index (t : Tool) (i : Z) : Tool :=
  mkTool (m_state t) (m_brush t) i (m_handleFigure t)
         (m_selectedHandleFigure t) (m_guideFigure t).

(** The world after more calls were made. *)
Definition with_calls (w : World) (cs : list Call) : World :=
  mkWorld (editor w) (next_figure w) (calls w ++ cs).

(** The world after the geometry operation ran on handle [i] of [b]. *)
Definition after_move (w : World) (b : BrushPtr) (i : Z) (delta : Vec3f)
  : World :=
  mkWorld (snd (performMove (editor w) b i delta)) (next_figure w)
          (calls w ++ [PerformMove b i delta]).

(** The calls [deleteHandleFigure] makes for a figure pointer. *)
Definition delete_calls (f : option FigurePtr) : list Call :=
  match f with
  | Some f => [RemoveFigure f; DeleteFigure f]
  | None => []
  end.

(** The calls addressed to the undo manager. *)
Definition is_undo_call (c : Call) : bool :=
  match c with
  | UndoBegin _ | UndoEnd => true
  | _ => false
  end.
Definition undo_calls (cs : list Call) : list Call :=
  List.filter is_undo_call cs.

(** The figures and the brush the current state draws exist. *)
Definition visuals_ready (t : Tool) : Prop :=
  match m_state t with
  | INACTIVE => False
  | ACTIVE => is_Some (m_handleFigure t)
  | SELECTED | DRAGGING =>
      is_Some (m_selectedHandleFigure t) /\ is_Some (m_guideFigure t) /\
      is_Some (m_brush t)
  end.

(** The same, with nothing asked of an inactive tool. *)
Definition consistent (t : Tool) : Prop :=
  m_state t = INACTIVE \/ visuals_ready t.

(** The refresh of the visual aggregate that belongs to the state: the
    unselected handles in ACTIVE, the selected handle and its guide in
    SELECTED and DRAGGING. *)
Definition refresh_calls (t : Tool) : list Call :=
  match m_state t with
  | INACTIVE => []
  | ACTIVE =>
      match m_handleFigure t with
      | Some f => [UpdateHandleFigure f]
      | None => []
      end
  | SELECTED | DRAGGING =>
      match m_selectedHandleFigure t, m_guideFigure t, m_brush t with
      | Some sel, Some guide, Some b =>
          [UpdateSelectedHandleFigures sel guide b (m_index t)]
      | _, _, _ => []
      end
  end.
End Vocabulary.

End VertexTool.

(** ** A small host for running the tool

    One brush handle moved on a grid of spacing 16. Handle 0 moves freely,
    handle 1 merges into a neighbour when moved (the move reports -1), and
    moving handle 2 is always rejected (reported as not moved). *)

Module Bench.
Import VertexTool.

Definition V3 : Type := Z * Z * Z.
Definition v3_add (a b : V3) : V3 :=
  let '(ax, ay, az) := a in let '(bx, by', bz) := b in
  (ax + bx, ay + by', az + bz).
Definition v3_sub (a b : V3) : V3 :=
  let '(ax, ay, az) := a in let '(bx, by', bz) := b in
  (ax - bx, ay - by', az - bz).
Definition v3_null (a : V3) : bool :=
  let '(ax, ay, az) := a in (ax =? 0) && (ay =? 0) && (az =? 0).
Definition snap (z : Z) : Z := 16 * (z / 16).
Definition v3_snap (a : V3) : V3 :=
  let '(ax, ay, az) := a in (snap ax, snap ay, snap az).

(** The editor: the selected brushes and the position of the handle. *)
Record BenchEditor : Type := mkBenchEditor {
  selected_brushes : list BrushPtr;
  handle_position : V3
}.

Global Instance bench_host : Host := {|
  Vec3f := V3;
  BBox := unit;
  Color := nat;
  HitType := nat;
  ToolEvent := option (Hit V3);
  Editor := BenchEditor;
  vec_add := v3_add;
  vec_sub := v3_sub;
  vec_null := v3_null;
  worldBounds := fun _ => tt;
  brush_selected := fun e b => bool_decide (b ∈ selected_brushes e);
  grid_moveDelta := fun _ _ _ d => v3_snap d;
  hits_first := fun ev _ _ => ev
|}.

Definition bench_move (e : BenchEditor) (b : BrushPtr) (i : Z) (d : V3)
  : MoveResult * BenchEditor :=
  if i =? 0 then
    (mkMoveResult 0 true,
     mkBenchEditor (selected_brushes e) (v3_add (handle_position e) d))
  else if i =? 1 then
    (mkMoveResult (-1) true,
     mkBenchEditor (selected_brushes e) (v3_add (handle_position e) d))
  else (mkMoveResult i false, e).

Global Instance bench_kind : HandleKind := {|
  hitType := 1%nat;
  undoName := "Move Vertex"%string;
  movePosition := fun e _ _ => handle_position e;
  performMove := bench_move;
  handleColor := 1%nat;
  hiddenHandleColor := 2%nat;
  selectedHandleColor := 3%nat;
  hiddenSelectedHandleColor := 4%nat
|}.

(** Brush 7 is selected; its handle sits at the origin. *)
Definition editor0 : BenchEditor := mkBenchEditor [7%nat] (0, 0, 0).
Definition world0 : World := mkWorld editor0 100%nat [].

(** A tool in the middle of a drag of handle [i] of brush 7. *)
Definition dragging (i : Z) : Tool :=
  mkTool DRAGGING (Some 7%nat) i None (Some 100%nat) (Some 101%nat).
Definition world_drag : World := mkWorld editor0 102%nat [].

(** A tool with handle [i] of brush 7 selected. *)
Definition selected_tool (i : Z) : Tool :=
  mkTool SELECTED (Some 7%nat) i None (Some 100%nat) (Some 101%nat).

(** An active tool showing the unselected handles. *)
Definition active_tool : Tool :=
  mkTool ACTIVE None (-1) (Some 100%nat) None None.
Definition world_active : World := mkWorld editor0 101%nat [].

(** The pick of handle [i] of brush 7 at point (1,2,3). *)
Definition hit7 (i : Z) : ToolEvent := Some (mkHit 7%nat i (1, 2, 3)).
Definition origin : V3 := (0, 0, 0).
End Bench.

(** ** View/MapFrame.cpp: the CSG convex-merge command *)

Module MapFrame.

(** What the command reads from the document and from the map view.
    The accessors themselves are not part of MapFrame.cpp; a frame is
    described by the values they return. *)
Record Frame : Type := mkFrame {
  (* m_document->hasSelectedBrushFaces() *)
  hasSelectedBrushFaces : bool;
  (* m_document->selectedBrushFaces().size() *)
  selectedBrushFaces_size : N;
  (* m_document->selectedNodes().hasOnlyBrushes() *)
  hasOnlyBrushes : bool;
  (* m_document->selectedNodes().brushCount() *)
  brushCount : N;
  (* m_mapView->vertexToolActive(), m_mapView->vertexTool().canDoCsgConvexMerge() *)
  vertexToolActive : bool;
  vertexTool_canDoCsgConvexMerge : bool;
  edgeToolActive : bool;
  edgeTool_canDoCsgConvexMerge : bool;
  faceToolActive : bool;
  faceTool_canDoCsgConvexMerge : bool
}.

(** The object whose [csgConvexMerge()] the command calls. *)
Inductive Receiver : Type :=
| VertexToolMerge | EdgeToolMerge | FaceToolMerge | DocumentMerge.

Definition canDoCsgConvexMerge (f : Frame) : bool :=
  (hasSelectedBrushFaces f && (1 <? selectedBrushFaces_size f)%N)
  || (hasOnlyBrushes f && (1 <? brushCount f)%N)
  || (vertexToolActive f && vertexTool_canDoCsgConvexMerge f)
  || (edgeToolActive f && edgeTool_canDoCsgConvexMerge f)
  || (faceToolActive f && faceTool_canDoCsgConvexMerge f).

(** The call the command makes; [None] when it makes none. *)
Definition csgConvexMerge (f : Frame) : option Receiver :=
  if canDoCsgConvexMerge f then
    if vertexToolActive f && vertexTool_canDoCsgConvexMerge f then
      Some VertexToolMerge
    else if edgeToolActive f && edgeTool_canDoCsgConvexMerge f then
      Some EdgeToolMerge
    else if faceToolActive f && faceTool_canDoCsgConvexMerge f then
      Some FaceToolMerge
    else Some DocumentMerge
  else None.

(** An active vertex, edge or face tool reports that it can merge. *)
Definition tool_can_merge (f : Frame) : Prop :=
  (vertexToolActive f = true /\ vertexTool_canDoCsgConvexMerge f = true)
  \/ (edgeToolActive f = true /\ edgeTool_canDoCsgConvexMerge f = true)
  \/ (faceToolActive f = true /\ faceTool_canDoCsgConvexMerge f = true).

(** The inputs the merge needs: two brushes, two brush faces, or a tool
    that can merge. *)
Definition enough_inputs (f : Frame) : Prop :=
  (2 <= brushCount f)%N \/ (2 <= selectedBrushFaces_size f)%N
  \/ tool_can_merge f.

(** Two selected brushes, no tool active. *)
Definition two_brushes : Frame :=
  mkFrame false 0 true 2 false false false false false false.
(** One selected brush, the vertex tool active but unable to merge. *)
Definition one_brush : Frame :=
  mkFrame false 0 true 1 true false false false false false.

End MapFrame.

(** ** View/MapFrame.cpp: edit, clipboard and document commands *)

Module MapFrameShell.

(** [QMessageBox::StandardButton] as far as the frame looks at it. *)
Inductive Button : Type := Yes | No | Cancel | OtherButton.

(** Calls that leave the frame: on the document, the map view and its
    tools, the inspector, the clipboard, dialogs, the logger, the frame
    manager and the close event. The informational log lines carry a
    duration and are recorded without their text. *)
Inductive Cmd : Type :=
| UndoCommand
| RedoCommand
| MapViewCancelMouseDrag
| InspectorCancelMouseDrag
| ClipboardSetText (text : string)
| TransactionBegin (name : string)
| TransactionCommit
| TransactionCancel
| DeleteObjects
| ClipToolRemoveLastPoint
| VertexToolRemoveSelection
| EdgeToolRemoveSelection
| FaceToolRemoveSelection
| LoggerError (msg : string)
| LoggerInfo
| DocumentPaste (text : string)
| DocumentHide
| MapViewPasteObjectsDelta
| DocumentShow
| DocumentSelectNodes
| DocumentTranslateObjects
| AskSaveChanges
| AskSaveFileName
| DocumentSave
| DocumentSaveAs (path : string)
| CriticalMessage (msg : string)
| CompilationDialogClose
| DocumentNew
| DocumentLoad (path : string)
| DocumentExportAs (path : string)
| SaveWindowGeometry
| SaveWindowState
| SaveHSplitterState
| SaveVSplitterState
| RemoveFrame
| EventAccept
| EventIgnore.

(** The collaborators of the frame. [World] is everything outside the
    frame object; every call has an effect on it and may answer with a
    value that depends on it. *)
Class Shell : Type := {
  World : Type;
  PasteType : Type;
  PasteType_Node : PasteType;
  PasteType_Failed : PasteType;
  PasteType_eq_dec : EqDecision PasteType;
  (* two enumerators of the enumeration *)
  PasteType_Node_not_Failed : PasteType_Node <> PasteType_Failed;
  (* the effect of a call *)
  perform : Cmd -> World -> World;
  (* what a call returns *)
  answer_bool : Cmd -> World -> bool;
  answer_string : Cmd -> World -> string;
  answer_button : Cmd -> World -> Button;
  answer_paste : Cmd -> World -> PasteType;
  (* a call that ends with an exception or an error result *)
  fails : Cmd -> World -> bool;
  error_message : Cmd -> World -> string;
  (* m_document *)
  canUndoCommand : World -> bool;
  canRedoCommand : World -> bool;
  hasSelectedNodes : World -> bool;
  hasSelectedBrushFaces : World -> bool;
  serializeSelectedNodes : World -> string;
  serializeSelectedBrushFaces : World -> string;
  modified : World -> bool;
  persistent : World -> bool;
  path : World -> string;
  filename : World -> string;
  (* operator== of std::filesystem::path on two pathnames: it compares
     the paths element by element, so that two spellings of one path
     are equal *)
  path_equal : string -> string -> bool;
  path_equal_refl : forall p, path_equal p p = true;
  (* mapStringToUnicode(m_document->encoding(), _) and its inverse *)
  mapStringToUnicode : World -> string -> string;
  mapStringFromUnicode : World -> string -> string;
  (* m_mapView and its tools *)
  widgetOrChildHasFocus : World -> bool;
  isCurrent : World -> bool;
  anyToolActive : World -> bool;
  toolAllowsObjectDeletion : World -> bool;
  clipToolActive : World -> bool;
  vertexToolActive : World -> bool;
  edgeToolActive : World -> bool;
  faceToolActive : World -> bool;
  createPrimitiveBrushToolActive : World -> bool;
  clipTool_canRemoveLastPoint : World -> bool;
  vertexTool_canRemoveSelection : World -> bool;
  edgeTool_canRemoveSelection : World -> bool;
  faceTool_canRemoveSelection : World -> bool;
  (* QApplication::clipboard() *)
  clipboard_text : World -> string;
  clipboard_hasText : World -> bool
}.

Global Existing Instance PasteType_eq_dec.

Section Frame.
Context `{Shell}.

(** The frame: the members the modelled functions read or write, the
    world, and the calls made so far. *)
Record Frame : Type := mkFrame {
  m_compilationDialog : option nat;
  m_frameManager : option nat;
  world : World;
  calls : list Cmd
}.

(** Outcome of a member function; [ensure] ends the program when its
    condition fails, in every build. [EnsureFailed] keeps the frame as it
    is at that point, with the calls made until then. *)
Inductive Res (A : Type) : Type :=
| Ret (a : A) (f : Frame)
| EnsureFailed (f : Frame).
Arguments Ret {A} _ _.
Arguments EnsureFailed {A} _.

Definition M (A : Type) : Type := Frame -> Res A.

Global Instance M_ret : MRet M := fun A a f => Ret a f.
Global Instance M_bind : MBind M := fun A B k c f =>
  match c f with
  | Ret a f' => k a f'
  | EnsureFailed f' => EnsureFailed f'
  end.

(** Read something off the world. *)
Definition ask {A : Type} (q : World -> A) : M A := fun f => Ret (q (world f)) f.

(** Make a call: it is recorded and changes the world. *)
Definition call (c : Cmd) : M unit := fun f =>
  Ret tt (mkFrame (m_compilationDialog f) (m_frameManager f)
                  (perform c (world f)) (calls f ++ [c])).

(** Make a call and use what it answers. *)
Definition call_for {A : Type} (answer : Cmd -> World -> A) (c : Cmd) : M A :=
  fun f =>
  Ret (answer c (world f))
      (mkFrame (m_compilationDialog f) (m_frameManager f)
               (perform c (world f)) (calls f ++ [c])).

(** Make a call that may throw: [true] when it returned normally. *)
Definition try_call (c : Cmd) : M bool := fun f =>
  Ret (negb (fails c (world f)))
      (mkFrame (m_compilationDialog f) (m_frameManager f)
               (perform c (world f)) (calls f ++ [c])).

Definition get_frame : M Frame := fun f => Ret f f.

Definition set_m_compilationDialog (d : option nat) : M unit := fun f =>
  Ret tt (mkFrame d (m_frameManager f) (world f) (calls f)).

Definition ensure (c : bool) : M unit := fun f =>
  if c then Ret tt f else EnsureFailed f.

Definition when (c : bool) (body : M unit) : M unit :=
  if c then body else mret tt.

(** *** Undo and redo *)

Definition canUndo : M bool := ask canUndoCommand.
Definition canRedo : M bool := ask canRedoCommand.

Definition undo : M unit :=
  can ← canUndo;
  when can
    (cancelled ← call_for answer_bool MapViewCancelMouseDrag;
     when (negb cancelled)
       (cancelled' ← call_for answer_bool InspectorCancelMouseDrag;
        when (negb cancelled') (call UndoCommand))).

Definition redo : M unit :=
  can ← canRedo;
  when can (call RedoCommand).

(** *** Cut, copy and delete *)

Definition canCutSelection : M bool :=
  ask (fun w => widgetOrChildHasFocus w && hasSelectedNodes w
                && negb (anyToolActive w)).

Definition canCopySelection : M bool :=
  ask (fun w => widgetOrChildHasFocus w
                && (hasSelectedNodes w || hasSelectedBrushFaces w)).

Definition copyToClipboard : M unit :=
  nodes ← ask hasSelectedNodes;
  str ← (if (nodes : bool) then ask serializeSelectedNodes
         else
           faces ← ask hasSelectedBrushFaces;
           if (faces : bool) then ask serializeSelectedBrushFaces
           else mret ""%string) : M string;
  text ← ask (fun w => mapStringToUnicode w str);
  call (ClipboardSetText text).

Definition cutSelection : M unit :=
  can ← canCutSelection;
  when can
    (copyToClipboard;;
     call (TransactionBegin "Cut");;
     call DeleteObjects;;
     call TransactionCommit).

Definition copySelection : M unit :=
  can ← canCopySelection;
  when can copyToClipboard.

Definition canDeleteSelection : M bool :=
  clip ← ask clipToolActive;
  if (clip : bool) then ask clipTool_canRemoveLastPoint
  else
    vertex ← ask vertexToolActive;
    if (vertex : bool) then ask vertexTool_canRemoveSelection
    else
      edge ← ask edgeToolActive;
      if (edge : bool) then ask edgeTool_canRemoveSelection
      else
        face ← ask faceToolActive;
        if (face : bool) then ask faceTool_canRemoveSelection
        else
          create ← ask createPrimitiveBrushToolActive;
          if (create : bool) then mret true
          else canCutSelection.

Definition deleteSelection : M unit :=
  can ← canDeleteSelection;
  when can
    (clip ← ask clipToolActive;
     if (clip : bool) then call ClipToolRemoveLastPoint
     else
       vertex ← ask vertexToolActive;
       if (vertex : bool) then call VertexToolRemoveSelection
       else
         edge ← ask edgeToolActive;
         if (edge : bool) then call EdgeToolRemoveSelection
         else
           face ← ask faceToolActive;
           if (face : bool) then call FaceToolRemoveSelection
           else
             objects ← ask (fun w => negb (anyToolActive w)
                                     || toolAllowsObjectDeletion w);
             when objects (call DeleteObjects)).

(** *** Paste *)

Definition canPaste : M bool :=
  focus ← ask widgetOrChildHasFocus;
  if negb (focus : bool) then mret false
  else
    current ← ask isCurrent;
    if negb (current : bool) then mret false
    else ask clipboard_hasText.

Definition paste : M PasteType :=
  qtext ← ask clipboard_text;
  if bool_decide (qtext = ""%string) then
    call (LoggerError "Clipboard is empty");;
    mret PasteType_Failed
  else
    text ← ask (fun w => mapStringFromUnicode w qtext);
    call_for answer_paste (DocumentPaste text).

Definition pasteAtCursorPosition : M unit :=
  can ← canPaste;
  when can
    (pasted ← paste;
     nodes ← ask hasSelectedNodes;
     when (bool_decide (pasted = PasteType_Node) && nodes)
       (call (TransactionBegin "");;
        call DocumentHide;;
        call MapViewPasteObjectsDelta;;
        call DocumentShow;;
        call DocumentSelectNodes;;
        ok ← call_for answer_bool DocumentTranslateObjects;
        if negb (ok : bool) then call TransactionCancel
        else call TransactionCommit)).

Definition pasteAtOriginalPosition : M unit :=
  can ← canPaste;
  when can (paste;; mret tt).

(** *** Saving and closing *)

Definition closeCompileDialog : M bool :=
  f ← get_frame;
  match m_compilationDialog f with
  | None => mret true
  | Some _ =>
      closed ← call_for answer_bool CompilationDialogClose;
      if (closed : bool) then
        set_m_compilationDialog None;;
        mret true
      else mret false
  end.

Definition saveDocumentAs : M bool :=
  newFileName ← call_for answer_string AskSaveFileName;
  if bool_decide (newFileName = ""%string) then mret false
  else
    ok ← try_call (DocumentSaveAs newFileName);
    if (ok : bool) then
      call LoggerInfo;;
      mret true
    else
      name ← ask filename;
      call (CriticalMessage ("Unknown error while saving " ++ name));;
      mret false.

Definition saveDocument : M bool :=
  p ← ask persistent;
  if (p : bool) then
    ok ← try_call DocumentSave;
    if (ok : bool) then
      call LoggerInfo;;
      mret true
    else
      name ← ask path;
      call (CriticalMessage ("Unknown error while saving " ++ name));;
      mret false
  else saveDocumentAs.

Definition confirmOrDiscardChanges : M bool :=
  m ← ask modified;
  if negb (m : bool) then mret true
  else
    result ← call_for answer_button AskSaveChanges;
    match result with
    | Yes => saveDocument
    | No => mret true
    | _ => mret false
    end.

(** The result of [newDocument] and [openDocument]: a value or the error
    of the document. *)
Inductive Result (A : Type) : Type :=
| Value (a : A)
| Error (msg : string).
Arguments Value {A} _.
Arguments Error {A} _.

Definition newDocument : M (Result bool) :=
  confirmed ← confirmOrDiscardChanges;
  if negb (confirmed : bool) then mret (Value false)
  else
    closed ← closeCompileDialog;
    if negb (closed : bool) then mret (Value false)
    else
      w ← ask id;
      ok ← try_call DocumentNew;
      if (ok : bool) then mret (Value true)
      else mret (Error (error_message DocumentNew w)).

Definition openDocument (p : string) : M (Result bool) :=
  confirmed ← confirmOrDiscardChanges;
  if negb (confirmed : bool) then mret (Value false)
  else
    closed ← closeCompileDialog;
    if negb (closed : bool) then mret (Value false)
    else
      w ← ask id;
      ok ← try_call (DocumentLoad p);
      if (ok : bool) then
        call LoggerInfo;;
        mret (Value true)
      else mret (Error (error_message (DocumentLoad p) w)).

Definition overwrite_message : string :=
  "You can't overwrite the current document."
  ++ String (Ascii.ascii_of_nat 10)
       "Please choose a different file name to export to.".

(** [std::quoted], which the stream output of a path uses: the text
    between double quotes, with a backslash before every double quote and
    backslash in it. *)
Definition double_quote : Ascii.ascii := Ascii.ascii_of_nat 34.
Definition backslash : Ascii.ascii := Ascii.ascii_of_nat 92.

Fixpoint escaped (s : string) : string :=
  match s with
  | EmptyString => EmptyString
  | String c rest =>
      if Ascii.eqb c double_quote || Ascii.eqb c backslash
      then String backslash (String c (escaped rest))
      else String c (escaped rest)
  end.

Definition quoted (s : string) : string :=
  String double_quote (escaped s ++ String double_quote EmptyString).

Definition exportDocument (exportPath : string) : M bool :=
  current ← ask path;
  if path_equal exportPath current then
    call (CriticalMessage overwrite_message);;
    mret false
  else
    w ← ask id;
    ok ← try_call (DocumentExportAs exportPath);
    if (ok : bool) then
      call LoggerInfo;;
      mret true
    else
      call (LoggerError ("Could not export '" ++ quoted exportPath ++ "': "
                         ++ error_message (DocumentExportAs exportPath) w));;
      call (CriticalMessage (error_message (DocumentExportAs exportPath) w));;
      mret false.

Definition closeEvent : M unit :=
  closed ← closeCompileDialog;
  if negb (closed : bool) then call EventIgnore
  else
    f ← get_frame;
    ensure (bool_decide (m_frameManager f ≠ None));;
    confirmed ← confirmOrDiscardChanges;
    if negb (confirmed : bool) then call EventIgnore
    else
      call SaveWindowGeometry;;
      call SaveWindowState;;
      call SaveHSplitterState;;
      call SaveVSplitterState;;
      call RemoveFrame;;
      call EventAccept.

End Frame.

Arguments Ret {_ A} _ _.
Arguments EnsureFailed {_ A} _.
Arguments Value {A} _.
Arguments Error {A} _.

End MapFrameShell.

(** ** View/MapFrame.cpp: what the selection has in common, and the
       remaining CSG commands *)

Module MapFrameSelection.
Import MapFrame.

(** [commonEntityForNodeList]: [entity] is [node->entity()], [None] the
    null pointer. *)
Definition commonEntityForNodeList {T : Type} (entity : T -> option nat)
           (list : list T) : option nat :=
  match list with
  | [] => None
  | front :: _ =>
      let firstEntity := entity front in
      let multipleEntities :=
        fold_left (fun multiple node =>
                     if bool_decide (entity node ≠ firstEntity) then true
                     else multiple)
                  list false in
      if multipleEntities then None else firstEntity
  end.

(** [commonClassnameForEntityList]: [classname] is
    [entityNode->entity().classname()]. *)
Definition commonClassnameForEntityList {T : Type} (classname : T -> string)
           (list : list T) : string :=
  match list with
  | [] => ""%string
  | front :: _ =>
      let firstClassname := classname front in
      let multipleClassnames :=
        fold_left (fun multiple entityNode =>
                     if bool_decide (classname entityNode ≠ firstClassname)
                     then true else multiple)
                  list false in
      if multipleClassnames then ""%string else firstClassname
  end.

(** [textureToReveal]: [texture] is [face.face().texture()], [None] the
    null pointer. The set holds one element when the function reads its
    first one, so the order of the set does not matter. *)
Definition textureToReveal {F : Type} (texture : F -> option nat)
           (allSelectedBrushFaces : list F) : option nat :=
  let selectedTextures : gset (option nat) :=
    fold_left (fun set face => set ∪ {[texture face]})
              allSelectedBrushFaces ∅ in
  if bool_decide (size selectedTextures = 1%nat) then
    match elements selectedTextures with
    | first :: _ => first
    | [] => None
    end
  else None.

Definition canRevealTexture {F : Type} (texture : F -> option nat)
           (allSelectedBrushFaces : list F) : bool :=
  bool_decide (textureToReveal texture allSelectedBrushFaces ≠ None).

Definition canDoCsgSubtract (f : Frame) : bool :=
  hasOnlyBrushes f && (1 <=? brushCount f)%N.

Definition canDoCsgHollow (f : Frame) : bool :=
  hasOnlyBrushes f && (1 <=? brushCount f)%N.

Definition canDoCsgIntersect (f : Frame) : bool :=
  hasOnlyBrushes f && (1 <? brushCount f)%N.

(** Whether the command reaches [m_document->csgSubtract()], and so on. *)
Definition csgSubtract (f : Frame) : bool := canDoCsgSubtract f.
Definition csgHollow (f : Frame) : bool := canDoCsgHollow f.
Definition csgIntersect (f : Frame) : bool := canDoCsgIntersect f.

(** *** The hidden objects in the status bar *)

Section StatusBar.
(* std::to_string on a size_t *)
Variable to_string : N -> string.




End StatusBar.

(** Two brushes selected while the edge tool is active and can merge. *)
Definition edge_tool_merge : Frame :=
  mkFrame false 0 true 2 false false true true false false.

End MapFrameSelection.


(** ** A small shell for running the frame *)

Module BenchShell.
Import MapFrameShell.

(** The world: what is selected, the state of the document, the clipboard
    and the answers the user will give. *)
Record BenchWorld : Type := mkBenchWorld {
  w_nodes : bool;
  w_faces : bool;
  w_focus : bool;
  w_tool : bool;
  w_modified : bool;
  w_persistent : bool;
  w_clipboard : string;
  w_button : Button;
  w_save_fails : bool
}.

Definition bench_perform (c : Cmd) (w : BenchWorld) : BenchWorld :=
  match c with
  | ClipboardSetText text =>
      mkBenchWorld (w_nodes w) (w_faces w) (w_focus w) (w_tool w)
                   (w_modified w) (w_persistent w) text (w_button w)
                   (w_save_fails w)
  | DeleteObjects =>
      mkBenchWorld false (w_faces w) (w_focus w) (w_tool w)
                   true (w_persistent w) (w_clipboard w) (w_button w)
                   (w_save_fails w)
  | DocumentSave | DocumentSaveAs _ =>
      mkBenchWorld (w_nodes w) (w_faces w) (w_focus w) (w_tool w)
                   (w_save_fails w) (w_persistent w) (w_clipboard w)
                   (w_button w) (w_save_fails w)
  | _ => w
  end.

(** Two pathnames are equal when they differ in repeated separators
    only. *)
Definition separator : Ascii.ascii := Ascii.ascii_of_nat 47.

Fixpoint one_separator (s : string) : string :=
  match s with
  | EmptyString => EmptyString
  | String c rest =>
      match rest with
      | String c' _ =>
          if Ascii.eqb c separator && Ascii.eqb c' separator
          then one_separator rest
          else String c (one_separator rest)
      | EmptyString => String c EmptyString
      end
  end.

Definition bench_path_equal (p q : string) : bool :=
  bool_decide (one_separator p = one_separator q).

Global Instance bench_shell : Shell := {|
  World := BenchWorld;
  PasteType := nat;
  PasteType_Node := 0%nat;
  PasteType_Failed := 2%nat;
  PasteType_eq_dec := _;
  PasteType_Node_not_Failed := ltac:(discriminate);
  perform := bench_perform;
  answer_bool := fun _ _ => true;
  answer_string := fun _ _ => "copy.map"%string;
  answer_button := fun _ w => w_button w;
  answer_paste := fun _ _ => 0%nat;
  fails := fun c w =>
    match c with
    | DocumentSave | DocumentSaveAs _ => w_save_fails w
    | _ => false
    end;
  error_message := fun _ _ => "error"%string;
  canUndoCommand := fun _ => true;
  canRedoCommand := fun _ => false;
  hasSelectedNodes := w_nodes;
  hasSelectedBrushFaces := w_faces;
  serializeSelectedNodes := fun _ => "{ nodes }"%string;
  serializeSelectedBrushFaces := fun _ => "( faces )"%string;
  modified := w_modified;
  persistent := w_persistent;
  path := fun _ => "maps/e1m1.map"%string;
  path_equal := bench_path_equal;
  path_equal_refl := fun p => bool_decide_eq_true_2 _ eq_refl;
  filename := fun _ => "e1m1.map"%string;
  mapStringToUnicode := fun _ s => s;
  mapStringFromUnicode := fun _ s => s;
  widgetOrChildHasFocus := w_focus;
  isCurrent := fun _ => true;
  anyToolActive := w_tool;
  toolAllowsObjectDeletion := fun _ => false;
  clipToolActive := fun _ => false;
  vertexToolActive := w_tool;
  edgeToolActive := fun _ => false;
  faceToolActive := fun _ => false;
  createPrimitiveBrushToolActive := fun _ => false;
  clipTool_canRemoveLastPoint := fun _ => false;
  vertexTool_canRemoveSelection := fun _ => true;
  edgeTool_canRemoveSelection := fun _ => false;
  faceTool_canRemoveSelection := fun _ => false;
  clipboard_text := w_clipboard;
  clipboard_hasText := fun w => negb (bool_decide (w_clipboard w = ""%string))
|}.

(** A modified, saved document with nodes selected in the focused map
    view; the user will answer [button]. *)
Definition editing (button : Button) : BenchWorld :=
  mkBenchWorld true false true false true true "" button false.

(** The same with only brush faces selected. *)
Definition faces_only : BenchWorld :=
  mkBenchWorld false true true false false true "" Cancel false.

(** The same while the vertex tool is active. *)
Definition vertex_editing : BenchWorld :=
  mkBenchWorld true false true true true true "" Cancel false.

(** The same with a map text on the clipboard. *)
Definition with_clipboard : BenchWorld :=
  mkBenchWorld true false true false false true "{ nodes }" Cancel false.

(** A frame over a world, with a frame manager and no compile dialog. *)
Definition frame_over (w : BenchWorld) : Frame := mkFrame None (Some 1%nat) w [].

(** The same with the compile dialog open. *)
Definition compiling (w : BenchWorld) : Frame :=
  mkFrame (Some 5%nat) (Some 1%nat) w [].

(** The frames two close events end in: the user answers No, and the
    user cancels while the compile dialog is open. *)
Definition closed_frame : Frame :=
  Eval vm_compute in
    match closeEvent (frame_over (editing No)) with
    | Ret _ f => f
    | EnsureFailed f => f
    end.

Definition kept_frame : Frame :=
  Eval vm_compute in
    match closeEvent (compiling (editing Cancel)) with
    | Ret _ f => f
    | EnsureFailed f => f
    end.

End BenchShell.


(** ** Reading the calls of the frame *)

Module ShellTrace.
Import MapFrameShell.

Section Trace.
Context `{Shell}.

(** The world after a list of calls. *)
Definition replay (w : World) (l : list Cmd) : World :=
  fold_left (fun w c => perform c w) l w.

Definition is_save (c : Cmd) : bool :=
  match c with
  | DocumentSave | DocumentSaveAs _ => true
  | _ => false
  end.

Definition is_critical (c : Cmd) : bool :=
  match c with
  | CriticalMessage _ => true
  | _ => false
  end.

Definition is_window_save (c : Cmd) : bool :=
  match c with
  | SaveWindowGeometry | SaveWindowState | SaveHSplitterState
  | SaveVSplitterState => true
  | _ => false
  end.

(** Among the calls [l] made from the world [w] there is a save of the
    document that returned normally. *)
Definition saved (w : World) (l : list Cmd) : Prop :=
  exists l1 c l2,
    l = l1 ++ c :: l2 /\ is_save c = true /\ fails c (replay w l1) = false.

(** Transactions begun and not yet committed or cancelled. *)
Definition transaction_step (pending : Z) (c : Cmd) : Z :=
  match c with
  | TransactionBegin _ => pending + 1
  | TransactionCommit | TransactionCancel => pending - 1
  | _ => pending
  end.

Definition pending_transactions (l : list Cmd) : Z :=
  fold_left transaction_step l 0.

(** Whether the compile dialog, if there is one, agrees to close. *)
Definition compile_dialog_closes (f : Frame) : bool :=
  match m_compilationDialog f with
  | None => true
  | Some _ => answer_bool CompilationDialogClose (world f)
  end.

(** The world once the compile dialog has been asked to close. *)
Definition after_compile_dialog (f : Frame) : World :=
  match m_compilationDialog f with
  | None => world f
  | Some _ => perform CompilationDialogClose (world f)
  end.

(** The user lets the changes go: the document is not modified, or the
    answer to the question is No. *)
Definition changes_discarded (w : World) : Prop :=
  modified w = false \/
  (modified w = true /\ answer_button AskSaveChanges w = No).

(** The user asks to keep the changes. *)
Definition changes_kept (w : World) : Prop :=
  modified w = true /\ answer_button AskSaveChanges w = Yes.

(** The user backs out of the question. *)
Definition changes_undecided (w : World) : Prop :=
  modified w = true /\ answer_button AskSaveChanges w <> Yes
  /\ answer_button AskSaveChanges w <> No.

End Trace.

End ShellTrace.

(** ** Model/Assets/Palette.cpp *)

Module Palette.

Definition byte : Type := Byte.byte.

(** The value of an [unsigned char]. *)
Definition byte_val (b : byte) : Z := Z.of_N (Byte.to_N b).

(** The data members of [Palette]. *)
Record Palette : Type := mkPalette {
  m_data : list byte;
  m_size : Z
}.

(** Outcome of a member function: a value, a failed [assert], an access
    outside a buffer, or a failed [new]. *)
Inductive Res (A : Type) : Type :=
| Done (a : A)
| AssertionFailed
| OutOfBounds
| BadAlloc.
Arguments Done {A} _.
Arguments AssertionFailed {A}.
Arguments OutOfBounds {A}.
Arguments BadAlloc {A}.

Global Instance Res_ret : MRet Res := fun A a => Done a.
Global Instance Res_bind : MBind Res := fun A B k c =>
  match c with
  | Done a => k a
  | AssertionFailed => AssertionFailed
  | OutOfBounds => OutOfBounds
  | BadAlloc => BadAlloc
  end.

Definition assert (NDEBUG : bool) (c : bool) : Res unit :=
  if NDEBUG then Done tt else if c then Done tt else AssertionFailed.

(** [static_cast<int>]: reduction into the 32-bit two's complement range. *)
Definition to_int (z : Z) : Z := (z + 2 ^ 31) mod 2 ^ 32 - 2 ^ 31.

(** Arithmetic in [unsigned int]. *)
Definition to_uint (z : Z) : Z := z mod 2 ^ 32.

(** The constructor. [file] is the content found at the path, [None] when
    the file cannot be opened ([tellg] then answers -1). *)
Definition Palette_new (NDEBUG : bool) (file : option (list byte))
  : Res Palette :=
  assert NDEBUG (bool_decide (file ≠ None));;
  let size :=
    to_int (match file with
            | Some bytes => Z.of_nat (length bytes)
            | None => -1
            end) in
  if size <? 0 then BadAlloc
  else
    mret (mkPalette
            (match file with
             | Some bytes => take (Z.to_nat size) bytes
             | None => []
             end)
            size).

(** [buffer[k]] as an rvalue. *)
Definition read (buffer : list byte) (k : Z) : Res byte :=
  match buffer !! Z.to_nat k with
  | Some b => Done b
  | None => OutOfBounds
  end.

(** [buffer[k] = b]. *)
Definition write (buffer : list byte) (k : Z) (b : byte) : Res (list byte) :=
  if bool_decide (Z.to_nat k < length buffer)%nat
  then Done (<[Z.to_nat k := b]> buffer)
  else OutOfBounds.

(** The inner loop of [indexToRgb], [j] running over [js]. *)
Fixpoint copy_rgb (p : Palette) (index i : Z) (js : list Z)
         (rgbImage : list byte) : Res (list byte) :=
  match js with
  | [] => mret rgbImage
  | j :: js' =>
      b ← read (m_data p) (to_uint (index * 3 + j));
      rgbImage' ← write rgbImage (to_uint (i * 3 + j)) b;
      copy_rgb p index i js' rgbImage'
  end.

(** The outer loop of [indexToRgb] from pixel [i], with [n] pixels to go. *)
Fixpoint indexToRgb_from (NDEBUG : bool) (p : Palette)
         (indexedImage : list byte) (n : nat) (i : Z)
         (rgbImage : list byte) : Res (list byte) :=
  match n with
  | O => mret rgbImage
  | S n' =>
      b ← read indexedImage i;
      let index := byte_val b in
      assert NDEBUG (index <? m_size p);;
      rgbImage' ← copy_rgb p index i [0; 1; 2] rgbImage;
      indexToRgb_from NDEBUG p indexedImage n' (i + 1) rgbImage'
  end.

(** [indexToRgb]; the result is the content of [rgbImage] afterwards. *)
Definition indexToRgb (NDEBUG : bool) (p : Palette)
           (indexedImage rgbImage : list byte) (pixelCount : Z)
  : Res (list byte) :=
  indexToRgb_from NDEBUG p indexedImage (Z.to_nat pixelCount) 0 rgbImage.

(** A palette file of three bytes (one colour) and an image of one pixel
    that names colour 1. *)
Definition one_colour_file : list byte := [Byte.x0a; Byte.x14; Byte.x1e].
Definition one_colour : Palette := mkPalette one_colour_file 3.
Definition pixel_1 : list byte := [Byte.x01].
Definition blank_rgb : list byte := [Byte.x00; Byte.x00; Byte.x00].

End Palette.

(** ** A palette of 256 colours *)

Module BenchPalette.
Import Palette.

(** A palette file of 768 bytes and an image of two pixels. *)
Definition grey_file : list byte := repeat Byte.x80 768.
Definition two_pixels : list byte := [Byte.x00; Byte.xff].
Definition blank_rgb6 : list byte := repeat Byte.x00 6.

End BenchPalette.


(** * Properties of the vertex tool *)

(** ** What the call log of the tool says about its collaborators *)

Module Ledger.
Import VertexTool.

Global Instance Signal_eq_dec : EqDecision Signal.
Proof. solve_decision. Defined.

Section Ledger.
Context `{HK : HandleKind}.

Definition pointer_set (p : option FigurePtr) : gset FigurePtr :=
  match p with
  | Some f => {[f]}
  | None => ∅
  end.

(** The figures the tool holds a pointer to. *)
Definition held (t : Tool) : gset FigurePtr :=
  pointer_set (m_handleFigure t) ∪ pointer_set (m_selectedHandleFigure t)
  ∪ pointer_set (m_guideFigure t).

Definition differ (p q : option FigurePtr) : Prop :=
  match p, q with
  | Some f, Some g => f ≠ g
  | _, _ => True
  end.

Definition below (n : nat) (p : option FigurePtr) : Prop :=
  match p with
  | Some f => (f < n)%nat
  | None => True
  end.

(** The three figure pointers are distinct and were handed out by [new]. *)
Definition pointers_sound (t : Tool) (w : World) : Prop :=
  differ (m_handleFigure t) (m_selectedHandleFigure t) /\
  differ (m_handleFigure t) (m_guideFigure t) /\
  differ (m_selectedHandleFigure t) (m_guideFigure t) /\
  below (next_figure w) (m_handleFigure t) /\
  below (next_figure w) (m_selectedHandleFigure t) /\
  below (next_figure w) (m_guideFigure t).

(** The figures that exist after a call, given those that existed before. *)
Definition allocated_step (a : gset FigurePtr) (c : Call) : gset FigurePtr :=
  match c with
  | NewHandleFigure f | NewPointGuideFigure f => a ∪ {[f]}
  | DeleteFigure f => a ∖ {[f]}
  | _ => a
  end.
Definition allocated (a : gset FigurePtr) (cs : list Call) : gset FigurePtr :=
  fold_left allocated_step cs a.

(** The figures the renderer shows after a call. *)
Definition shown_step (a : gset FigurePtr) (c : Call) : gset FigurePtr :=
  match c with
  | AddFigure f => a ∪ {[f]}
  | RemoveFigure f => a ∖ {[f]}
  | _ => a
  end.
Definition shown (a : gset FigurePtr) (cs : list Call) : gset FigurePtr :=
  fold_left shown_step cs a.

(** A call uses only figures that exist: [new] returns an unused address,
    [delete] and every member call are made on an existing figure. *)
Definition call_is_safe (a : gset FigurePtr) (c : Call) : Prop :=
  match c with
  | NewHandleFigure f | NewPointGuideFigure f => f ∉ a
  | SetColor f _ | SetHiddenColor f _ | UpdateHandleFigure f
  | AddFigure f | RemoveFigure f | DeleteFigure f => f ∈ a
  | UpdateSelectedHandleFigures sel guide _ _ => sel ∈ a /\ guide ∈ a
  | _ => True
  end.

Fixpoint figures_used_safely (a : gset FigurePtr) (cs : list Call) : Prop :=
  match cs with
  | [] => True
  | c :: rest =>
      call_is_safe a c /\ figures_used_safely (allocated_step a c) rest
  end.

(** Listeners added and not yet removed, counted for one signal. *)
Definition listening_step (s : Signal) (n : Z) (c : Call) : Z :=
  match c with
  | AddListener s' => if decide (s' = s) then n + 1 else n
  | RemoveListener s' => if decide (s' = s) then n - 1 else n
  | _ => n
  end.
Definition listening (s : Signal) (cs : list Call) : Z :=
  fold_left (listening_step s) cs 0.

(** Undo transactions begun and not yet ended. *)
Definition open_step (n : Z) (c : Call) : Z :=
  match c with
  | UndoBegin _ => n + 1
  | UndoEnd => n - 1
  | _ => n
  end.
Definition open_transactions (cs : list Call) : Z :=
  fold_left open_step cs 0.

(** The geometry operations in a call log. *)
Definition is_move_call (c : Call) : bool :=
  match c with
  | PerformMove _ _ _ => true
  | _ => false
  end.
Definition move_calls (cs : list Call) : list Call :=
  List.filter is_move_call cs.

(** The listener registrations in a call log. *)
Definition is_listener_call (c : Call) : bool :=
  match c with
  | AddListener _ | RemoveListener _ => true
  | _ => false
  end.
Definition listener_calls (cs : list Call) : list Call :=
  List.filter is_listener_call cs.

(** Every geometry operation of a call log is made while an undo
    transaction is open; [n] transactions are open at the start. *)
Fixpoint moves_bracketed (n : Z) (cs : list Call) : Prop :=
  match cs with
  | [] => True
  | c :: rest =>
      (is_move_call c = true -> 0 < n) /\ moves_bracketed (open_step n c) rest
  end.

(** The transitions of the state machine, and what each one tells the
    document's listeners and the undo manager. [hit] is what the pick of
    the event found. *)
Definition protocol (op : Op) (hit : option (Hit Vec3f))
           (before after : EState) (cs : list Call) : Prop :=
  match op with
  | Activated =>
      before = INACTIVE /\ after = ACTIVE /\
      listener_calls cs = [AddListener BrushesDidChange;
                           AddListener SelectionAdded;
                           AddListener SelectionRemoved] /\
      undo_calls cs = [] /\ move_calls cs = []
  | Deactivated =>
      before <> INACTIVE /\ after = INACTIVE /\
      listener_calls cs = [RemoveListener BrushesDidChange;
                           RemoveListener SelectionAdded;
                           RemoveListener SelectionRemoved] /\
      undo_calls cs = [] /\ move_calls cs = []
  | LeftMouseDown _ =>
      before = ACTIVE /\
      after = match hit with Some _ => SELECTED | None => ACTIVE end /\
      listener_calls cs = [] /\ undo_calls cs = [] /\ move_calls cs = []
  | LeftMouseUp _ =>
      (before = ACTIVE \/ before = SELECTED) /\ after = ACTIVE /\
      listener_calls cs = [] /\ undo_calls cs = [] /\ move_calls cs = []
  | BeginLeftDrag _ _ =>
      match hit with
      | None => after = before /\ cs = []
      | Some _ =>
          before = SELECTED /\ after = DRAGGING /\
          listener_calls cs = [] /\ undo_calls cs = [UndoBegin undoName] /\
          move_calls cs = []
      end
  | LeftDrag _ _ _ _ =>
      before = DRAGGING /\ after = DRAGGING /\
      listener_calls cs = [] /\ undo_calls cs = []
  | EndLeftDrag _ =>
      before = DRAGGING /\ after = ACTIVE /\
      listener_calls cs = [] /\ undo_calls cs = [UndoEnd] /\
      move_calls cs = []
  | NotifyBrushesDidChange _ | NotifySelectionChanged =>
      before <> INACTIVE /\ after = before /\
      listener_calls cs = [] /\ undo_calls cs = [] /\ move_calls cs = []
  end.

(** The pick an operation looks at. *)
Definition pick_of (op : Op) : option (Hit Vec3f) :=
  match op with
  | LeftMouseDown ev | BeginLeftDrag ev _ => hits_first ev hitType true
  | _ => None
  end.

(** A computation keeps the figure ledger: started with sound pointers,
    it only makes safe calls on figures, and when it returns the figures
    that exist and the figures the renderer shows are again exactly those
    the tool points to. *)
Definition keeps_ledger {A : Type} (c : M A) : Prop :=
  forall t w a t' w',
    pointers_sound t w ->
    c t w = Ret a t' w' ->
    exists l,
      calls w' = calls w ++ l /\
      figures_used_safely (held t) l /\
      allocated (held t) l = held t' /\
      shown (held t) l = held t' /\
      pointers_sound t' w'.

End Ledger.
End Ledger.

(** ** A session on the bench host *)

Module BenchSession.
Import VertexTool Bench.

(** Activate, pick handle 0 of brush 7, drag it by 20 units, release,
    deactivate. *)
Definition drag_session : list Op :=
  [Activated;
   LeftMouseDown (hit7 0);
   BeginLeftDrag (hit7 0) origin;
   LeftDrag None origin (20, 0, 0) origin;
   EndLeftDrag None;
   Deactivated].

(** The same without the final deactivation. *)
Definition drag_session_open : list Op :=
  [Activated;
   LeftMouseDown (hit7 0);
   BeginLeftDrag (hit7 0) origin;
   LeftDrag None origin (20, 0, 0) origin;
   EndLeftDrag None].

(** Where the sessions end in a debug build. *)
Definition drag_session_tool : Tool :=
  Eval vm_compute in
    match run_all false drag_session VertexTool_new world0 with
    | Ret _ t _ => t
    | _ => VertexTool_new
    end.
Definition drag_session_world : World :=
  Eval vm_compute in
    match run_all false drag_session VertexTool_new world0 with
    | Ret _ _ w => w
    | _ => world0
    end.
Definition drag_session_open_tool : Tool :=
  Eval vm_compute in
    match run_all false drag_session_open VertexTool_new world0 with
    | Ret _ t _ => t
    | _ => VertexTool_new
    end.
Definition drag_session_open_world : World :=
  Eval vm_compute in
    match run_all false drag_session_open VertexTool_new world0 with
    | Ret _ _ w => w
    | _ => world0
    end.

End BenchSession.

(** Run the straight-line part of a member function in a hypothesis. *)
Ltac run_tool_in H :=
  unfold VertexTool.activated, VertexTool.deactivated,
    VertexTool.leftMouseDown, VertexTool.leftMouseUp,
    VertexTool.doBeginLeftDrag, VertexTool.doLeftDrag,
    VertexTool.doEndLeftDrag,
    VertexTool.createSelectedHandleFigures,
    VertexTool.deleteSelectedHandleFigures,
    VertexTool.createHandleFigure, VertexTool.deleteHandleFigure,
    VertexTool.updateHandleFigure_member,
    VertexTool.updateSelectedHandleFigures_member,
    VertexTool.new_figure, VertexTool.call, VertexTool.deref,
    VertexTool.when, VertexTool.get_tool, VertexTool.get_editor,
    VertexTool.set_m_state, VertexTool.set_m_brush, VertexTool.set_m_index,
    VertexTool.set_m_handleFigure, VertexTool.set_m_selectedHandleFigure,
    VertexTool.set_m_guideFigure, VertexTool.assert,
    VertexTool.index_of_hit,
    mbind, mret, VertexTool.M_bind, VertexTool.M_ret in H;
  simpl in H.

Section VertexToolFacts.
Import VertexTool.
Context `{HK : HandleKind}.
Variable NDEBUG : bool.

Lemma bind_Ret {A B : Type} (c : M A) (k : A -> M B) t w a t' w' :
  c t w = Ret a t' w' -> (c ≫= k) t w = k a t' w'.
Proof. intros E. unfold mbind, M_bind. now rewrite E. Qed.

Lemma assert_pass (c : bool) t w :
  (NDEBUG = false -> c = true) -> assert NDEBUG c t w = Ret tt t w.
Proof.
  intros Hc. unfold assert. destruct NDEBUG; [reflexivity|].
  now rewrite Hc.
Qed.

Lemma assert_fires t w :
  assert false false t w = AssertionFailed.
Proof. reflexivity. Qed.

(** [doLeftDrag] past its assertions. A release build only needs the
    brush pointer to be valid. *)
Lemma doLeftDrag_body t w b ev lastp cur ref :
  m_brush t = Some b ->
  (NDEBUG = false -> m_state t = DRAGGING /\ m_index t <> -1) ->
  doLeftDrag NDEBUG ev lastp cur ref t w =
  let delta := drag_delta (editor w) b (m_index t) cur ref in
  let result := fst (performMove (editor w) b (m_index t) delta) in
  if vec_null delta then Ret (true, ref) t w
  else if bool_decide (index result = -1) then
    Ret (false, ref) (with_index t (-1)) (after_move w b (m_index t) delta)
  else
    (updateSelectedHandleFigures_member;;
     mret (true, if moved result then vec_add ref delta else ref))
      (with_index t (index result)) (after_move w b (m_index t) delta).
Proof.
  intros Hb Hdbg. unfold doLeftDrag.
  rewrite (bind_Ret get_tool _ t w t t w eq_refl).
  rewrite (bind_Ret (assert _ _) _ t w tt t w)
    by (apply assert_pass; intros E; apply bool_decide_eq_true;
        now apply Hdbg).
  rewrite (bind_Ret (assert _ _) _ t w tt t w)
    by (apply assert_pass; intros E; apply bool_decide_eq_true;
        congruence).
  rewrite (bind_Ret (assert _ _) _ t w tt t w)
    by (apply assert_pass; intros E; apply bool_decide_eq_true;
        now apply Hdbg).
  rewrite (bind_Ret get_editor _ t w (editor w) t w eq_refl).
  rewrite Hb, (bind_Ret (deref (Some b)) _ t w b t w eq_refl).
  cbv zeta. destruct (vec_null _); [reflexivity|].
  rewrite (bind_Ret (performMove_member _ _ _) _ t w _ _ _ eq_refl).
  rewrite (bind_Ret (set_m_index _) _ _ _ _ _ _ eq_refl).
  fold (after_move w b (m_index t)
          (drag_delta (editor w) b (m_index t) cur ref)).
  destruct (bool_decide (index _ = -1)) eqn:Ei; [|reflexivity].
  apply bool_decide_eq_true in Ei. unfold with_index.
  rewrite Ei. reflexivity.
Qed.

Lemma doLeftDrag_entry t w b ev lastp cur ref :
  drag_ready NDEBUG t b ->
  doLeftDrag NDEBUG ev lastp cur ref t w =
  let delta := drag_delta (editor w) b (m_index t) cur ref in
  let result := fst (performMove (editor w) b (m_index t) delta) in
  if vec_null delta then Ret (true, ref) t w
  else if bool_decide (index result = -1) then
    Ret (false, ref) (with_index t (-1)) (after_move w b (m_index t) delta)
  else
    (updateSelectedHandleFigures_member;;
     mret (true, if moved result then vec_add ref delta else ref))
      (with_index t (index result)) (after_move w b (m_index t) delta).
Proof.
  intros (Hs & Hb & Hi). apply doLeftDrag_body; auto.
Qed.

(** C3. A drag step whose snapped delta is the zero vector returns
    "continue" and changes nothing: the tool (brush, index, figures) and
    the world (no geometry call, no figure update) are as before, and the
    reference point is returned as it was passed. *)
Theorem doLeftDrag_zero_delta t w b ev lastp cur ref :
  drag_ready NDEBUG t b ->
  vec_null (drag_delta (editor w) b (m_index t) cur ref) = true ->
  doLeftDrag NDEBUG ev lastp cur ref t w = Ret (true, ref) t w.
Proof.
  intros Hready Hnull.
  rewrite (doLeftDrag_entry _ _ _ _ _ _ _ Hready).
  cbv zeta. now rewrite Hnull.
Qed.

(** What a drag step with a non-zero delta does, by the result of the
    geometry operation. *)
Lemma doLeftDrag_moving t w b ev lastp cur ref :
  drag_ready NDEBUG t b ->
  let delta := drag_delta (editor w) b (m_index t) cur ref in
  let result := fst (performMove (editor w) b (m_index t) delta) in
  vec_null delta = false ->
  doLeftDrag NDEBUG ev lastp cur ref t w =
  if bool_decide (index result = -1) then
    Ret (false, ref) (with_index t (-1)) (after_move w b (m_index t) delta)
  else
    (updateSelectedHandleFigures_member;;
     mret (true, if moved result then vec_add ref delta else ref))
      (with_index t (index result)) (after_move w b (m_index t) delta).
Proof.
  intros Hready delta result Hnull.
  rewrite (doLeftDrag_entry _ _ _ _ _ _ _ Hready).
  cbv zeta. fold delta. now rewrite Hnull.
Qed.

Lemma updateSelectedHandleFigures_member_ok t w sel guide b :
  figures_ready t sel guide -> m_brush t = Some b ->
  updateSelectedHandleFigures_member t w =
  Ret tt t (with_calls w [UpdateSelectedHandleFigures sel guide b (m_index t)]).
Proof.
  intros [Hs Hg] Hb.
  unfold updateSelectedHandleFigures_member, mbind, M_bind, get_tool, deref.
  now rewrite Hs, Hg, Hb.
Qed.

(** C1. A drag step with a non-zero snapped delta whose move operation
    reports index -1 returns "abort" (false). The reference point is
    returned unadvanced, and the only call made is the move operation
    itself: no handle figure is updated. *)
Theorem doLeftDrag_abort t w b ev lastp cur ref :
  drag_ready NDEBUG t b ->
  let delta := drag_delta (editor w) b (m_index t) cur ref in
  vec_null delta = false ->
  index (fst (performMove (editor w) b (m_index t) delta)) = -1 ->
  doLeftDrag NDEBUG ev lastp cur ref t w =
  Ret (false, ref) (with_index t (-1)) (after_move w b (m_index t) delta).
Proof.
  intros Hready delta Hnull Hidx.
  rewrite (doLeftDrag_moving _ _ _ _ _ _ _ Hready Hnull).
  fold delta. now rewrite bool_decide_true.
Qed.

(** C2. A drag step with a non-zero snapped delta whose move operation
    succeeds with [moved = true] and a valid index returns the reference
    point advanced by exactly that delta and stores the returned index as
    the active handle index; whenever the operation reports
    [moved = false] the reference point is returned unchanged. *)
Theorem doLeftDrag_advances_reference t w b sel guide ev lastp cur ref :
  drag_ready NDEBUG t b ->
  figures_ready t sel guide ->
  let delta := drag_delta (editor w) b (m_index t) cur ref in
  let result := fst (performMove (editor w) b (m_index t) delta) in
  vec_null delta = false ->
  (moved result = true -> index result <> -1 ->
   doLeftDrag NDEBUG ev lastp cur ref t w =
   Ret (true, vec_add ref delta) (with_index t (index result))
       (with_calls (after_move w b (m_index t) delta)
          [UpdateSelectedHandleFigures sel guide b (index result)])) /\
  (moved result = false ->
   exists ok t' w',
     doLeftDrag NDEBUG ev lastp cur ref t w = Ret (ok, ref) t' w').
Proof.
  intros Hready Hfig delta result Hnull.
  pose proof Hready as (_ & Hb & _).
  rewrite (doLeftDrag_moving _ _ _ _ _ _ _ Hready Hnull).
  fold delta. fold result.
  assert (Hupd : forall i,
    updateSelectedHandleFigures_member (with_index t i)
                                       (after_move w b (m_index t) delta) =
    Ret tt (with_index t i)
        (with_calls (after_move w b (m_index t) delta)
           [UpdateSelectedHandleFigures sel guide b i])).
  { intros i.
    now rewrite (updateSelectedHandleFigures_member_ok _ _ sel guide b). }
  split.
  - intros Hm Hi. rewrite bool_decide_false by exact Hi.
    unfold mbind, M_bind. rewrite Hupd, Hm. reflexivity.
  - intros Hm. destruct (bool_decide (index result = -1)).
    + eauto.
    + unfold mbind, M_bind. rewrite Hupd, Hm. eauto.
Qed.

(** [doEndLeftDrag] from DRAGGING always returns, in ACTIVE and with the
    handle cleared. *)
Lemma doEndLeftDrag_returns t w ev :
  m_state t = DRAGGING ->
  exists t' w',
    doEndLeftDrag NDEBUG ev t w = Ret tt t' w' /\
    m_state t' = ACTIVE /\ m_brush t' = None /\ m_index t' = -1.
Proof.
  intros Hs. destruct t as [st br ix hf sf gf]. simpl in Hs. subst st.
  unfold doEndLeftDrag, mbind, M_bind, get_tool, assert. simpl.
  destruct NDEBUG, sf, gf, hf; simpl; eauto 10.
Qed.

(** C9. A drag step with a non-zero snapped delta overwrites the stored
    handle index with the index the move operation returned before it
    returns, also when it aborts: after an aborting step the stored index
    is -1 and the state is still DRAGGING; [doEndLeftDrag] then brings the
    tool back to ACTIVE. *)
Theorem doLeftDrag_stores_returned_index t w b sel guide ev lastp cur ref :
  drag_ready NDEBUG t b ->
  figures_ready t sel guide ->
  let delta := drag_delta (editor w) b (m_index t) cur ref in
  let result := fst (performMove (editor w) b (m_index t) delta) in
  vec_null delta = false ->
  exists ok ref' t' w',
    doLeftDrag NDEBUG ev lastp cur ref t w = Ret (ok, ref') t' w' /\
    m_index t' = index result /\
    m_state t' = DRAGGING /\
    (index result = -1 -> ok = false /\ m_index t' = -1) /\
    (exists t'' w'',
       doEndLeftDrag NDEBUG ev t' w' = Ret tt t'' w'' /\
       m_state t'' = ACTIVE).
Proof.
  intros Hready Hfig delta result Hnull.
  pose proof Hready as (Hs & Hb & _).
  rewrite (doLeftDrag_moving _ _ _ _ _ _ _ Hready Hnull).
  fold delta. fold result.
  assert (Hend : forall t' w', m_state t' = DRAGGING ->
    exists t'' w'', doEndLeftDrag NDEBUG ev t' w' = Ret tt t'' w'' /\
                    m_state t'' = ACTIVE).
  { intros t' w' Ht'.
    destruct (doEndLeftDrag_returns t' w' ev Ht') as (t'' & w'' & E & A & _).
    eauto. }
  destruct (bool_decide (index result = -1)) eqn:E.
  - apply bool_decide_eq_true in E.
    exists false, ref, (with_index t (-1)),
      (after_move w b (m_index t) delta).
    repeat split; simpl; auto.
  - apply bool_decide_eq_false in E.
    unfold mbind, M_bind.
    rewrite (updateSelectedHandleFigures_member_ok _ _ sel guide b)
      by assumption.
    do 4 eexists. split; [reflexivity|].
    repeat split; simpl; auto; contradiction.
Qed.

Lemma undo_calls_delete_calls f : undo_calls (delete_calls f) = [].
Proof. now destruct f. Qed.

(** C6. [doBeginLeftDrag] returns "not started" (false) when the pick
    yields no handle hit of the tool's kind, and then changes nothing: no
    undo transaction is opened, tool and world are as before. On a hit
    (in SELECTED, the state a debug build insists on) it records the
    hit's brush, handle index and hit point, opens exactly one undo
    transaction under the operation's name, enters DRAGGING and returns
    "started" (true). *)
Theorem doBeginLeftDrag_spec t w ev ip :
  (hits_first ev hitType true = None ->
   doBeginLeftDrag NDEBUG ev ip t w = Ret (false, ip) t w) /\
  (forall hit,
     hits_first ev hitType true = Some hit ->
     (NDEBUG = false -> m_state t = SELECTED) ->
     exists t' w',
       doBeginLeftDrag NDEBUG ev ip t w = Ret (true, hitPoint hit) t' w' /\
       m_state t' = DRAGGING /\
       m_brush t' = Some (hit_brush hit) /\
       m_index t' = hit_index hit /\
       editor w' = editor w /\
       calls w' =
         calls w ++ delete_calls (m_handleFigure t) ++ [UndoBegin undoName] /\
       undo_calls (calls w') = undo_calls (calls w) ++ [UndoBegin undoName]).
Proof.
  split.
  - intros Hhit. unfold doBeginLeftDrag. now rewrite Hhit.
  - intros hit Hhit Hst. unfold doBeginLeftDrag. rewrite Hhit.
    assert (Hassert : assert NDEBUG (bool_decide (m_state t = SELECTED)) t w
                      = Ret tt t w).
    { unfold assert. destruct NDEBUG; [reflexivity|].
      now rewrite bool_decide_true by auto. }
    unfold mbind at 1 2, M_bind at 1 2, get_tool. rewrite Hassert.
    destruct t as [st br ix hf sf gf]; simpl.
    unfold mbind, M_bind, deleteHandleFigure, get_tool; simpl.
    destruct hf as [f|]; simpl;
      (do 2 eexists; split; [reflexivity|]);
      unfold undo_calls; simpl;
      rewrite ?List.filter_app, <- ?app_assoc; simpl;
      repeat split; rewrite ?app_nil_r; reflexivity.
Qed.

(** The refresh a notification performs. *)
Lemma refresh_ok t w :
  visuals_ready t ->
  (t1 ← get_tool;
   when (bool_decide (m_state t1 = ACTIVE)) updateHandleFigure_member;;
   t2 ← get_tool;
   when (bool_decide (m_state t2 = SELECTED)
         || bool_decide (m_state t2 = DRAGGING))
        updateSelectedHandleFigures_member) t w =
  Ret tt t (with_calls w (refresh_calls t)).
Proof.
  destruct t as [st br ix hf sf gf].
  unfold visuals_ready, refresh_calls; simpl.
  destruct st; simpl.
  - contradiction.
  - intros [f ->]. reflexivity.
  - intros ([f ->] & [g ->] & [b ->]). reflexivity.
  - intros ([f ->] & [g ->] & [b ->]). reflexivity.
Qed.

Lemma brushesDidChange_loop_spec t w brushes :
  visuals_ready t ->
  brushesDidChange_loop brushes t w =
  Ret tt t (if existsb (brush_selected (editor w)) brushes
            then with_calls w (refresh_calls t) else w).
Proof.
  intros Hready. induction brushes as [|b rest IH]; [reflexivity|].
  cbn [brushesDidChange_loop existsb].
  unfold mbind at 1, M_bind at 1, get_editor.
  destruct (brush_selected (editor w) b); cbn [orb].
  - now apply refresh_ok.
  - exact IH.
Qed.

Lemma assert_not_inactive t w :
  visuals_ready t ->
  assert NDEBUG (negb (bool_decide (m_state t = INACTIVE))) t w = Ret tt t w.
Proof.
  unfold visuals_ready, assert. destruct NDEBUG; [reflexivity|].
  destruct (m_state t); simpl; [contradiction| | |]; reflexivity.
Qed.

Lemma selectionChanged_spec t w :
  visuals_ready t ->
  selectionChanged NDEBUG t w = Ret tt t (with_calls w (refresh_calls t)).
Proof.
  intros Hready. unfold selectionChanged.
  unfold mbind at 1 2, M_bind at 1 2, get_tool at 1.
  rewrite assert_not_inactive by assumption.
  now apply refresh_ok.
Qed.

Lemma brushesDidChange_spec t w brushes :
  visuals_ready t ->
  brushesDidChange NDEBUG brushes t w =
  Ret tt t (if existsb (brush_selected (editor w)) brushes
            then with_calls w (refresh_calls t) else w).
Proof.
  intros Hready. unfold brushesDidChange, mbind, M_bind, get_tool.
  rewrite assert_not_inactive by assumption.
  now apply brushesDidChange_loop_spec.
Qed.

(** C4, as the code has it. In ACTIVE, SELECTED or DRAGGING a
    selection-changed notification always refreshes the visual aggregate
    of the state; a brush-set-changed notification refreshes it (once)
    when at least one of the brushes it carries is selected, and does
    nothing otherwise. *)
Theorem notifications_refresh t w brushes :
  visuals_ready t ->
  selectionChanged NDEBUG t w = Ret tt t (with_calls w (refresh_calls t)) /\
  brushesDidChange NDEBUG brushes t w =
  Ret tt t (if existsb (brush_selected (editor w)) brushes
            then with_calls w (refresh_calls t) else w).
Proof.
  intros Hready. split.
  - now apply selectionChanged_spec.
  - now apply brushesDidChange_spec.
Qed.

(** [deactivated] deletes the unselected-handle figure, removes the
    listeners and sets the state; brush, index and the selected-handle
    figures are left as they are. *)
Lemma deactivated_spec t w :
  (NDEBUG = false -> m_state t <> INACTIVE) ->
  deactivated NDEBUG t w =
  Ret tt
      (mkTool INACTIVE (m_brush t) (m_index t) None
              (m_selectedHandleFigure t) (m_guideFigure t))
      (with_calls w (delete_calls (m_handleFigure t) ++
                     [RemoveListener BrushesDidChange;
                      RemoveListener SelectionAdded;
                      RemoveListener SelectionRemoved])).
Proof.
  intros Hst. destruct t as [st br ix hf sf gf]; simpl in *.
  unfold deactivated, mbind, M_bind, get_tool, assert; simpl.
  assert (E : (if NDEBUG then Ret tt (mkTool st br ix hf sf gf) w
               else if negb (bool_decide (st = INACTIVE))
                    then Ret tt (mkTool st br ix hf sf gf) w
                    else AssertionFailed)
              = Ret tt (mkTool st br ix hf sf gf) w).
  { destruct NDEBUG; [reflexivity|].
    rewrite bool_decide_false by auto. reflexivity. }
  rewrite E. unfold with_calls.
  destruct hf; simpl; rewrite <- ?app_assoc; reflexivity.
Qed.

End VertexToolFacts.

(** ** Debug and release builds *)

Section BuildModes.
Import VertexTool.
Context `{HK : HandleKind}.









(** In a debug build every call that returns leaves the figures and the
    brush of the new state in place: the hypotheses [figures_ready] and
    [visuals_ready] of the statements above hold throughout a session. *)
Lemma debug_run_consistent op t w t' w' :
  consistent t ->
  run false op t w = Ret tt t' w' ->
  consistent t'.
Proof.
  intros Hc Hrun. destruct op; cbn [run] in Hrun.
  - (* activated *)
    destruct t as [st br ix hf sf gf]. run_tool_in Hrun.
    destruct st; try discriminate Hrun.
    right. destruct hf; inversion Hrun; subst;
      unfold visuals_ready; simpl; eauto.
  - (* deactivated *)
    destruct t as [st br ix hf sf gf]. run_tool_in Hrun.
    destruct st; try discriminate Hrun;
      left; destruct hf; inversion Hrun; reflexivity.
  - (* leftMouseDown *)
    destruct t as [st br ix hf sf gf]. unfold leftMouseDown in Hrun.
    destruct (hits_first event hitType true) as [hit|];
      run_tool_in Hrun; (destruct st; try discriminate Hrun).
    + right. revert Hrun.
      destruct hf, sf, gf; simpl;
        repeat match goal with
               | |- context [@bool_decide ?P ?d] =>
                   destruct (@bool_decide P d); simpl
               end;
        intros Hrun; try discriminate Hrun;
        inversion Hrun; subst; unfold visuals_ready; simpl; eauto.
    + inversion Hrun; subst. exact Hc.
  - (* leftMouseUp *)
    destruct t as [st br ix hf sf gf]. run_tool_in Hrun.
    destruct st; try discriminate Hrun.
    + inversion Hrun; subst. exact Hc.
    + right. destruct sf, gf, hf; inversion Hrun; subst;
        unfold visuals_ready; simpl; eauto.
  - (* doBeginLeftDrag *)
    destruct t as [st br ix hf sf gf]. unfold doBeginLeftDrag in Hrun.
    destruct (hits_first event hitType true) as [hit|];
      run_tool_in Hrun.
    + destruct st; try discriminate Hrun.
      destruct Hc as [Hc|Hc]; [discriminate Hc|].
      unfold visuals_ready in Hc; simpl in Hc.
      destruct Hc as ([f ->] & [g ->] & _).
      right. destruct hf; inversion Hrun; subst;
        unfold visuals_ready; simpl; eauto.
    + inversion Hrun; subst. exact Hc.
  - (* doLeftDrag *)
    destruct t as [st br ix hf sf gf].
    unfold mbind at 1, M_bind at 1 in Hrun.
    destruct (decide (st = DRAGGING)) as [->|Hst].
    + destruct Hc as [Hc|Hc]; [discriminate Hc|].
      unfold visuals_ready in Hc; simpl in Hc.
      destruct Hc as ([f ->] & [g ->] & [b ->]).
      destruct (decide (ix = -1)) as [->|Hix].
      * run_tool_in Hrun. discriminate Hrun.
      * rewrite (doLeftDrag_body false _ w b) in Hrun by (simpl; auto).
        cbv zeta in Hrun. simpl in Hrun. revert Hrun.
        destruct (vec_null _); simpl.
        { intros Hrun. inversion Hrun; subst. right.
          unfold visuals_ready; simpl; eauto. }
        destruct (bool_decide (index _ = -1)); intros Hrun;
          run_tool_in Hrun; inversion Hrun; subst; right;
          unfold visuals_ready; simpl; eauto.
    + destruct st; try (exfalso; apply Hst; reflexivity);
        run_tool_in Hrun; discriminate Hrun.
  - (* doEndLeftDrag *)
    destruct t as [st br ix hf sf gf]. run_tool_in Hrun.
    destruct st; try discriminate Hrun.
    right. destruct sf, gf, hf; inversion Hrun; subst;
      unfold visuals_ready; simpl; eauto.
  - (* brushesDidChange *)
    destruct Hc as [Hc|Hc].
    + unfold brushesDidChange, mbind, M_bind, get_tool, assert in Hrun.
      rewrite Hc in Hrun. discriminate Hrun.
    + rewrite (brushesDidChange_spec false t w brushes Hc) in Hrun.
      inversion Hrun; subst. now right.
  - (* selectionChanged *)
    destruct Hc as [Hc|Hc].
    + unfold selectionChanged, mbind, M_bind, get_tool, assert in Hrun.
      rewrite Hc in Hrun. discriminate Hrun.
    + rewrite (selectionChanged_spec false t w Hc) in Hrun.
      inversion Hrun; subst. now right.
Qed.

Lemma debug_run_all_consistent ops :
  forall t w t' w',
    consistent t ->
    run_all false ops t w = Ret tt t' w' ->
    consistent t'.
Proof.
  induction ops as [|op rest IH]; intros t w t' w' Hc Hrun.
  - inversion Hrun; subst. exact Hc.
  - cbn [run_all] in Hrun. unfold mbind, M_bind in Hrun.
    destruct (run false op t w) as [[] t1 w1| |] eqn:E;
      try discriminate Hrun.
    eapply IH; [|exact Hrun].
    eapply debug_run_consistent; eauto.
Qed.

(** Every state a debug build reaches from the constructor. *)
Lemma debug_reachable_consistent ops w t' w' :
  run_all false ops VertexTool_new w = Ret tt t' w' ->
  consistent t'.
Proof.
  apply debug_run_all_consistent. now left.
Qed.

End BuildModes.

(** ** Runs on the bench host *)

Section BenchRuns.
Import VertexTool Bench.

(** C1 at a concrete drag: handle 1 merges into its neighbour. *)
Lemma doLeftDrag_abort_witness :
  doLeftDrag false None origin (20, 0, 0) origin (dragging 1) world_drag =
  Ret (false, origin) (with_index (dragging 1) (-1))
      (after_move world_drag 7%nat 1 (16, 0, 0)).
Proof.
  apply (doLeftDrag_abort false (dragging 1) world_drag 7%nat
                          None origin (20, 0, 0) origin).
  - repeat split. discriminate.
  - reflexivity.
  - reflexivity.
Defined.

(** C2 at two concrete drags: handle 0 moves, handle 2 is rejected. *)
Lemma doLeftDrag_advances_reference_witness :
  doLeftDrag false None origin (20, 0, 0) origin (dragging 0) world_drag =
  Ret (true, (16, 0, 0)) (with_index (dragging 0) 0)
      (with_calls (after_move world_drag 7%nat 0 (16, 0, 0))
         [UpdateSelectedHandleFigures 100%nat 101%nat 7%nat 0]) /\
  exists ok t' w',
    doLeftDrag false None origin (20, 0, 0) origin (dragging 2) world_drag =
    Ret (ok, origin) t' w'.
Proof.
  assert (Hr0 : drag_ready false (dragging 0) 7%nat)
    by (repeat split; discriminate).
  assert (Hr2 : drag_ready false (dragging 2) 7%nat)
    by (repeat split; discriminate).
  assert (Hf0 : figures_ready (dragging 0) 100%nat 101%nat)
    by (split; reflexivity).
  assert (Hf2 : figures_ready (dragging 2) 100%nat 101%nat)
    by (split; reflexivity).
  split.
  - pose proof (doLeftDrag_advances_reference false (dragging 0) world_drag
                  7%nat 100%nat 101%nat None origin (20, 0, 0) origin
                  Hr0 Hf0 eq_refl) as [Hmoved _].
    apply Hmoved; [reflexivity | discriminate].
  - pose proof (doLeftDrag_advances_reference false (dragging 2) world_drag
                  7%nat 100%nat 101%nat None origin (20, 0, 0) origin
                  Hr2 Hf2 eq_refl) as [_ Hstuck].
    apply Hstuck. reflexivity.
Defined.

(** C3 at a concrete drag: 5 units snap to nothing on a grid of 16. *)
Lemma doLeftDrag_zero_delta_witness :
  doLeftDrag false None origin (5, 0, 0) origin (dragging 0) world_drag =
  Ret (true, origin) (dragging 0) world_drag.
Proof.
  apply (doLeftDrag_zero_delta false (dragging 0) world_drag 7%nat
                               None origin (5, 0, 0) origin).
  - repeat split. discriminate.
  - reflexivity.
Defined.

(** C9 at a concrete drag. *)
Lemma doLeftDrag_stores_returned_index_witness :
  exists ok ref' t' w',
    doLeftDrag false None origin (20, 0, 0) origin (dragging 1) world_drag =
    Ret (ok, ref') t' w' /\
    m_index t' = -1 /\
    m_state t' = DRAGGING /\
    (-1 = -1 -> ok = false /\ m_index t' = -1) /\
    (exists t'' w'',
       doEndLeftDrag false None t' w' = Ret tt t'' w'' /\
       m_state t'' = ACTIVE).
Proof.
  assert (Hr : drag_ready false (dragging 1) 7%nat)
    by (repeat split; discriminate).
  assert (Hf : figures_ready (dragging 1) 100%nat 101%nat)
    by (split; reflexivity).
  exact (doLeftDrag_stores_returned_index false (dragging 1) world_drag
           7%nat 100%nat 101%nat None origin (20, 0, 0) origin
           Hr Hf eq_refl).
Defined.

(** C6 at a concrete pick, without and with a handle hit. *)
Lemma doBeginLeftDrag_spec_witness :
  doBeginLeftDrag false None origin (selected_tool 3) world_drag =
  Ret (false, origin) (selected_tool 3) world_drag /\
  exists t' w',
    doBeginLeftDrag false (hit7 3) origin (selected_tool 3) world_drag =
    Ret (true, (1, 2, 3)) t' w' /\
    m_state t' = DRAGGING /\
    m_brush t' = Some 7%nat /\
    m_index t' = 3 /\
    editor w' = editor0 /\
    calls w' = [UndoBegin "Move Vertex"] /\
    undo_calls (calls w') = [UndoBegin "Move Vertex"].
Proof.
  split.
  - apply (doBeginLeftDrag_spec false (selected_tool 3) world_drag
             None origin).
    reflexivity.
  - exact (proj2 (doBeginLeftDrag_spec false (selected_tool 3) world_drag
                    (hit7 3) origin)
                 (mkHit 7%nat 3 (1, 2, 3)) eq_refl (fun _ => eq_refl)).
Defined.

(** C4, as amended, at concrete notifications. *)
Lemma notifications_refresh_witness :
  selectionChanged false active_tool world_active =
  Ret tt active_tool (with_calls world_active [UpdateHandleFigure 100%nat]) /\
  brushesDidChange false [8%nat; 7%nat] active_tool world_active =
  Ret tt active_tool (with_calls world_active [UpdateHandleFigure 100%nat]).
Proof.
  assert (Hready : visuals_ready active_tool) by (unfold visuals_ready; simpl; eauto).
  exact (notifications_refresh false active_tool world_active
                               [8%nat; 7%nat] Hready).
Defined.

(** C4 as stated fails: a brush-set-changed notification that carries
    only an unselected brush refreshes nothing. *)
Lemma brushesDidChange_refresh_is_conditional :
  ~ (forall (brushes : list BrushPtr) (t : Tool) (w : World),
       visuals_ready t ->
       brushesDidChange false brushes t w =
       Ret tt t (with_calls w (refresh_calls t))).
Proof.
  intros Hclaim.
  specialize (Hclaim [8%nat] active_tool world_active).
  assert (Hready : visuals_ready active_tool) by (unfold visuals_ready; simpl; eauto).
  specialize (Hclaim Hready).
  vm_compute in Hclaim. discriminate Hclaim.
Qed.

(** C5 fails on the code: a tool that is deactivated while a handle is
    selected ends in INACTIVE with the brush pointer and the handle index
    still set. *)
Theorem deactivated_leaves_handle_set :
  exists w',
    (activated false;; leftMouseDown false (hit7 3);; deactivated false)
      VertexTool_new world0 =
    Ret tt (mkTool INACTIVE (Some 7%nat) 3 None (Some 101%nat) (Some 102%nat))
        w'.
Proof. eexists. vm_compute. reflexivity. Qed.



End BenchRuns.

(** * Properties of the convex-merge command *)

Section MapFrameFacts.
Import MapFrame.

(** When the command is enabled, exactly. *)
Lemma canDoCsgConvexMerge_iff f :
  canDoCsgConvexMerge f = true <->
  (hasSelectedBrushFaces f = true /\ (2 <= selectedBrushFaces_size f)%N)
  \/ (hasOnlyBrushes f = true /\ (2 <= brushCount f)%N)
  \/ tool_can_merge f.
Proof.
  unfold canDoCsgConvexMerge, tool_can_merge.
  rewrite !orb_true_iff, !andb_true_iff, !N.ltb_lt.
  intuition lia.
Qed.

(** The command calls something exactly when it is enabled. *)
Lemma csgConvexMerge_None_iff f :
  csgConvexMerge f = None <-> canDoCsgConvexMerge f = false.
Proof.
  unfold csgConvexMerge.
  destruct (canDoCsgConvexMerge f).
  - repeat match goal with |- context [if ?c then _ else _] =>
             destruct c end; split; discriminate.
  - split; reflexivity.
Qed.

(** C7. The convex merge needs at least two inputs. The command is
    enabled, and calls anything at all, only when at least two brushes or
    at least two brush faces are selected or an active vertex, edge or
    face tool reports that it can merge; it reaches the document only
    with two brushes or two faces; with fewer inputs it is disabled and
    [csgConvexMerge] makes no call. *)
Theorem csgConvexMerge_needs_enough_inputs f :
  (canDoCsgConvexMerge f = true -> enough_inputs f) /\
  (forall r, csgConvexMerge f = Some r -> enough_inputs f) /\
  (csgConvexMerge f = Some DocumentMerge ->
   (2 <= brushCount f)%N \/ (2 <= selectedBrushFaces_size f)%N) /\
  (~ enough_inputs f ->
   canDoCsgConvexMerge f = false /\ csgConvexMerge f = None).
Proof.
  assert (Hen : canDoCsgConvexMerge f = true -> enough_inputs f).
  { intros Hcan. apply canDoCsgConvexMerge_iff in Hcan.
    unfold enough_inputs. tauto. }
  assert (Hsome : forall r, csgConvexMerge f = Some r ->
                            canDoCsgConvexMerge f = true).
  { intros r Hr. destruct (canDoCsgConvexMerge f) eqn:E; [reflexivity|].
    apply csgConvexMerge_None_iff in E. congruence. }
  repeat apply conj.
  - exact Hen.
  - intros r Hr. eauto.
  - intros Hdoc. pose proof (Hsome _ Hdoc) as Hcan.
    apply canDoCsgConvexMerge_iff in Hcan.
    unfold csgConvexMerge in Hdoc. rewrite (Hsome _ Hdoc) in Hdoc.
    unfold tool_can_merge in Hcan.
    destruct (vertexToolActive f && vertexTool_canDoCsgConvexMerge f) eqn:Ev;
      [discriminate|].
    destruct (edgeToolActive f && edgeTool_canDoCsgConvexMerge f) eqn:Ee;
      [discriminate|].
    destruct (faceToolActive f && faceTool_canDoCsgConvexMerge f) eqn:Ef;
      [discriminate|].
    rewrite andb_false_iff in Ev, Ee, Ef.
    destruct Hcan as [[_ Hfaces] | [[_ Hbrushes] | Htool]]; auto.
    exfalso. intuition congruence.
  - intros Hfew.
    destruct (canDoCsgConvexMerge f) eqn:E; [now elim Hfew; auto|].
    split; [reflexivity|]. now apply csgConvexMerge_None_iff.
Qed.

(** C7 on two selected brushes and on a single one. *)
Lemma csgConvexMerge_needs_enough_inputs_witness :
  enough_inputs two_brushes /\
  ((2 <= brushCount two_brushes)%N \/
   (2 <= selectedBrushFaces_size two_brushes)%N) /\
  (canDoCsgConvexMerge one_brush = false /\ csgConvexMerge one_brush = None).
Proof.
  pose proof (csgConvexMerge_needs_enough_inputs two_brushes)
    as (Hcan & _ & Hdoc & _).
  pose proof (csgConvexMerge_needs_enough_inputs one_brush)
    as (_ & _ & _ & Hfew).
  repeat apply conj.
  - apply Hcan. reflexivity.
  - apply Hdoc. reflexivity.
  - apply Hfew. unfold enough_inputs, tool_can_merge. simpl.
    intros [Hb | [Hf | [[_ Hv] | [[He _] | [Hfa _]]]]];
      try discriminate; lia.
  - apply Hfew. unfold enough_inputs, tool_can_merge. simpl.
    intros [Hb | [Hf | [[_ Hv] | [[He _] | [Hfa _]]]]];
      try discriminate; lia.
Defined.

End MapFrameFacts.

(** * Properties of the palette lookup *)

Section PaletteFacts.
Import Palette.

Lemma byte_val_range (b : byte) : 0 <= byte_val b < 256.
Proof.
  unfold byte_val. pose proof (Byte.to_N_bounded b) as Hb. lia.
Qed.

(** A file of fewer than 2^31 bytes is loaded whole. *)
Lemma Palette_new_loads NDEBUG (bytes : list byte) :
  Z.of_nat (length bytes) < 2 ^ 31 ->
  Palette_new NDEBUG (Some bytes) =
  Done (mkPalette bytes (Z.of_nat (length bytes))).
Proof.
  intros Hlen. unfold Palette_new, assert, to_int.
  assert (E : (Z.of_nat (length bytes) + 2 ^ 31) mod 2 ^ 32 - 2 ^ 31
              = Z.of_nat (length bytes)).
  { rewrite Z.mod_small; lia. }
  rewrite bool_decide_true by discriminate.
  destruct NDEBUG; simpl; rewrite E;
    (destruct (Z.ltb_spec (Z.of_nat (length bytes)) 0); [lia|]);
    rewrite Nat2Z.id, firstn_all; reflexivity.
Qed.

(** The three bytes of one pixel, when the palette holds them. *)
Lemma copy_rgb_ok p (ix i : nat) (rgbImage : list byte) b0 b1 b2 :
  m_data p !! (3 * ix)%nat = Some b0 ->
  m_data p !! (3 * ix + 1)%nat = Some b1 ->
  m_data p !! (3 * ix + 2)%nat = Some b2 ->
  (3 * i + 2 < length rgbImage)%nat ->
  3 * Z.of_nat i + 2 < 2 ^ 32 ->
  3 * Z.of_nat ix + 2 < 2 ^ 32 ->
  copy_rgb p (Z.of_nat ix) (Z.of_nat i) [0; 1; 2] rgbImage =
  Done (<[(3 * i + 2)%nat := b2]>
          (<[(3 * i + 1)%nat := b1]> (<[(3 * i)%nat := b0]> rgbImage))).
Proof.
  intros H0 H1 H2 Hlen Hi Hix.
  unfold copy_rgb, read, write, to_uint.
  rewrite !Z.mod_small by lia.
  replace (Z.to_nat (Z.of_nat ix * 3 + 0)) with (3 * ix)%nat by lia.
  replace (Z.to_nat (Z.of_nat ix * 3 + 1)) with (3 * ix + 1)%nat by lia.
  replace (Z.to_nat (Z.of_nat ix * 3 + 2)) with (3 * ix + 2)%nat by lia.
  replace (Z.to_nat (Z.of_nat i * 3 + 0)) with (3 * i)%nat by lia.
  replace (Z.to_nat (Z.of_nat i * 3 + 1)) with (3 * i + 1)%nat by lia.
  replace (Z.to_nat (Z.of_nat i * 3 + 2)) with (3 * i + 2)%nat by lia.
  rewrite H0. cbn [mbind Res_bind].
  rewrite bool_decide_true by lia. cbn [mbind Res_bind].
  rewrite H1. cbn [mbind Res_bind].
  rewrite bool_decide_true by (rewrite length_insert; lia).
  cbn [mbind Res_bind].
  rewrite H2. cbn [mbind Res_bind].
  rewrite bool_decide_true by (rewrite !length_insert; lia).
  reflexivity.
Qed.

Lemma rgb_after_pixel (rgbImage : list byte) (i : nat) b0 b1 b2 :
  (3 * i + 2 < length rgbImage)%nat ->
  let out := <[(3 * i + 2)%nat := b2]>
               (<[(3 * i + 1)%nat := b1]> (<[(3 * i)%nat := b0]> rgbImage)) in
  length out = length rgbImage /\
  out !! (3 * i)%nat = Some b0 /\
  out !! (3 * i + 1)%nat = Some b1 /\
  out !! (3 * i + 2)%nat = Some b2 /\
  (forall k, (k < 3 * i \/ 3 * (i + 1) <= k)%nat -> out !! k = rgbImage !! k).
Proof.
  intros Hlen out. subst out. repeat apply conj.
  - now rewrite !length_insert.
  - rewrite !list_lookup_insert_ne by lia.
    apply list_lookup_insert_eq. lia.
  - rewrite list_lookup_insert_ne by lia.
    apply list_lookup_insert_eq. rewrite length_insert. lia.
  - apply list_lookup_insert_eq. rewrite !length_insert. lia.
  - intros k Hk. now rewrite !list_lookup_insert_ne by lia.
Qed.

(** The loop from pixel [i] on, when every palette read is in bounds. *)
Lemma indexToRgb_from_ok NDEBUG p (indexedImage : list byte) (n : nat) :
  forall (i : nat) (rgbImage : list byte),
    (i + n <= length indexedImage)%nat ->
    (3 * (i + n) <= length rgbImage)%nat ->
    3 * Z.of_nat (i + n) <= 2 ^ 32 ->
    (forall k b, (i <= k < i + n)%nat -> indexedImage !! k = Some b ->
                 3 * byte_val b + 2 < Z.of_nat (length (m_data p)) /\
                 (NDEBUG = false -> byte_val b < m_size p)) ->
    exists out,
      indexToRgb_from NDEBUG p indexedImage n (Z.of_nat i) rgbImage
      = Done out /\
      length out = length rgbImage /\
      (forall k, (k < 3 * i \/ 3 * (i + n) <= k)%nat ->
                 out !! k = rgbImage !! k) /\
      (forall k b j, (i <= k < i + n)%nat -> indexedImage !! k = Some b ->
                     (j < 3)%nat ->
                     out !! (3 * k + j)%nat =
                     m_data p !! (3 * Z.to_nat (byte_val b) + j)%nat).
Proof.
  induction n as [|n IH]; intros i rgbImage Himg Hrgb Hwrap Hpal.
  - exists rgbImage. repeat split; auto. intros; lia.
  - destruct (lookup_lt_is_Some_2 indexedImage i) as [b Hb]; [lia|].
    destruct (Hpal i b) as [Hin Hassert]; [lia|assumption|].
    pose proof (byte_val_range b) as Hrange.
    set (ix := Z.to_nat (byte_val b)).
    assert (Eix : byte_val b = Z.of_nat ix) by (subst ix; lia).
    destruct (lookup_lt_is_Some_2 (m_data p) (3 * ix)) as [b0 H0]; [lia|].
    destruct (lookup_lt_is_Some_2 (m_data p) (3 * ix + 1)) as [b1 H1]; [lia|].
    destruct (lookup_lt_is_Some_2 (m_data p) (3 * ix + 2)) as [b2 H2]; [lia|].
    pose proof (rgb_after_pixel rgbImage i b0 b1 b2 ltac:(lia))
      as (Hlen' & Hn0 & Hn1 & Hn2 & Hrest).
    set (rgb' := <[(3 * i + 2)%nat := b2]>
                   (<[(3 * i + 1)%nat := b1]>
                      (<[(3 * i)%nat := b0]> rgbImage))) in *.
    destruct (IH (S i) rgb') as (out & Hrun & Hlen & Hout & Hpix).
    { lia. } { lia. } { lia. }
    { intros k c Hk Hc. apply (Hpal k c); [lia|assumption]. }
    exists out. repeat apply conj.
    + cbn [indexToRgb_from]. unfold read at 1.
      rewrite Nat2Z.id, Hb. cbn [mbind Res_bind].
      assert (Ea : assert NDEBUG (byte_val b <? m_size p) = Done tt).
      { unfold assert. destruct NDEBUG; [reflexivity|].
        destruct (Z.ltb_spec (byte_val b) (m_size p)); [reflexivity|].
        specialize (Hassert eq_refl). lia. }
      rewrite Ea. cbn [mbind Res_bind].
      rewrite Eix.
      rewrite (copy_rgb_ok p ix i rgbImage b0 b1 b2) by (assumption || lia).
      cbn [mbind Res_bind].
      replace (Z.of_nat i + 1) with (Z.of_nat (S i)) by lia.
      exact Hrun.
    + lia.
    + intros k Hk. rewrite Hout by lia. apply Hrest. lia.
    + intros k c j Hk Hc Hj.
      destruct (decide (k = i)) as [->|Hne].
      * assert (c = b) by congruence. subst c. fold ix.
        rewrite Hout by lia.
        destruct j as [|[|[|j]]]; [| | |lia].
        -- rewrite !Nat.add_0_r. now rewrite Hn0, H0.
        -- now rewrite Hn1, H1.
        -- now rewrite Hn2, H2.
      * apply Hpix; [lia|assumption|assumption].
Qed.

(** When every palette read is in bounds, [indexToRgb] gives pixel [k]
    the three palette bytes at offsets [3 * index + j] and leaves the
    rest of the output buffer alone. *)
Lemma indexToRgb_in_bounds NDEBUG p (indexedImage rgbImage : list byte)
      (pixelCount : nat) :
  (pixelCount <= length indexedImage)%nat ->
  (3 * pixelCount <= length rgbImage)%nat ->
  3 * Z.of_nat pixelCount <= 2 ^ 32 ->
  (forall k b, (k < pixelCount)%nat -> indexedImage !! k = Some b ->
               3 * byte_val b + 2 < Z.of_nat (length (m_data p)) /\
               (NDEBUG = false -> byte_val b < m_size p)) ->
  exists out,
    indexToRgb NDEBUG p indexedImage rgbImage (Z.of_nat pixelCount)
    = Done out /\
    length out = length rgbImage /\
    (forall k, (3 * pixelCount <= k)%nat -> out !! k = rgbImage !! k) /\
    (forall k b j, (k < pixelCount)%nat -> indexedImage !! k = Some b ->
                   (j < 3)%nat ->
                   out !! (3 * k + j)%nat =
                   m_data p !! (3 * Z.to_nat (byte_val b) + j)%nat).
Proof.
  intros Himg Hrgb Hwrap Hpal. unfold indexToRgb. rewrite Nat2Z.id.
  destruct (indexToRgb_from_ok NDEBUG p indexedImage pixelCount 0 rgbImage)
    as (out & Hrun & Hlen & Hout & Hpix); try (simpl; lia).
  { intros k b Hk Hb. apply (Hpal k b); [lia|assumption]. }
  exists out. repeat apply conj.
  - exact Hrun.
  - exact Hlen.
  - intros k Hk. apply Hout. simpl. lia.
  - intros k b j Hk. apply Hpix. lia.
Qed.

(** A palette of at least 768 bytes (256 colours) holds every colour an
    index byte can name. *)
Lemma full_palette_in_bounds p (b : byte) :
  768 <= Z.of_nat (length (m_data p)) ->
  3 * byte_val b + 2 < Z.of_nat (length (m_data p)).
Proof. pose proof (byte_val_range b). lia. Qed.

(** C10 fails on the code: the assertion [index < m_size] lets through
    an index whose three bytes lie outside the palette. With a palette
    file of three bytes and a pixel naming colour 1 the assertion passes
    (1 < 3) and the lookup reads offsets 3, 4 and 5 of a 3-byte buffer,
    in a debug build as in a release build. *)
Theorem indexToRgb_reads_past_palette :
  Palette_new false (Some one_colour_file) = Done one_colour /\
  assert false (byte_val Byte.x01 <? m_size one_colour) = Done tt /\
  read (m_data one_colour) (to_uint (byte_val Byte.x01 * 3 + 0))
  = OutOfBounds /\
  indexToRgb false one_colour pixel_1 blank_rgb 1 = OutOfBounds /\
  indexToRgb true one_colour pixel_1 blank_rgb 1 = OutOfBounds.
Proof. repeat split; vm_compute; reflexivity. Qed.

End PaletteFacts.

(** * The call log of the tool *)

#[local] Set Warnings "-clear-no-such-hyp".

Section LedgerFacts.
Import VertexTool Ledger.
Context `{HK : HandleKind}.
Variable NDEBUG : bool.

Lemma allocated_app a l l' :
  allocated a (l ++ l') = allocated (allocated a l) l'.
Proof. unfold allocated. apply fold_left_app. Qed.

Lemma shown_app a l l' : shown a (l ++ l') = shown (shown a l) l'.
Proof. unfold shown. apply fold_left_app. Qed.

Lemma figures_used_safely_app l : forall a l',
  figures_used_safely a (l ++ l') <->
  figures_used_safely a l /\ figures_used_safely (allocated a l) l'.
Proof.
  induction l as [|c l IH]; intros a l'; simpl.
  - tauto.
  - rewrite IH. unfold allocated. simpl. tauto.
Qed.

Lemma differ_not_elem f q : differ (Some f) q -> f ∉ pointer_set q.
Proof. destruct q; simpl; set_solver. Qed.

Lemma differ_not_elem_l f p : differ p (Some f) -> f ∉ pointer_set p.
Proof. destruct p; simpl; set_solver. Qed.

Lemma below_not_elem n p : below n p -> n ∉ pointer_set p.
Proof. destruct p; simpl; [|set_solver]. intros Hlt. set_unfold. lia. Qed.

Lemma below_S n p : below n p -> below (S n) p.
Proof. destruct p; simpl; lia. Qed.

(** A computation that makes no call and leaves the figure pointers and
    the allocation counter alone. *)
Lemma keeps_ledger_silent {A : Type} (c : M A) :
  (forall t w a t' w',
      c t w = Ret a t' w' ->
      calls w' = calls w /\ next_figure w' = next_figure w /\
      m_handleFigure t' = m_handleFigure t /\
      m_selectedHandleFigure t' = m_selectedHandleFigure t /\
      m_guideFigure t' = m_guideFigure t) ->
  keeps_ledger c.
Proof.
  intros Hc t w a t' w' Hs Hrun.
  destruct (Hc _ _ _ _ _ Hrun) as (Hcalls & Hn & Hh & Hsel & Hg).
  exists []. unfold held, pointers_sound in *.
  rewrite Hcalls, Hn, Hh, Hsel, Hg, app_nil_r. simpl. auto.
Qed.

Lemma keeps_ledger_ret {A : Type} (a : A) : keeps_ledger (mret a).
Proof.
  apply keeps_ledger_silent. intros t w a' t' w' E.
  inversion E; subst. auto.
Qed.

Lemma keeps_ledger_bind {A B : Type} (c : M A) (k : A -> M B) :
  keeps_ledger c -> (forall a, keeps_ledger (k a)) -> keeps_ledger (c ≫= k).
Proof.
  intros Hc Hk t w b t' w' Hs Hrun.
  unfold mbind, M_bind in Hrun.
  destruct (c t w) as [a t1 w1| |] eqn:E; try discriminate Hrun.
  destruct (Hc _ _ _ _ _ Hs E) as (l1 & Hl1 & Hsafe1 & Ha1 & Hsh1 & Hs1).
  destruct (Hk a _ _ _ _ _ Hs1 Hrun) as (l2 & Hl2 & Hsafe2 & Ha2 & Hsh2 & Hs2).
  exists (l1 ++ l2). refine (conj _ (conj _ (conj _ (conj _ _)))).
  - rewrite Hl2, Hl1. now rewrite app_assoc.
  - apply figures_used_safely_app. rewrite Ha1. auto.
  - rewrite allocated_app, Ha1. exact Ha2.
  - rewrite shown_app, Hsh1. exact Hsh2.
  - exact Hs2.
Qed.

Lemma keeps_ledger_get_tool : keeps_ledger get_tool.
Proof.
  apply keeps_ledger_silent. intros t w a t' w' E.
  inversion E; subst. auto.
Qed.

Lemma keeps_ledger_get_editor : keeps_ledger get_editor.
Proof.
  apply keeps_ledger_silent. intros t w a t' w' E.
  inversion E; subst. auto.
Qed.

Lemma keeps_ledger_assert c : keeps_ledger (assert NDEBUG c).
Proof.
  apply keeps_ledger_silent. intros t w a t' w' E. unfold assert in E.
  destruct NDEBUG, c; inversion E; subst; auto.
Qed.

Lemma keeps_ledger_deref {A : Type} (p : option A) : keeps_ledger (deref p).
Proof.
  apply keeps_ledger_silent. intros t w a t' w' E. unfold deref in E.
  destruct p; inversion E; subst; auto.
Qed.

Lemma keeps_ledger_set_m_state s : keeps_ledger (set_m_state s).
Proof.
  apply keeps_ledger_silent. intros t w a t' w' E.
  inversion E; subst. auto.
Qed.

Lemma keeps_ledger_set_m_brush b : keeps_ledger (set_m_brush b).
Proof.
  apply keeps_ledger_silent. intros t w a t' w' E.
  inversion E; subst. auto.
Qed.

Lemma keeps_ledger_set_m_index i : keeps_ledger (set_m_index i).
Proof.
  apply keeps_ledger_silent. intros t w a t' w' E.
  inversion E; subst. auto.
Qed.

(** A single call that does not allocate, delete, add or remove. *)
Lemma keeps_ledger_call c :
  (forall a, allocated_step a c = a) ->
  (forall a, shown_step a c = a) ->
  (forall t, call_is_safe (held t) c) ->
  keeps_ledger (call c).
Proof.
  intros Ha Hsh Hsafe t w a t' w' Hs E. inversion E; subst.
  exists [c]. unfold allocated, shown. simpl.
  rewrite Ha, Hsh. refine (conj _ (conj _ (conj _ (conj _ _)))); auto.
Qed.

Lemma keeps_ledger_performMove b i delta :
  keeps_ledger (performMove_member b i delta).
Proof.
  intros t w a t' w' Hs E. inversion E; subst.
  exists [PerformMove b i delta]. simpl.
  refine (conj _ (conj _ (conj _ (conj _ _)))); auto.
Qed.

Lemma keeps_ledger_updateHandleFigure : keeps_ledger updateHandleFigure_member.
Proof.
  intros t w a t' w' Hs E.
  unfold updateHandleFigure_member, mbind, M_bind, get_tool, deref in E.
  destruct (m_handleFigure t) as [f|] eqn:Ef; inversion E; subst.
  exists [UpdateHandleFigure f].
  refine (conj _ (conj _ (conj _ (conj _ _)))); auto.
  unfold held. rewrite Ef. simpl. split; [set_solver|exact I].
Qed.

Lemma keeps_ledger_updateSelected :
  keeps_ledger updateSelectedHandleFigures_member.
Proof.
  intros t w a t' w' Hs E.
  unfold updateSelectedHandleFigures_member, mbind, M_bind, get_tool, deref
    in E.
  destruct (m_selectedHandleFigure t) as [f|] eqn:Ef; [|discriminate E].
  destruct (m_guideFigure t) as [g|] eqn:Eg; [|discriminate E].
  destruct (m_brush t) as [b|] eqn:Eb; inversion E; subst.
  exists [UpdateSelectedHandleFigures f g b (m_index t')].
  refine (conj _ (conj _ (conj _ (conj _ _)))); auto.
  unfold held. rewrite Ef, Eg. simpl. split; [set_solver|exact I].
Qed.

Lemma keeps_ledger_when c body :
  keeps_ledger body -> keeps_ledger (when c body).
Proof. intros Hb. destruct c; [exact Hb|apply keeps_ledger_ret]. Qed.

Lemma keeps_ledger_deleteHandleFigure : keeps_ledger deleteHandleFigure.
Proof.
  intros t w a t' w' Hs E.
  destruct t as [st br ix hf sf gf].
  unfold deleteHandleFigure, mbind, M_bind, get_tool in E. simpl in E.
  destruct hf as [f|]; inversion E; subst; clear E.
  - exists [RemoveFigure f; DeleteFigure f].
    destruct Hs as (D1 & D2 & D3 & B1 & B2 & B3); simpl in *.
    pose proof (differ_not_elem _ _ D1). pose proof (differ_not_elem _ _ D2).
    unfold held, allocated, shown; simpl.
    refine (conj _ (conj _ (conj _ (conj _ _)))).
    + now rewrite <- app_assoc.
    + set_solver.
    + set_solver.
    + set_solver.
    + unfold pointers_sound; simpl. tauto.
  - exists []. rewrite app_nil_r.
    exact (conj eq_refl (conj I (conj eq_refl (conj eq_refl Hs)))).
Qed.

Lemma keeps_ledger_createHandleFigure : keeps_ledger createHandleFigure.
Proof.
  intros t w a t' w' Hs E.
  destruct t as [st br ix hf sf gf].
  unfold createHandleFigure, deleteHandleFigure, mbind, M_bind, new_figure,
    call, set_m_handleFigure, updateHandleFigure_member, get_tool, deref in E.
  destruct Hs as (D1 & D2 & D3 & B1 & B2 & B3); simpl in *.
  pose proof (below_not_elem _ _ B1) as N1.
  pose proof (below_not_elem _ _ B2) as N2.
  pose proof (below_not_elem _ _ B3) as N3.
  assert (Hsound : forall n, n = next_figure w ->
            pointers_sound (mkTool st br ix (Some n) sf gf)
                           (mkWorld (editor w) (S n) (calls w'))).
  { intros n ->. unfold pointers_sound; simpl.
    repeat split; auto using below_S.
    - destruct sf; simpl in *; auto; lia.
    - destruct gf; simpl in *; auto; lia. }
  destruct hf as [f|]; inversion E; subst; clear E.
  - pose proof (differ_not_elem _ _ D1). pose proof (differ_not_elem _ _ D2).
    eexists.
    refine (conj _ (conj _ (conj _ (conj _ (Hsound _ eq_refl))))).
    + simpl. rewrite <- !app_assoc. simpl. reflexivity.
    + unfold held; simpl. set_solver.
    + unfold held, allocated; simpl. set_solver.
    + unfold held, shown; simpl. set_solver.
  - eexists.
    refine (conj _ (conj _ (conj _ (conj _ (Hsound _ eq_refl))))).
    + simpl. rewrite <- !app_assoc. simpl. reflexivity.
    + unfold held; simpl. set_solver.
    + unfold held, allocated; simpl. set_solver.
    + unfold held, shown; simpl. set_solver.
Qed.

Lemma keeps_ledger_deleteSelectedHandleFigures :
  keeps_ledger deleteSelectedHandleFigures.
Proof.
  intros t w a t' w' Hs E.
  destruct t as [st br ix hf sf gf]. destruct w as [e n cs0].
  unfold deleteSelectedHandleFigures, mbind, M_bind, get_tool in E.
  destruct Hs as (D1 & D2 & D3 & B1 & B2 & B3); simpl in *.
  assert (Hsound : forall cs,
            pointers_sound (mkTool st br ix hf None None)
                           (mkWorld e n cs)).
  { intros cs. unfold pointers_sound; simpl.
    destruct hf; simpl; tauto. }
  destruct sf as [f|], gf as [g|]; simpl in E; inversion E; subst; clear E;
    eexists;
    refine (conj _ (conj _ (conj _ (conj _ (Hsound _)))));
    try (simpl; rewrite <- ?app_assoc; simpl;
         first [reflexivity | symmetry; apply app_nil_r]);
    try (pose proof (differ_not_elem_l _ _ D1));
    try (pose proof (differ_not_elem_l _ _ D2));
    unfold held, allocated, shown; simpl in *; set_solver.
Qed.

Lemma deleteSelectedHandleFigures_clears t w a t' w' :
  deleteSelectedHandleFigures t w = Ret a t' w' ->
  m_selectedHandleFigure t' = None /\ m_guideFigure t' = None.
Proof.
  destruct t as [st br ix hf sf gf].
  unfold deleteSelectedHandleFigures, mbind, M_bind, get_tool. simpl.
  destruct sf, gf; simpl; intros E; inversion E; subst; auto.
Qed.

(** The part of [createSelectedHandleFigures] after the old figures are
    gone. *)
Lemma new_selected_figures_ledger t w a t' w' :
  m_selectedHandleFigure t = None -> m_guideFigure t = None ->
  pointers_sound t w ->
  (f ← new_figure;
   call (NewHandleFigure f);;
   set_m_selectedHandleFigure (Some f);;
   call (SetColor f selectedHandleColor);;
   call (SetHiddenColor f hiddenSelectedHandleColor);;
   g ← new_figure;
   call (NewPointGuideFigure g);;
   set_m_guideFigure (Some g);;
   call (SetColor g selectedHandleColor);;
   call (SetHiddenColor g hiddenSelectedHandleColor);;
   updateSelectedHandleFigures_member;;
   call (AddFigure f);;
   call (AddFigure g)) t w = Ret a t' w' ->
  exists l,
    calls w' = calls w ++ l /\
    figures_used_safely (held t) l /\
    allocated (held t) l = held t' /\
    shown (held t) l = held t' /\
    pointers_sound t' w'.
Proof.
  destruct t as [st br ix hf sf gf]. destruct w as [e n cs0]. simpl.
  intros -> -> Hs.
  unfold mbind, M_bind, new_figure, call, set_m_selectedHandleFigure,
    set_m_guideFigure, updateSelectedHandleFigures_member, get_tool, deref.
  simpl.
  destruct Hs as (_ & _ & _ & B1 & _ & _); simpl in *.
  assert (N0 : n ∉ pointer_set hf) by now apply below_not_elem.
  assert (N1 : S n ∉ pointer_set hf)
    by (apply below_not_elem; now apply below_S).
  assert (N2 : n ≠ S n) by lia.
  destruct br as [b|]; simpl; intros E; inversion E; subst; clear E.
  eexists. refine (conj _ (conj _ (conj _ (conj _ _)))).
  - rewrite <- !app_assoc. simpl. reflexivity.
  - unfold held; simpl. set_solver.
  - unfold held, allocated; simpl. set_solver.
  - unfold held, shown; simpl. set_solver.
  - unfold pointers_sound; simpl.
    destruct hf; simpl in *; repeat split; auto; lia.
Qed.

Lemma assert_Ret c t w a t' w' :
  assert NDEBUG c t w = Ret a t' w' -> t' = t /\ w' = w.
Proof.
  unfold assert. destruct NDEBUG; [|destruct c]; intros E; inversion E; auto.
Qed.

Lemma keeps_ledger_createSelectedHandleFigures :
  keeps_ledger (createSelectedHandleFigures NDEBUG).
Proof.
  intros t w a t' w' Hs E.
  unfold createSelectedHandleFigures in E.
  unfold mbind at 1 2 3 4, M_bind at 1 2 3 4, get_tool at 1 in E.
  destruct (assert NDEBUG (bool_decide (m_brush t ≠ None)) t w)
    as [[] t0 w0| |] eqn:E0; try discriminate E.
  destruct (assert_Ret _ _ _ _ _ _ E0) as [-> ->].
  destruct (assert NDEBUG (bool_decide (0 ≤ m_index t)) t w)
    as [[] t0 w0| |] eqn:E1; try discriminate E.
  destruct (assert_Ret _ _ _ _ _ _ E1) as [-> ->].
  destruct (deleteSelectedHandleFigures t w) as [[] t1 w1| |] eqn:E2;
    try discriminate E.
  destruct (keeps_ledger_deleteSelectedHandleFigures _ _ _ _ _ Hs E2)
    as (l1 & Hl1 & Hsafe1 & Ha1 & Hsh1 & Hs1).
  destruct (deleteSelectedHandleFigures_clears _ _ _ _ _ E2) as [Hsf Hgf].
  destruct (new_selected_figures_ledger _ _ _ _ _ Hsf Hgf Hs1 E)
    as (l2 & Hl2 & Hsafe2 & Ha2 & Hsh2 & Hs2).
  exists (l1 ++ l2). refine (conj _ (conj _ (conj _ (conj _ Hs2)))).
  - rewrite Hl2, Hl1. now rewrite app_assoc.
  - apply figures_used_safely_app. rewrite Ha1. auto.
  - rewrite allocated_app, Ha1. exact Ha2.
  - rewrite shown_app, Hsh1. exact Hsh2.
Qed.

Ltac ledger_step :=
  first
    [ apply keeps_ledger_ret
    | apply keeps_ledger_get_tool
    | apply keeps_ledger_get_editor
    | apply keeps_ledger_assert
    | apply keeps_ledger_deref
    | apply keeps_ledger_set_m_state
    | apply keeps_ledger_set_m_brush
    | apply keeps_ledger_set_m_index
    | apply keeps_ledger_performMove
    | apply keeps_ledger_updateHandleFigure
    | apply keeps_ledger_updateSelected
    | apply keeps_ledger_deleteHandleFigure
    | apply keeps_ledger_createHandleFigure
    | apply keeps_ledger_deleteSelectedHandleFigures
    | apply keeps_ledger_createSelectedHandleFigures
    | apply keeps_ledger_when
    | apply keeps_ledger_call; [intros; reflexivity ..| intros; exact I]
    | match goal with
      | |- keeps_ledger (if ?c then _ else _) => destruct c
      | |- keeps_ledger (match ?x with _ => _ end) => destruct x
      end
    | apply keeps_ledger_bind; [|intros] ].

Ltac ledger := repeat ledger_step.

Lemma keeps_ledger_brushesDidChange_loop brushes :
  keeps_ledger (brushesDidChange_loop brushes).
Proof.
  induction brushes as [|b rest IH]; cbn [brushesDidChange_loop].
  - ledger.
  - apply keeps_ledger_bind; [ledger|]. intros e.
    destruct (brush_selected e b); [ledger|exact IH].
Qed.

Lemma keeps_ledger_run op : keeps_ledger (run NDEBUG op).
Proof.
  destruct op; cbn [run].
  - unfold activated. ledger.
  - unfold deactivated. ledger.
  - unfold leftMouseDown. ledger.
  - unfold leftMouseUp. ledger.
  - unfold doBeginLeftDrag. ledger.
  - unfold doLeftDrag. ledger.
  - unfold doEndLeftDrag. ledger.
  - unfold brushesDidChange.
    apply keeps_ledger_bind; [ledger|]. intros t.
    apply keeps_ledger_bind; [ledger|]. intros _.
    apply keeps_ledger_brushesDidChange_loop.
  - unfold selectionChanged. ledger.
Qed.

Lemma run_all_ledger ops : forall t w t' w',
  pointers_sound t w ->
  figures_used_safely ∅ (calls w) ->
  allocated ∅ (calls w) = held t ->
  shown ∅ (calls w) = held t ->
  run_all NDEBUG ops t w = Ret tt t' w' ->
  figures_used_safely ∅ (calls w') /\
  allocated ∅ (calls w') = held t' /\
  shown ∅ (calls w') = held t' /\
  pointers_sound t' w'.
Proof.
  induction ops as [|op rest IH]; intros t w t' w' Hs Hsafe Ha Hsh Hrun.
  - inversion Hrun; subst. auto.
  - cbn [run_all] in Hrun. unfold mbind, M_bind in Hrun.
    destruct (run NDEBUG op t w) as [[] t1 w1| |] eqn:E;
      try discriminate Hrun.
    destruct (keeps_ledger_run op _ _ _ _ _ Hs E)
      as (l & Hl & Hsafe1 & Ha1 & Hsh1 & Hs1).
    apply (IH t1 w1); auto.
    + rewrite Hl. apply figures_used_safely_app. rewrite Ha. auto.
    + rewrite Hl, allocated_app, Ha. exact Ha1.
    + rewrite Hl, shown_app, Hsh. exact Hsh1.
Qed.

(** X1. Over any sequence of calls on a freshly constructed tool that all
    return, in a debug or a release build, every call made on a figure is
    made on a figure that exists (nothing is used after its [delete],
    nothing is deleted twice), and afterwards the figures that exist and
    the figures the renderer shows are exactly those the tool still points
    to (nothing leaks while the tool lives). *)
Theorem figures_never_misused ops e n t' w' :
  run_all NDEBUG ops VertexTool_new (mkWorld e n []) = Ret tt t' w' ->
  figures_used_safely ∅ (calls w') /\
  allocated ∅ (calls w') = held t' /\
  shown ∅ (calls w') = held t'.
Proof.
  intros Hrun.
  destruct (run_all_ledger ops VertexTool_new (mkWorld e n []) t' w')
    as (Hsafe & Ha & Hsh & _); auto.
  - unfold pointers_sound; simpl. tauto.
  - exact I.
Qed.
End LedgerFacts.

Section ProtocolFacts.
Import VertexTool Ledger.
Context `{HK : HandleKind}.

Ltac protocol_goal :=
  eexists; split;
  [ simpl; rewrite <- ?app_assoc; simpl;
    first [reflexivity | symmetry; apply app_nil_r]
  | unfold protocol, pick_of; simpl;
    repeat split; auto; try discriminate ].

(** The loop of [brushesDidChange] only refreshes. *)
Lemma brushesDidChange_loop_calls brushes : forall t w a t' w',
  brushesDidChange_loop brushes t w = Ret a t' w' ->
  t' = t /\
  exists l, calls w' = calls w ++ l /\
            listener_calls l = [] /\ undo_calls l = [] /\ move_calls l = [].
Proof.
  induction brushes as [|b rest IH]; intros t w a t' w';
    cbn [brushesDidChange_loop].
  - intros E. inversion E; subst. split; [reflexivity|].
    exists []. rewrite app_nil_r. auto.
  - unfold mbind at 1, M_bind at 1, get_editor.
    destruct (brush_selected (editor w) b); [|apply IH].
    destruct t as [st br ix hf sf gf]. intros E. run_tool_in E.
    revert E.
    destruct st, hf, sf, gf, br; simpl; intros E; try discriminate E;
      inversion E; subst; (split; [reflexivity|]);
      eexists; (split;
        [ simpl; first [reflexivity | symmetry; apply app_nil_r]
        | auto ]).
Qed.

(** What one operation of a debug build logs, by the state it starts in. *)
Lemma debug_run_calls op t w t' w' :
  run false op t w = Ret tt t' w' ->
  exists l,
    calls w' = calls w ++ l /\
    protocol op (pick_of op) (m_state t) (m_state t') l.
Proof.
  intros Hrun. destruct t as [st br ix hf sf gf].
  destruct op; cbn [run] in Hrun.
  - run_tool_in Hrun.
    destruct st, hf; simpl in Hrun; try discriminate Hrun;
      inversion Hrun; subst; clear Hrun; protocol_goal.
  - run_tool_in Hrun.
    destruct st, hf; simpl in Hrun; try discriminate Hrun;
      inversion Hrun; subst; clear Hrun; protocol_goal.
  - unfold leftMouseDown in Hrun. unfold pick_of.
    destruct (hits_first event hitType true) as [hit|]; run_tool_in Hrun;
      revert Hrun; destruct st, hf, sf, gf; simpl;
      repeat match goal with
             | |- context [@bool_decide ?P ?d] =>
                 destruct (@bool_decide P d); simpl
             end;
      intros Hrun; try discriminate Hrun;
      inversion Hrun; subst; clear Hrun; protocol_goal.
  - run_tool_in Hrun.
    destruct st, hf, sf, gf; simpl in Hrun; try discriminate Hrun;
      inversion Hrun; subst; clear Hrun; protocol_goal.
  - unfold doBeginLeftDrag in Hrun. unfold pick_of.
    destruct (hits_first event hitType true) as [hit|]; run_tool_in Hrun;
      destruct st, hf; simpl in Hrun; try discriminate Hrun;
      inversion Hrun; subst; clear Hrun; protocol_goal.
  - (* doLeftDrag *)
    unfold mbind at 1, M_bind at 1 in Hrun.
    destruct (doLeftDrag false event lastMousePoint curMousePoint
                referencePoint (mkTool st br ix hf sf gf) w)
      as [r t1 w1| |] eqn:E; try discriminate Hrun.
    inversion Hrun; subst; clear Hrun.
    destruct (decide (st = DRAGGING)) as [->|Hst];
      [|destruct st; try (exfalso; apply Hst; reflexivity);
        run_tool_in E; discriminate E].
    destruct br as [b|]; [|run_tool_in E; discriminate E].
    destruct (decide (ix = -1)) as [->|Hix];
      [run_tool_in E; discriminate E|].
    rewrite (doLeftDrag_body false _ w b) in E by (simpl; auto).
    cbv zeta in E. simpl in E. revert E.
    destruct (vec_null _); simpl.
    { intros E. inversion E; subst. protocol_goal. }
    destruct (bool_decide (index _ = -1)); intros E.
    { inversion E; subst. protocol_goal. }
    run_tool_in E. destruct sf, gf; simpl in E; try discriminate E;
      inversion E; subst; protocol_goal.
  - run_tool_in Hrun.
    destruct st, hf, sf, gf; simpl in Hrun; try discriminate Hrun;
      inversion Hrun; subst; clear Hrun; protocol_goal.
  - (* brushesDidChange *)
    unfold brushesDidChange, mbind, M_bind, get_tool, assert in Hrun.
    simpl in Hrun.
    destruct (decide (st = INACTIVE)) as [->|Hst]; [discriminate Hrun|].
    rewrite bool_decide_false in Hrun by exact Hst. simpl in Hrun.
    destruct (brushesDidChange_loop_calls _ _ _ _ _ _ Hrun)
      as (-> & l & Hl & Hli & Hu & Hm).
    exists l. split; [exact Hl|]. simpl. auto.
  - (* selectionChanged *)
    run_tool_in Hrun. revert Hrun.
    destruct st, hf, sf, gf, br; simpl; intros Hrun; try discriminate Hrun;
      inversion Hrun; subst; clear Hrun; protocol_goal.
Qed.

(** X2. The transition table of a debug build. A call that returns was made
    in a state the operation accepts and ends in the state the table names;
    only [activated] and [deactivated] touch the listeners, only
    [doBeginLeftDrag] on a handle hit and [doEndLeftDrag] touch the undo
    manager, and only the drag step performs geometry operations. *)
Theorem debug_run_protocol op t w t' w' :
  run false op t w = Ret tt t' w' ->
  exists l,
    calls w' = calls w ++ l /\
    protocol op (pick_of op) (m_state t) (m_state t') l.
Proof. exact (debug_run_calls op t w t' w'). Qed.


Lemma listening_step_shift s l : forall k,
  fold_left (listening_step s) l k = k + listening s l.
Proof.
  unfold listening.
  induction l as [|c l IH]; intros k; simpl; [lia|].
  rewrite IH, (IH (listening_step s 0 c)).
  destruct c; simpl; try lia; destruct (decide (_ = s)); lia.
Qed.

Lemma listening_app s l l' :
  listening s (l ++ l') = listening s l + listening s l'.
Proof.
  unfold listening at 1. rewrite fold_left_app.
  now rewrite listening_step_shift.
Qed.

Lemma listening_listener_calls s l :
  listening s l = listening s (listener_calls l).
Proof.
  induction l as [|c l IH]; [reflexivity|].
  change (c :: l) with ([c] ++ l). rewrite listening_app, IH.
  destruct c; simpl; try reflexivity;
    change (?c :: listener_calls l) with ([c] ++ listener_calls l);
    now rewrite listening_app.
Qed.

Lemma open_step_shift l : forall k,
  fold_left open_step l k = k + open_transactions l.
Proof.
  unfold open_transactions.
  induction l as [|c l IH]; intros k; simpl; [lia|].
  rewrite IH, (IH (open_step 0 c)). destruct c; simpl; lia.
Qed.

Lemma open_transactions_app l l' :
  open_transactions (l ++ l') = open_transactions l + open_transactions l'.
Proof.
  unfold open_transactions at 1. rewrite fold_left_app.
  now rewrite open_step_shift.
Qed.

Lemma open_transactions_undo_calls l :
  open_transactions l = open_transactions (undo_calls l).
Proof.
  induction l as [|c l IH]; [reflexivity|].
  change (c :: l) with ([c] ++ l). rewrite open_transactions_app, IH.
  destruct c; simpl; try reflexivity;
    change (?c :: undo_calls l) with ([c] ++ undo_calls l);
    now rewrite open_transactions_app.
Qed.

Lemma moves_bracketed_app l : forall k l',
  moves_bracketed k (l ++ l') <->
  moves_bracketed k l /\ moves_bracketed (k + open_transactions l) l'.
Proof.
  induction l as [|c l IH]; intros k l'; simpl.
  - replace (k + open_transactions []) with k by (cbn; lia). tauto.
  - rewrite IH.
    change (c :: l) with ([c] ++ l). rewrite open_transactions_app.
    replace (open_step k c + open_transactions l)
      with (k + (open_transactions [c] + open_transactions l)); [tauto|].
    destruct c; cbn; lia.
Qed.

Lemma moves_bracketed_no_moves l : forall k,
  move_calls l = [] -> moves_bracketed k l.
Proof.
  induction l as [|c l IH]; intros k Hm; simpl; [exact I|].
  unfold move_calls in Hm. simpl in Hm.
  destruct (is_move_call c) eqn:Ec; [discriminate Hm|].
  split; [discriminate|]. now apply IH.
Qed.

Lemma moves_bracketed_open l : forall k,
  0 < k -> undo_calls l = [] -> moves_bracketed k l.
Proof.
  induction l as [|c l IH]; intros k Hk Hu; simpl; [exact I|].
  split; [auto|].
  unfold undo_calls in Hu. simpl in Hu.
  destruct c; simpl in *; try discriminate Hu; now apply IH.
Qed.


Ltac use_protocol Hp :=
  unfold protocol, pick_of in Hp;
  repeat match type of Hp with
         | match ?x with _ => _ end => destruct x
         end;
  repeat match goal with
         | H : _ /\ _ |- _ => destruct H
         end;
  repeat match goal with
         | H : context [match hits_first ?a ?b ?c with _ => _ end] |- _ =>
             destruct (hits_first a b c)
         end.

(** One step of a debug session keeps the listeners in line with the
    state. *)
Lemma debug_run_listening op t w t' w' :
  (forall s, listening s (calls w) =
             if bool_decide (m_state t = INACTIVE) then 0 else 1) ->
  run false op t w = Ret tt t' w' ->
  forall s, listening s (calls w') =
            if bool_decide (m_state t' = INACTIVE) then 0 else 1.
Proof.
  intros Hinv Hrun s.
  destruct (debug_run_calls _ _ _ _ _ Hrun) as (l & Hl & Hp).
  rewrite Hl, listening_app, Hinv, (listening_listener_calls s l).
  destruct op; use_protocol Hp;
    repeat match goal with
           | H : listener_calls l = _ |- _ => rewrite H
           | H : l = [] |- _ => rewrite H
           | H : m_state t' = _ |- _ => rewrite H
           | H : m_state t = _ |- _ => rewrite H
           | H : _ \/ _ |- _ => destruct H
           end;
    try (destruct (m_state t); try contradiction);
    destruct s; reflexivity.
Qed.


(** One step of a debug session keeps the geometry operations inside
    undo transactions. *)
Lemma debug_run_bracketed op t w t' w' :
  0 <= open_transactions (calls w) ->
  (m_state t = DRAGGING -> 0 < open_transactions (calls w)) ->
  moves_bracketed 0 (calls w) ->
  run false op t w = Ret tt t' w' ->
  0 <= open_transactions (calls w') /\
  (m_state t' = DRAGGING -> 0 < open_transactions (calls w')) /\
  moves_bracketed 0 (calls w').
Proof.
  intros Hpos Hdrag Hmoves Hrun.
  destruct (debug_run_calls _ _ _ _ _ Hrun) as (l & Hl & Hp).
  rewrite Hl, open_transactions_app, (open_transactions_undo_calls l).
  rewrite moves_bracketed_app. simpl.
  destruct op; use_protocol Hp;
    repeat match goal with
           | H : undo_calls l = _ |- _ => rewrite H
           | H : l = [] |- _ => rewrite H
           | H : m_state t' = _ |- _ => rewrite H
           end;
    try (specialize (Hdrag ltac:(assumption)));
    pose proof (eq_refl : open_transactions [] = 0);
    pose proof (eq_refl : open_transactions [UndoBegin undoName] = 1);
    pose proof (eq_refl : open_transactions [UndoEnd] = -1);
    pose proof (eq_refl : open_transactions (undo_calls []) = 0);
    (split; [lia|]);
    (split; [intros Hd; try discriminate Hd;
             try (specialize (Hdrag Hd)); lia|]);
    (split; [exact Hmoves|]);
    first [ apply moves_bracketed_no_moves; assumption
          | apply moves_bracketed_open; [lia|assumption]
          | exact I ].
Qed.

(** One step of a debug session other than a deactivation keeps a single
    undo transaction open exactly while the tool is dragging. *)
Lemma debug_run_balance op t w t' w' :
  op <> Deactivated ->
  open_transactions (calls w) = (if bool_decide (m_state t = DRAGGING)
                                 then 1 else 0) ->
  run false op t w = Ret tt t' w' ->
  open_transactions (calls w') = (if bool_decide (m_state t' = DRAGGING)
                                  then 1 else 0).
Proof.
  intros Hop Hinv Hrun.
  destruct (debug_run_calls _ _ _ _ _ Hrun) as (l & Hl & Hp).
  rewrite Hl, open_transactions_app, (open_transactions_undo_calls l), Hinv.
  destruct op; try congruence; use_protocol Hp;
    repeat match goal with
           | H : undo_calls l = _ |- _ => rewrite H
           | H : l = [] |- _ => rewrite H
           | H : m_state t' = _ |- _ => rewrite H
           | H : m_state t = _ |- _ => rewrite H
           | H : _ \/ _ |- _ => destruct H
           end;
    try reflexivity;
    destruct (bool_decide (m_state t = DRAGGING)); reflexivity.
Qed.

End ProtocolFacts.

(** ** Sessions of the tool *)

Section SessionFacts.
Import VertexTool Ledger.
Context `{HK : HandleKind}.

Lemma debug_run_all_invariants ops : forall t w t' w',
  (forall s, listening s (calls w) =
             if bool_decide (m_state t = INACTIVE) then 0 else 1) ->
  0 <= open_transactions (calls w) ->
  (m_state t = DRAGGING -> 0 < open_transactions (calls w)) ->
  moves_bracketed 0 (calls w) ->
  run_all false ops t w = Ret tt t' w' ->
  (forall s, listening s (calls w') =
             if bool_decide (m_state t' = INACTIVE) then 0 else 1) /\
  moves_bracketed 0 (calls w').
Proof.
  induction ops as [|op rest IH]; intros t w t' w' Hli Hpos Hdrag Hmv Hrun.
  - inversion Hrun; subst. auto.
  - cbn [run_all] in Hrun. unfold mbind, M_bind in Hrun.
    destruct (run false op t w) as [[] t1 w1| |] eqn:E;
      try discriminate Hrun.
    destruct (debug_run_bracketed _ _ _ _ _ Hpos Hdrag Hmv E)
      as (Hpos1 & Hdrag1 & Hmv1).
    apply (IH t1 w1); auto.
    eapply debug_run_listening; eauto.
Qed.

(** X3. In a debug build the tool listens to each of the three document
    events exactly once while it is not INACTIVE and not at all while it
    is INACTIVE, after any sequence of calls on a freshly constructed tool
    that all return. *)
Theorem debug_session_listeners ops e n t' w' (s : Signal) :
  run_all false ops VertexTool_new (mkWorld e n []) = Ret tt t' w' ->
  listening s (calls w') = if bool_decide (m_state t' = INACTIVE) then 0 else 1.
Proof.
  intros Hrun.
  assert (Hd : m_state VertexTool_new = DRAGGING ->
               0 < open_transactions (calls (mkWorld e n [])))
    by discriminate.
  destruct (debug_run_all_invariants ops VertexTool_new (mkWorld e n [])
              t' w' (fun _ => eq_refl) (Z.le_refl 0) Hd I Hrun) as [Hli _].
  auto.
Qed.

(** X4. In a debug build every geometry operation the tool performs is
    made while an undo transaction it has begun is still open, after any
    sequence of calls on a freshly constructed tool that all return. *)
Theorem debug_session_moves_in_transactions ops e n t' w' :
  run_all false ops VertexTool_new (mkWorld e n []) = Ret tt t' w' ->
  moves_bracketed 0 (calls w').
Proof.
  intros Hrun.
  assert (Hd : m_state VertexTool_new = DRAGGING ->
               0 < open_transactions (calls (mkWorld e n [])))
    by discriminate.
  destruct (debug_run_all_invariants ops VertexTool_new (mkWorld e n [])
              t' w' (fun _ => eq_refl) (Z.le_refl 0) Hd I Hrun) as [_ Hmv].
  auto.
Qed.

Lemma debug_run_all_balance ops : forall t w t' w',
  Forall (fun op => op <> Deactivated) ops ->
  open_transactions (calls w) = (if bool_decide (m_state t = DRAGGING)
                                 then 1 else 0) ->
  run_all false ops t w = Ret tt t' w' ->
  open_transactions (calls w') = (if bool_decide (m_state t' = DRAGGING)
                                  then 1 else 0).
Proof.
  induction ops as [|op rest IH]; intros t w t' w' Hops Hinv Hrun.
  - inversion Hrun; subst. exact Hinv.
  - inversion Hops as [|? ? Hop Hrest]; subst.
    cbn [run_all] in Hrun. unfold mbind, M_bind in Hrun.
    destruct (run false op t w) as [[] t1 w1| |] eqn:E;
      try discriminate Hrun.
    apply (IH t1 w1); auto.
    eapply debug_run_balance; eauto.
Qed.

(** X5. In a debug build, as long as the tool is not deactivated, exactly
    one undo transaction is open while it is DRAGGING and none is open
    otherwise. *)
Theorem debug_session_transaction_balance ops e n t' w' :
  Forall (fun op => op <> Deactivated) ops ->
  run_all false ops VertexTool_new (mkWorld e n []) = Ret tt t' w' ->
  open_transactions (calls w') = (if bool_decide (m_state t' = DRAGGING)
                                  then 1 else 0).
Proof.
  intros Hops Hrun.
  apply (debug_run_all_balance ops VertexTool_new (mkWorld e n [])); auto.
Qed.

(** X6. [deactivated] in the middle of a drag goes to INACTIVE without
    ending the undo transaction and without removing the selected-handle
    and guide figures: the transaction stays open and the figures stay
    with the renderer. *)
Theorem deactivated_while_dragging NDEBUG t w :
  m_state t = DRAGGING ->
  exists t' w',
    deactivated NDEBUG t w = Ret tt t' w' /\
    m_state t' = INACTIVE /\
    open_transactions (calls w') = open_transactions (calls w) /\
    undo_calls (calls w') = undo_calls (calls w) /\
    m_selectedHandleFigure t' = m_selectedHandleFigure t /\
    m_guideFigure t' = m_guideFigure t /\
    shown ∅ (calls w') =
      shown ∅ (calls w) ∖ pointer_set (m_handleFigure t).
Proof.
  intros Hs.
  rewrite (deactivated_spec NDEBUG t w) by (intros _; congruence).
  do 2 eexists. split; [reflexivity|]. simpl.
  assert (Hundo : undo_calls
            (delete_calls (m_handleFigure t) ++
             [RemoveListener BrushesDidChange; RemoveListener SelectionAdded;
              RemoveListener SelectionRemoved]) = []).
  { destruct (m_handleFigure t); reflexivity. }
  repeat split.
  - rewrite open_transactions_app,
      (open_transactions_undo_calls (_ ++ _)), Hundo. cbn. lia.
  - unfold undo_calls in *. rewrite List.filter_app.
    unfold undo_calls in Hundo. rewrite Hundo. now rewrite app_nil_r.
  - rewrite shown_app. destruct (m_handleFigure t); simpl.
    + unfold shown at 1. simpl. set_solver.
    + unfold shown at 1. simpl. set_solver.
Qed.

End SessionFacts.

(** ** Clicks and aborted drags *)

Section ClickFacts.
Import VertexTool Ledger.
Context `{HK : HandleKind}.
Variable NDEBUG : bool.

Lemma deleteHandleFigure_effect t w :
  deleteHandleFigure t w =
  Ret tt (mkTool (m_state t) (m_brush t) (m_index t) None
                 (m_selectedHandleFigure t) (m_guideFigure t))
      (with_calls w (delete_calls (m_handleFigure t))).
Proof.
  destruct t as [st br ix hf sf gf]. destruct w as [e n cs].
  unfold deleteHandleFigure, mbind, M_bind, get_tool, call,
    set_m_handleFigure, with_calls.
  destruct hf; simpl; rewrite <- ?app_assoc, ?app_nil_r; reflexivity.
Qed.

Lemma deleteSelectedHandleFigures_effect t w :
  deleteSelectedHandleFigures t w =
  Ret tt (mkTool (m_state t) (m_brush t) (m_index t) (m_handleFigure t)
                 None None)
      (with_calls w (delete_calls (m_selectedHandleFigure t) ++
                     delete_calls (m_guideFigure t))).
Proof.
  destruct t as [st br ix hf sf gf]. destruct w as [e n cs].
  unfold deleteSelectedHandleFigures, mbind, M_bind, get_tool, call,
    set_m_selectedHandleFigure, set_m_guideFigure, with_calls.
  destruct sf, gf; simpl; rewrite <- ?app_assoc, ?app_nil_r; reflexivity.
Qed.

Lemma createSelectedHandleFigures_effect t w b :
  m_brush t = Some b ->
  (NDEBUG = false -> 0 <= m_index t) ->
  createSelectedHandleFigures NDEBUG t w =
  Ret tt (mkTool (m_state t) (Some b) (m_index t) (m_handleFigure t)
                 (Some (next_figure w)) (Some (S (next_figure w))))
      (mkWorld (editor w) (S (S (next_figure w)))
         (calls w ++ delete_calls (m_selectedHandleFigure t) ++
          delete_calls (m_guideFigure t) ++
          [NewHandleFigure (next_figure w);
           SetColor (next_figure w) selectedHandleColor;
           SetHiddenColor (next_figure w) hiddenSelectedHandleColor;
           NewPointGuideFigure (S (next_figure w));
           SetColor (S (next_figure w)) selectedHandleColor;
           SetHiddenColor (S (next_figure w)) hiddenSelectedHandleColor;
           UpdateSelectedHandleFigures (next_figure w) (S (next_figure w))
                                       b (m_index t);
           AddFigure (next_figure w);
           AddFigure (S (next_figure w))])).
Proof.
  intros Hb Hix. unfold createSelectedHandleFigures.
  rewrite (bind_Ret get_tool _ t w t t w eq_refl).
  rewrite (bind_Ret (assert _ _) _ t w tt t w)
    by (apply assert_pass; intros _; apply bool_decide_eq_true; congruence).
  rewrite (bind_Ret (assert _ _) _ t w tt t w)
    by (apply assert_pass; intros E; apply bool_decide_eq_true; auto).
  rewrite (bind_Ret _ _ _ _ _ _ _ (deleteSelectedHandleFigures_effect t w)).
  destruct t as [st br ix hf sf gf]. destruct w as [e n cs].
  simpl in Hb. subst br.
  unfold mbind, M_bind, new_figure, call, set_m_selectedHandleFigure,
    set_m_guideFigure, updateSelectedHandleFigures_member, get_tool, deref,
    with_calls.
  simpl. rewrite <- ?app_assoc. reflexivity.
Qed.

Lemma createHandleFigure_effect t w :
  createHandleFigure t w =
  Ret tt (mkTool (m_state t) (m_brush t) (m_index t) (Some (next_figure w))
                 (m_selectedHandleFigure t) (m_guideFigure t))
      (mkWorld (editor w) (S (next_figure w))
         (calls w ++ delete_calls (m_handleFigure t) ++
          [NewHandleFigure (next_figure w);
           SetColor (next_figure w) handleColor;
           SetHiddenColor (next_figure w) hiddenHandleColor;
           UpdateHandleFigure (next_figure w);
           AddFigure (next_figure w)])).
Proof.
  unfold createHandleFigure.
  rewrite (bind_Ret _ _ _ _ _ _ _ (deleteHandleFigure_effect t w)).
  destruct t as [st br ix hf sf gf]. destruct w as [e n cs].
  unfold mbind, M_bind, new_figure, call, set_m_handleFigure,
    updateHandleFigure_member, get_tool, deref, with_calls.
  simpl. rewrite <- ?app_assoc. reflexivity.
Qed.

(** [leftMouseDown] on a handle hit, call by call. *)
Lemma leftMouseDown_hit t w ev hit :
  (NDEBUG = false -> m_state t = ACTIVE /\ 0 <= hit_index hit) ->
  hits_first ev hitType true = Some hit ->
  leftMouseDown NDEBUG ev t w =
  Ret true
      (mkTool SELECTED (Some (hit_brush hit)) (hit_index hit) None
              (Some (next_figure w)) (Some (S (next_figure w))))
      (mkWorld (editor w) (S (S (next_figure w)))
         (calls w ++ delete_calls (m_handleFigure t) ++
          delete_calls (m_selectedHandleFigure t) ++
          delete_calls (m_guideFigure t) ++
          [NewHandleFigure (next_figure w);
           SetColor (next_figure w) selectedHandleColor;
           SetHiddenColor (next_figure w) hiddenSelectedHandleColor;
           NewPointGuideFigure (S (next_figure w));
           SetColor (S (next_figure w)) selectedHandleColor;
           SetHiddenColor (S (next_figure w)) hiddenSelectedHandleColor;
           UpdateSelectedHandleFigures (next_figure w) (S (next_figure w))
                                       (hit_brush hit) (hit_index hit);
           AddFigure (next_figure w);
           AddFigure (S (next_figure w))])).
Proof.
  intros Hdbg Hhit. unfold leftMouseDown. rewrite Hhit.
  rewrite (bind_Ret get_tool _ t w t t w eq_refl).
  rewrite (bind_Ret (assert _ _) _ t w tt t w)
    by (apply assert_pass; intros E; apply bool_decide_eq_true;
        now apply Hdbg).
  rewrite (bind_Ret (set_m_brush _) _ _ _ _ _ _ eq_refl).
  rewrite (bind_Ret (set_m_index _) _ _ _ _ _ _ eq_refl).
  rewrite (bind_Ret _ _ _ _ _ _ _ (deleteHandleFigure_effect _ _)).
  match goal with
  | |- (createSelectedHandleFigures NDEBUG ≫= ?k) ?t0 ?w0 = _ =>
      rewrite (bind_Ret _ k t0 w0 _ _ _
                 (createSelectedHandleFigures_effect t0 w0 (hit_brush hit)
                    eq_refl (fun E => proj2 (Hdbg E))))
  end.
  unfold mbind, M_bind, set_m_state, mret, M_ret, with_calls. simpl.
  rewrite <- ?app_assoc. reflexivity.
Qed.

(** [leftMouseUp] on a selected handle, call by call. *)
Lemma leftMouseUp_selected t w ev :
  m_state t = SELECTED ->
  leftMouseUp NDEBUG ev t w =
  Ret true
      (mkTool ACTIVE None (-1) (Some (next_figure w)) None None)
      (mkWorld (editor w) (S (next_figure w))
         (calls w ++ delete_calls (m_selectedHandleFigure t) ++
          delete_calls (m_guideFigure t) ++
          delete_calls (m_handleFigure t) ++
          [NewHandleFigure (next_figure w);
           SetColor (next_figure w) handleColor;
           SetHiddenColor (next_figure w) hiddenHandleColor;
           UpdateHandleFigure (next_figure w);
           AddFigure (next_figure w)])).
Proof.
  intros Hs. unfold leftMouseUp.
  rewrite (bind_Ret get_tool _ t w t t w eq_refl).
  rewrite (bind_Ret (assert _ _) _ t w tt t w)
    by (apply assert_pass; intros _; rewrite Hs; reflexivity).
  rewrite (bind_Ret get_tool _ t w t t w eq_refl).
  rewrite bool_decide_true by exact Hs.
  rewrite (bind_Ret _ _ _ _ _ _ _ (deleteSelectedHandleFigures_effect _ _)).
  rewrite (bind_Ret _ _ _ _ _ _ _ (createHandleFigure_effect _ _)).
  unfold mbind, M_bind, set_m_brush, set_m_index, set_m_state, mret, M_ret,
    with_calls.
  simpl. rewrite <- ?app_assoc. reflexivity.
Qed.

(** X7. A click on a handle without a drag: [leftMouseDown] on a handle hit
    followed by [leftMouseUp] both report the event as handled and bring an
    ACTIVE tool back to ACTIVE with no brush, index -1 and a single, newly
    created unselected-handle figure; the editor (and with it the map) is
    untouched, no geometry operation is performed and the undo manager is
    not called. *)
Theorem click_roundtrip t w ev ev' hit :
  m_state t = ACTIVE ->
  hits_first ev hitType true = Some hit ->
  0 <= hit_index hit ->
  exists w',
    (down ← leftMouseDown NDEBUG ev;
     up ← leftMouseUp NDEBUG ev';
     mret (down, up)) t w =
    Ret (true, true)
        (mkTool ACTIVE None (-1) (Some (S (S (next_figure w)))) None None) w' /\
    editor w' = editor w /\
    move_calls (calls w') = move_calls (calls w) /\
    undo_calls (calls w') = undo_calls (calls w).
Proof.
  intros Hs Hhit Hix.
  unfold mbind at 1, M_bind at 1.
  rewrite (leftMouseDown_hit t w ev hit) by auto.
  unfold mbind at 1, M_bind at 1.
  rewrite leftMouseUp_selected by reflexivity.
  eexists. split; [reflexivity|]. simpl.
  unfold move_calls, undo_calls.
  destruct (m_handleFigure t), (m_selectedHandleFigure t), (m_guideFigure t);
    simpl; rewrite ?List.filter_app; simpl; rewrite ?app_nil_r; auto.
Qed.

End ClickFacts.

Section AbortFacts.
Import VertexTool Ledger.
Context `{HK : HandleKind}.

(** X8. Once a drag step has aborted, a debug build refuses every further
    drag step: the stored index is -1 and the entry assertion of
    [doLeftDrag] fires, whatever the pointer does. Only [doEndLeftDrag]
    continues. *)
Theorem drag_after_abort_asserts t w b ev lastp cur ref ev' lastp' cur' :
  drag_ready false t b ->
  let delta := drag_delta (editor w) b (m_index t) cur ref in
  vec_null delta = false ->
  index (fst (performMove (editor w) b (m_index t) delta)) = -1 ->
  (r ← doLeftDrag false ev lastp cur ref;
   doLeftDrag false ev' lastp' cur' (snd r)) t w = AssertionFailed.
Proof.
  intros Hready delta Hnull Hidx.
  pose proof Hready as (Hs & Hb & _).
  unfold mbind at 1, M_bind at 1.
  rewrite (doLeftDrag_body false t w b) by (destruct Hready as (?&?&?); auto).
  cbv zeta. fold delta. rewrite Hnull.
  rewrite bool_decide_true by exact Hidx.
  unfold doLeftDrag, mbind, M_bind, get_tool, assert, with_index. simpl.
  rewrite Hs, Hb. reflexivity.
Qed.

End AbortFacts.

(** ** The call log on the bench host *)

Section LedgerRuns.
Import VertexTool Ledger Bench BenchSession.

(** X1 on a whole drag session. *)
Lemma figures_never_misused_witness :
  figures_used_safely ∅ (calls drag_session_world) /\
  allocated ∅ (calls drag_session_world) = held drag_session_tool /\
  shown ∅ (calls drag_session_world) = held drag_session_tool.
Proof.
  apply (figures_never_misused false drag_session editor0 100%nat
           drag_session_tool drag_session_world).
  vm_compute. reflexivity.
Defined.

(** X2 on the activation of a new tool. *)
Lemma debug_run_protocol_witness :
  exists l,
    calls (mkWorld editor0 101%nat
             [NewHandleFigure 100%nat; SetColor 100%nat 1%nat;
              SetHiddenColor 100%nat 2%nat; UpdateHandleFigure 100%nat;
              AddFigure 100%nat; AddListener BrushesDidChange;
              AddListener SelectionAdded; AddListener SelectionRemoved])
    = calls world0 ++ l /\
    protocol Activated (pick_of Activated) INACTIVE ACTIVE l.
Proof.
  apply (debug_run_protocol Activated VertexTool_new world0
           (mkTool ACTIVE None (-1) (Some 100%nat) None None)).
  vm_compute. reflexivity.
Defined.

(** X3 on a whole drag session. *)
Lemma debug_session_listeners_witness :
  listening SelectionAdded (calls drag_session_world) =
  (if bool_decide (m_state drag_session_tool = INACTIVE) then 0 else 1).
Proof.
  apply (debug_session_listeners drag_session editor0 100%nat
           drag_session_tool drag_session_world).
  vm_compute. reflexivity.
Defined.

(** X4 on a whole drag session. *)
Lemma debug_session_moves_in_transactions_witness :
  moves_bracketed 0 (calls drag_session_world).
Proof.
  apply (debug_session_moves_in_transactions drag_session editor0 100%nat
           drag_session_tool drag_session_world).
  vm_compute. reflexivity.
Defined.

(** X5 on a drag session that stays active. *)
Lemma debug_session_transaction_balance_witness :
  open_transactions (calls drag_session_open_world) =
  (if bool_decide (m_state drag_session_open_tool = DRAGGING) then 1 else 0).
Proof.
  apply (debug_session_transaction_balance drag_session_open
           editor0 100%nat drag_session_open_tool drag_session_open_world).
  - repeat constructor; discriminate.
  - vm_compute. reflexivity.
Defined.

(** X6 on a tool that drags handle 0. *)
Lemma deactivated_while_dragging_witness :
  exists t' w',
    deactivated false (dragging 0) world_drag = Ret tt t' w' /\
    m_state t' = INACTIVE /\
    open_transactions (calls w') = open_transactions (calls world_drag) /\
    undo_calls (calls w') = undo_calls (calls world_drag) /\
    m_selectedHandleFigure t' = m_selectedHandleFigure (dragging 0) /\
    m_guideFigure t' = m_guideFigure (dragging 0) /\
    shown ∅ (calls w') =
      shown ∅ (calls world_drag) ∖ pointer_set (m_handleFigure (dragging 0)).
Proof.
  apply (deactivated_while_dragging false (dragging 0) world_drag).
  reflexivity.
Defined.

(** X7 on a click on handle 3 of brush 7. *)
Lemma click_roundtrip_witness :
  exists w',
    (down ← leftMouseDown false (hit7 3);
     up ← leftMouseUp false None;
     mret (down, up)) active_tool world_active =
    Ret (true, true)
        (mkTool ACTIVE None (-1) (Some 103%nat) None None) w' /\
    editor w' = editor world_active /\
    move_calls (calls w') = move_calls (calls world_active) /\
    undo_calls (calls w') = undo_calls (calls world_active).
Proof.
  apply (click_roundtrip false active_tool world_active (hit7 3) None
                         (mkHit 7%nat 3 (1, 2, 3))).
  - reflexivity.
  - reflexivity.
  - simpl. lia.
Defined.

(** X8 on handle 1, which merges into its neighbour. *)
Lemma drag_after_abort_asserts_witness :
  (r ← doLeftDrag false None origin (20, 0, 0) origin;
   doLeftDrag false None origin (40, 0, 0) (snd r)) (dragging 1) world_drag
  = AssertionFailed.
Proof.
  assert (Hr : drag_ready false (dragging 1) 7%nat)
    by (repeat split; discriminate).
  exact (drag_after_abort_asserts (dragging 1) world_drag 7%nat
           None origin (20, 0, 0) origin None origin (40, 0, 0)
           Hr eq_refl eq_refl).
Defined.

End LedgerRuns.

(** * The selection in the status bar and the CSG commands *)

Section SelectionFacts.
Import MapFrame MapFrameSelection.

Lemma fold_flag {T : Type} (P : T -> bool) (l : list T) : forall b,
  fold_left (fun multiple node => if P node then true else multiple) l b
  = b || existsb P l.
Proof.
  induction l as [|x l IH]; intros b; simpl.
  - now rewrite orb_false_r.
  - rewrite IH. destruct (P x), b; reflexivity.
Qed.

Lemma existsb_false_Forall {T : Type} (P : T -> bool) (l : list T) :
  existsb P l = false <-> Forall (fun x => P x = false) l.
Proof.
  induction l as [|x l IH]; simpl.
  - split; auto.
  - rewrite orb_false_iff, IH. split.
    + intros [? ?]; constructor; auto.
    + intros HF; inversion HF; auto.
Qed.

(** X9. [commonEntityForNodeList] returns an entity exactly when the list
    is not empty and every node of it belongs to that entity. For the empty
    list, for nodes of different entities and for nodes without an entity it
    returns the null pointer. *)
Theorem commonEntityForNodeList_spec {T : Type} (entity : T -> option nat)
        (l : list T) (e : nat) :
  commonEntityForNodeList entity l = Some e <->
  l <> [] /\ Forall (fun node => entity node = Some e) l.
Proof.
  destruct l as [|x l].
  - simpl. split; [discriminate | intros [? _]; congruence].
  - unfold commonEntityForNodeList. cbv beta iota zeta.
    rewrite (fold_flag (fun node => bool_decide (entity node ≠ entity x))).
    rewrite orb_false_l.
    destruct (existsb _ (x :: l)) eqn:E.
    + split; [discriminate|]. intros [_ HF].
      apply not_false_iff_true in E. exfalso; apply E.
      apply existsb_false_Forall.
      inversion HF as [|? ? Hx Hl]; subst.
      eapply Forall_impl; [exact HF|].
      intros y Hy; simpl in Hy. apply bool_decide_eq_false. intros Hn; apply Hn.
      congruence.
    + apply existsb_false_Forall in E.
      split.
      * intros Hx. split; [discriminate|].
        eapply Forall_impl; [exact E|].
        intros y Hy; simpl in Hy. apply bool_decide_eq_false in Hy.
        destruct (decide (entity y = entity x)) as [->|Hne]; [exact Hx|].
        exfalso; apply Hy; exact Hne.
      * intros [_ HF]. inversion HF; subst; assumption.
Qed.

(** X10. [commonClassnameForEntityList] returns a non-empty classname
    exactly when the list is not empty and every entity of it has that
    classname. *)
Theorem commonClassnameForEntityList_spec {T : Type} (classname : T -> string)
        (l : list T) (c : string) :
  c <> ""%string ->
  (commonClassnameForEntityList classname l = c <->
   l <> [] /\ Forall (fun node => classname node = c) l).
Proof.
  intros Hc. destruct l as [|x l].
  - simpl. split; [intros E; congruence | intros [? _]; congruence].
  - unfold commonClassnameForEntityList. cbv beta iota zeta.
    rewrite (fold_flag (fun node => bool_decide (classname node ≠ classname x))).
    rewrite orb_false_l.
    destruct (existsb _ (x :: l)) eqn:E.
    + split; [intros E'; congruence|]. intros [_ HF].
      apply not_false_iff_true in E. exfalso; apply E.
      apply existsb_false_Forall.
      inversion HF as [|? ? Hx Hl]; subst.
      eapply Forall_impl; [exact HF|].
      intros y Hy; simpl in Hy. apply bool_decide_eq_false. intros Hn; apply Hn.
      congruence.
    + apply existsb_false_Forall in E.
      split.
      * intros Hx. split; [discriminate|].
        eapply Forall_impl; [exact E|].
        intros y Hy; simpl in Hy. apply bool_decide_eq_false in Hy.
        destruct (decide (classname y = classname x)) as [->|Hne]; [exact Hx|].
        exfalso; apply Hy; exact Hne.
      * intros [_ HF]. inversion HF; subst; reflexivity.
Qed.

Lemma fold_union {F : Type} (texture : F -> option nat) (l : list F) :
  forall s : gset (option nat),
  fold_left (fun set face => set ∪ {[texture face]}) l s
  = s ∪ list_to_set (texture <$> l).
Proof.
  induction l as [|x l IH]; intros s; simpl.
  - set_solver.
  - rewrite IH. set_solver.
Qed.

(** X11. [textureToReveal] returns a texture exactly when a brush face is
    selected and all the selected faces carry that one texture. With no face
    selected, with two textures among the faces, or with faces that have no
    texture it returns the null pointer. *)
Theorem textureToReveal_spec {F : Type} (texture : F -> option nat)
        (faces : list F) (t : nat) :
  textureToReveal texture faces = Some t <->
  faces <> [] /\ Forall (fun face => texture face = Some t) faces.
Proof.
  unfold textureToReveal. rewrite fold_union.
  set (s := (∅ ∪ list_to_set (texture <$> faces) : gset (option nat))).
  assert (Hs : forall x, x ∈ s <-> exists f, f ∈ faces /\ texture f = x).
  { intros x. unfold s. rewrite elem_of_union, elem_of_list_to_set, list_elem_of_fmap.
    split.
    - intros [Hx|(f & -> & Hf)]; [set_solver | eauto].
    - intros (f & Hf & <-). right; eauto. }
  case_bool_decide as Hsize.
  - apply size_1_elem_of in Hsize as [x Hx].
    assert (Hel : elements s = [x]).
    { assert (Hs' : s = {[x]}) by (apply leibniz_equiv; exact Hx).
      rewrite Hs'. apply elements_singleton. }
    rewrite Hel.
    assert (Hin : forall y, y ∈ s <-> y = x).
    { intros y. rewrite (Hx y). set_solver. }
    split.
    + intros ->. split.
      * intros ->. destruct (proj1 (Hs (Some t))) as (f & Hf & _).
        { apply Hin; reflexivity. }
        inversion Hf.
      * apply Forall_forall. intros f Hf.
        apply Hin. apply Hs. eauto.
    + intros [Hne HF]. destruct faces as [|f0 faces']; [congruence|].
      symmetry. apply Hin. apply Hs. exists f0. split; [left|].
      inversion HF; subst; assumption.
  - split; [discriminate|]. intros [Hne HF]. exfalso; apply Hsize.
    assert (Hs' : s = {[Some t]}).
    { apply leibniz_equiv. intros y. rewrite Hs, elem_of_singleton. split.
      - intros (f & Hf & <-). rewrite Forall_forall in HF. apply HF; exact Hf.
      - intros ->. destruct faces as [|f0 faces']; [congruence|].
        exists f0. split; [left|]. inversion HF; subst; assumption. }
    rewrite Hs'. apply size_singleton.
Qed.

(** X13. Whenever the intersect command reaches the document, the
    subtract, hollow and convex merge commands are enabled too, and the
    convex merge goes to the document unless an active tool can merge. *)
Theorem csgIntersect_enables_all (f : Frame) :
  csgIntersect f = true ->
  csgSubtract f = true /\ csgHollow f = true /\
  csgConvexMerge f <> None /\
  (tool_can_merge f \/ csgConvexMerge f = Some DocumentMerge).
Proof.
  unfold csgIntersect, canDoCsgIntersect, csgSubtract, canDoCsgSubtract,
    csgHollow, canDoCsgHollow, csgConvexMerge, canDoCsgConvexMerge,
    tool_can_merge.
  rewrite andb_true_iff, N.ltb_lt. intros [-> Hn].
  assert (E1 : (1 <=? brushCount f)%N = true) by (apply N.leb_le; lia).
  assert (E2 : (1 <? brushCount f)%N = true) by (apply N.ltb_lt; lia).
  rewrite E1, E2. simpl. rewrite orb_true_r. simpl.
  split; [reflexivity|]. split; [reflexivity|].
  destruct (vertexToolActive f), (vertexTool_canDoCsgConvexMerge f),
    (edgeToolActive f), (edgeTool_canDoCsgConvexMerge f),
    (faceToolActive f), (faceTool_canDoCsgConvexMerge f); simpl;
    (split; [discriminate|]); tauto.
Qed.

(** X14. Who receives the convex merge: the vertex tool when it is active
    and can merge, else the edge tool, else the face tool; the document only
    when no active tool can merge and two brush faces or two brushes are
    selected. *)
Theorem csgConvexMerge_receiver (f : Frame) :
  (csgConvexMerge f = Some DocumentMerge <->
   ~ tool_can_merge f /\
   ((hasSelectedBrushFaces f = true /\ (2 <= selectedBrushFaces_size f)%N)
    \/ (hasOnlyBrushes f = true /\ (2 <= brushCount f)%N))) /\
  (csgConvexMerge f = Some VertexToolMerge <->
   vertexToolActive f = true /\ vertexTool_canDoCsgConvexMerge f = true) /\
  (csgConvexMerge f = Some EdgeToolMerge <->
   ~ (vertexToolActive f = true /\ vertexTool_canDoCsgConvexMerge f = true) /\
   edgeToolActive f = true /\ edgeTool_canDoCsgConvexMerge f = true) /\
  (csgConvexMerge f = Some FaceToolMerge <->
   ~ (vertexToolActive f = true /\ vertexTool_canDoCsgConvexMerge f = true) /\
   ~ (edgeToolActive f = true /\ edgeTool_canDoCsgConvexMerge f = true) /\
   faceToolActive f = true /\ faceTool_canDoCsgConvexMerge f = true).
Proof.
  unfold csgConvexMerge, canDoCsgConvexMerge, tool_can_merge.
  change 2%N with (N.succ 1).
  rewrite !N.le_succ_l, <- !N.ltb_lt, <- !andb_true_iff.
  generalize (hasSelectedBrushFaces f && (1 <? selectedBrushFaces_size f)%N),
    (hasOnlyBrushes f && (1 <? brushCount f)%N),
    (vertexToolActive f && vertexTool_canDoCsgConvexMerge f),
    (edgeToolActive f && edgeTool_canDoCsgConvexMerge f),
    (faceToolActive f && faceTool_canDoCsgConvexMerge f).
  intros [] [] [] [] []; simpl; intuition congruence.
Qed.


End SelectionFacts.

(** * The edit, clipboard and document commands of the frame *)

(** Symbolic execution of a command of the frame. *)
Ltac shell_unfold :=
  cbv [MapFrameShell.undo MapFrameShell.redo MapFrameShell.canUndo
       MapFrameShell.canRedo MapFrameShell.canCutSelection
       MapFrameShell.canCopySelection MapFrameShell.copyToClipboard
       MapFrameShell.cutSelection MapFrameShell.copySelection
       MapFrameShell.canDeleteSelection MapFrameShell.deleteSelection
       MapFrameShell.canPaste MapFrameShell.paste
       MapFrameShell.pasteAtCursorPosition
       MapFrameShell.pasteAtOriginalPosition
       MapFrameShell.closeCompileDialog MapFrameShell.saveDocumentAs
       MapFrameShell.saveDocument MapFrameShell.confirmOrDiscardChanges
       MapFrameShell.newDocument MapFrameShell.openDocument
       MapFrameShell.exportDocument MapFrameShell.closeEvent
       mbind mret MapFrameShell.M_bind MapFrameShell.M_ret
       MapFrameShell.ask MapFrameShell.call MapFrameShell.call_for
       MapFrameShell.try_call MapFrameShell.get_frame
       MapFrameShell.set_m_compilationDialog MapFrameShell.ensure
       MapFrameShell.when].

Ltac destruct_atom c :=
  lazymatch c with
  | negb ?a => destruct_atom a
  | andb ?a _ => destruct_atom a
  | orb ?a _ => destruct_atom a
  | _ => destruct c eqn:?
  end.

Ltac shell_cases :=
  simpl;
  repeat (match goal with
          | |- context [if ?c then _ else _] => destruct_atom c
          | |- context [match ?c with Some _ => _ | None => _ end] =>
              destruct c eqn:?
          | |- context [match ?c with
                        | MapFrameShell.Yes => _
                        | MapFrameShell.No => _
                        | MapFrameShell.Cancel => _
                        | MapFrameShell.OtherButton => _
                        end] => destruct c eqn:?
          end; simpl).

Ltac shell_trace :=
  rewrite <- ?app_assoc;
  first [reflexivity | symmetry; apply app_nil_r].

Section ShellFacts.
Import MapFrameShell ShellTrace.
Context `{Shell}.

(** X15. [undo] always returns. It undoes a command exactly when the
    document can undo and neither the map view nor the inspector had a mouse
    drag to cancel; the inspector is asked only when the map view cancelled
    nothing. Every change of the world is one of the logged calls. *)
Theorem undo_respects_drags (f : Frame) :
  exists f' l,
    undo f = Ret tt f' /\ calls f' = calls f ++ l /\
    world f' = replay (world f) l /\
    (In UndoCommand l <->
     canUndoCommand (world f) = true /\
     answer_bool MapViewCancelMouseDrag (world f) = false /\
     answer_bool InspectorCancelMouseDrag
       (perform MapViewCancelMouseDrag (world f)) = false) /\
    (In InspectorCancelMouseDrag l <->
     canUndoCommand (world f) = true /\
     answer_bool MapViewCancelMouseDrag (world f) = false).
Proof.
  destruct f as [cd fm w cs]. shell_unfold. shell_cases.
  all: eexists; eexists; (split; [reflexivity|]); simpl;
    (split; [shell_trace|]);
    (split; [reflexivity|]); simpl; intuition congruence.
Qed.


Ltac shell_run :=
  shell_unfold; shell_cases;
  repeat match goal with
         | E : bool_decide _ = true |- _ => apply bool_decide_eq_true in E
         | E : bool_decide _ = false |- _ => apply bool_decide_eq_false in E
         end;
  try match goal with
      | E : PasteType_Failed = PasteType_Node |- _ =>
          destruct (PasteType_Node_not_Failed (eq_sym E))
      end.

Lemma saved_nil (w : World) : ~ saved w [].
Proof.
  intros (l1 & c & l2 & Hl & _). destruct l1; discriminate Hl.
Qed.

Lemma saved_cons (w : World) (c : Cmd) (l : list Cmd) :
  saved w (c :: l) <->
  (is_save c = true /\ fails c w = false) \/ saved (perform c w) l.
Proof.
  split.
  - intros (l1 & c' & l2 & Hl & Hs & Hf). destruct l1 as [|x l1].
    + simpl in Hl. inversion Hl; subst. left; auto.
    + simpl in Hl. inversion Hl; subst. right.
      exists l1, c', l2. auto.
  - intros [[Hs Hf]|(l1 & c' & l2 & Hl & Hs & Hf)].
    + exists [], c, l. auto.
    + exists (c :: l1), c', l2. subst l. auto.
Qed.

Ltac saved_cases :=
  simpl; repeat first [rewrite saved_cons | rewrite app_nil_r];
  simpl;
  repeat match goal with
         | |- context [saved ?w []] =>
             let Hn := fresh "Hn" in
             pose proof (saved_nil w) as Hn; revert Hn;
             generalize (saved w []); intros ? ?
         end.

Ltac shell_inv :=
  let Hrun := fresh "Hrun" in
  intros Hrun; try discriminate Hrun; inversion Hrun; subst; clear Hrun.

(** X16. [cutSelection] always returns. Either it does nothing, or it puts
    the serialized nodes on the clipboard (never the brush faces, never the
    empty text) and deletes the objects inside one committed transaction
    named Cut. It deletes exactly when the map view has the focus, nodes
    are selected and no tool is active. *)
Theorem cutSelection_copies_nodes (f : Frame) :
  exists f' l,
    cutSelection f = Ret tt f' /\ calls f' = calls f ++ l /\
    world f' = replay (world f) l /\
    pending_transactions l = 0 /\
    (l = [] \/
     l = [ClipboardSetText
            (mapStringToUnicode (world f) (serializeSelectedNodes (world f)));
          TransactionBegin "Cut"; DeleteObjects; TransactionCommit]) /\
    (In DeleteObjects l <->
     widgetOrChildHasFocus (world f) = true /\
     hasSelectedNodes (world f) = true /\
     anyToolActive (world f) = false).
Proof.
  destruct f as [cd fm w cs]. shell_run.
  all: eexists; eexists; (split; [reflexivity|]); simpl;
    (split; [shell_trace|]);
    (split; [reflexivity|]); (split; [reflexivity|]);
    simpl; intuition congruence.
Qed.

(** X17. [copySelection] sets the clipboard at most once: to the selected
    nodes when there are some, else to the selected brush faces. It leaves
    the clipboard alone exactly when the map view has no focus or nothing is
    selected, so the empty text [copyToClipboard] starts from is never
    written. *)
Theorem copySelection_text (f : Frame) :
  exists f' l,
    copySelection f = Ret tt f' /\ calls f' = calls f ++ l /\
    (l = [] \/
     (widgetOrChildHasFocus (world f) = true /\
      hasSelectedNodes (world f) = true /\
      l = [ClipboardSetText
             (mapStringToUnicode (world f)
                (serializeSelectedNodes (world f)))]) \/
     (widgetOrChildHasFocus (world f) = true /\
      hasSelectedNodes (world f) = false /\
      hasSelectedBrushFaces (world f) = true /\
      l = [ClipboardSetText
             (mapStringToUnicode (world f)
                (serializeSelectedBrushFaces (world f)))])) /\
    (l = [] <->
     widgetOrChildHasFocus (world f) = false \/
     (hasSelectedNodes (world f) = false /\
      hasSelectedBrushFaces (world f) = false)).
Proof.
  destruct f as [cd fm w cs]. shell_run.
  all: eexists; eexists; (split; [reflexivity|]); simpl;
    (split; [shell_trace|]);
    simpl; intuition congruence.
Qed.

(** X18. [deleteSelection] makes at most one call. The clip, vertex, edge
    and face tools are tried in this order, and the first active one alone
    decides: it removes its selection when it can, and nothing happens
    otherwise. Objects of the document are deleted only when none of the
    four tools is active, and then only if no tool at all is active or the
    active tool allows it. *)
Theorem deleteSelection_target (f : Frame) :
  let w := world f in
  exists f' l,
    deleteSelection f = Ret tt f' /\ calls f' = calls f ++ l /\
    (length l <= 1)%nat /\
    (In ClipToolRemoveLastPoint l <->
     clipToolActive w = true /\ clipTool_canRemoveLastPoint w = true) /\
    (In VertexToolRemoveSelection l <->
     clipToolActive w = false /\ vertexToolActive w = true /\
     vertexTool_canRemoveSelection w = true) /\
    (In EdgeToolRemoveSelection l <->
     clipToolActive w = false /\ vertexToolActive w = false /\
     edgeToolActive w = true /\ edgeTool_canRemoveSelection w = true) /\
    (In FaceToolRemoveSelection l <->
     clipToolActive w = false /\ vertexToolActive w = false /\
     edgeToolActive w = false /\ faceToolActive w = true /\
     faceTool_canRemoveSelection w = true) /\
    (In DeleteObjects l <->
     clipToolActive w = false /\ vertexToolActive w = false /\
     edgeToolActive w = false /\ faceToolActive w = false /\
     ((createPrimitiveBrushToolActive w = true /\
       (anyToolActive w = false \/ toolAllowsObjectDeletion w = true)) \/
      (createPrimitiveBrushToolActive w = false /\
       widgetOrChildHasFocus w = true /\ hasSelectedNodes w = true /\
       anyToolActive w = false))).
Proof.
  destruct f as [cd fm w cs]. shell_run.
  all: eexists; eexists; (split; [reflexivity|]); simpl;
    (split; [shell_trace|]);
    (split; [simpl; lia|]);
    simpl; intuition congruence.
Qed.


(** X20. [pasteAtOriginalPosition] hands text to the document exactly when
    the map view is focused and current and the clipboard holds text that
    is not empty, and the text is the decoded clipboard. An empty text on a
    clipboard that reports text is logged as an error and the document is
    not called. *)
Theorem pasteAtOriginalPosition_reads_clipboard (f : Frame) :
  let w := world f in
  exists f' l,
    pasteAtOriginalPosition f = Ret tt f' /\ calls f' = calls f ++ l /\
    (forall text, In (DocumentPaste text) l <->
       widgetOrChildHasFocus w = true /\ isCurrent w = true /\
       clipboard_hasText w = true /\ clipboard_text w <> ""%string /\
       text = mapStringFromUnicode w (clipboard_text w)) /\
    (widgetOrChildHasFocus w = true -> isCurrent w = true ->
     clipboard_hasText w = true -> clipboard_text w = ""%string ->
     l = [LoggerError "Clipboard is empty"]) /\
    (length l <= 1)%nat.
Proof.
  destruct f as [cd fm w cs]. shell_run.
  all: eexists; eexists; (split; [reflexivity|]); simpl;
    (split; [shell_trace|]).
  all: split; [intros text|split; [|simpl; lia]]; simpl; intuition congruence.
Qed.

(** X21. [saveDocument] always returns, exceptions of the document
    included. It answers true exactly when a save of the document returned
    normally, and then no error box was shown; when it answers false either
    an error box was shown or the user chose no file name and nothing was
    saved. *)
Theorem saveDocument_result (f : Frame) :
  let w := world f in
  exists b f' l,
    saveDocument f = Ret b f' /\ calls f' = calls f ++ l /\
    world f' = replay w l /\
    (b = true <-> saved w l) /\
    (b = true -> forall c, In c l -> is_critical c = false) /\
    (b = false ->
     (exists m, In (CriticalMessage m) l) \/
     (persistent w = false /\ answer_string AskSaveFileName w = ""%string /\
      l = [AskSaveFileName])).
Proof.
  destruct f as [cd fm w cs]. shell_run.
  all: eexists; eexists; eexists; (split; [reflexivity|]); simpl;
    (split; [shell_trace|]); (split; [reflexivity|]).
  all: split; [saved_cases; intuition congruence|].
  all: split; [intros Hb c Hc; simpl in Hc; intuition (subst; auto; congruence)|].
  all: intros Hb; try discriminate Hb;
    first [ right; repeat split; solve [auto]
          | left; eexists; simpl; solve [eauto 6] ].
Qed.

(** X22. [confirmOrDiscardChanges] answers true exactly when the document
    is unmodified, or the user answers No, or the user answers Yes and the
    save returns normally. The user is asked exactly when the document is
    modified, the document is saved only on Yes, and the compile dialog and
    the frame manager are not touched. *)
Theorem confirmOrDiscardChanges_result (f : Frame) :
  let w := world f in
  exists b f' l,
    confirmOrDiscardChanges f = Ret b f' /\ calls f' = calls f ++ l /\
    world f' = replay w l /\
    m_compilationDialog f' = m_compilationDialog f /\
    m_frameManager f' = m_frameManager f /\
    (b = true <-> changes_discarded w \/ (changes_kept w /\ saved w l)) /\
    (In AskSaveChanges l <-> modified w = true) /\
    ((exists c, In c l /\ is_save c = true) -> changes_kept w).
Proof.
  destruct f as [cd fm w cs]. unfold changes_discarded, changes_kept.
  shell_run.
  all: eexists; eexists; eexists; (split; [reflexivity|]); simpl;
    (split; [shell_trace|]); (split; [reflexivity|]);
    (split; [reflexivity|]); (split; [reflexivity|]).
  all: split; [saved_cases; intuition congruence|].
  all: split; [simpl; intuition congruence|].
  all: intros (c & Hc & Hs); simpl in Hc;
    intuition (subst; simpl in *; congruence).
Qed.

(** X23. A close event that returns is accepted exactly when the compile
    dialog (if any) agrees to close and the changes are settled: nothing
    was modified, the user answered No, or the user answered Yes and the
    save returned normally. An accepted close has closed the compile
    dialog, removed the frame, shown no error box, and is not ignored as
    well. *)
Theorem closeEvent_accept (f f' : Frame) :
  closeEvent f = Ret tt f' ->
  let w1 := after_compile_dialog f in
  exists l,
    calls f' = calls f ++ l /\
    world f' = replay (world f) l /\
    (In EventAccept l <->
     compile_dialog_closes f = true /\
     (changes_discarded w1 \/ (changes_kept w1 /\ saved (world f) l))) /\
    (In EventAccept l ->
     m_compilationDialog f' = None /\ In RemoveFrame l /\
     ~ In EventIgnore l /\
     forall c, In c l -> is_critical c = false).
Proof.
  destruct f as [cd fm w cs].
  unfold after_compile_dialog, compile_dialog_closes, changes_discarded,
    changes_kept.
  shell_run; shell_inv.
  all: eexists; simpl; (split; [shell_trace|]); (split; [reflexivity|]).
  all: split; [saved_cases; intuition congruence|].
  all: intros HIn; simpl in HIn;
    try (exfalso; intuition congruence).
  all: split; [reflexivity|]; split; [simpl; tauto|];
    split; [simpl; intuition congruence|].
  all: intros c Hc; simpl in Hc; intuition (subst; reflexivity).
Qed.

(** X24. A close event that returns is either ignored or accepted, never
    both. When it is ignored the frame is not removed and no window
    geometry or state is saved. When the compile dialog refuses to close
    the user is not asked about unsaved changes and the dialog stays. *)
Theorem closeEvent_ignore (f f' : Frame) :
  closeEvent f = Ret tt f' ->
  exists l,
    calls f' = calls f ++ l /\
    (In EventIgnore l <-> ~ In EventAccept l) /\
    (In EventIgnore l ->
     ~ In RemoveFrame l /\ forall c, In c l -> is_window_save c = false) /\
    (compile_dialog_closes f = false ->
     l = [CompilationDialogClose; EventIgnore] /\
     m_compilationDialog f' = m_compilationDialog f).
Proof.
  destruct f as [cd fm w cs]. unfold compile_dialog_closes.
  shell_run; shell_inv.
  all: eexists; simpl; (split; [shell_trace|]).
  all: split; [simpl; intuition congruence|].
  all: split; [|simpl; intros; first [discriminate | split; reflexivity]].
  all: intros HIn; simpl in HIn; try (exfalso; intuition congruence).
  all: split; [simpl; intuition congruence|].
  all: intros c Hc; simpl in Hc; intuition (subst; reflexivity).
Qed.


(** X26. [openDocument] always returns. The document loads a file, the
    one asked for, only after the changes are settled (unmodified, No, or
    Yes with a save that returned normally) and the compile dialog is
    closed, and no error box was shown on the way. The result is false
    exactly when nothing was loaded, true when the load returned normally,
    and the error of the document when it failed. *)
Theorem openDocument_guard (p : string) (f : Frame) :
  let w := world f in
  exists r f' l,
    openDocument p f = Ret r f' /\ calls f' = calls f ++ l /\
    world f' = replay w l /\
    (forall p', In (DocumentLoad p') l ->
       p' = p /\ m_compilationDialog f' = None /\
       (changes_discarded w \/ (changes_kept w /\ saved w l)) /\
       forall c, In c l -> is_critical c = false) /\
    (r = Value false <-> ~ In (DocumentLoad p) l) /\
    (r = Value true ->
     exists l1, l = l1 ++ [DocumentLoad p; LoggerInfo] /\
                fails (DocumentLoad p) (replay w l1) = false) /\
    (forall msg, r = Error msg ->
     exists l1, l = l1 ++ [DocumentLoad p] /\
                fails (DocumentLoad p) (replay w l1) = true /\
                msg = error_message (DocumentLoad p) (replay w l1)).
Proof.
  destruct f as [cd fm w cs]. unfold changes_discarded, changes_kept.
  shell_run.
  all: eexists; eexists; eexists; (split; [reflexivity|]); simpl;
    (split; [shell_trace|]); (split; [reflexivity|]).
  all: split;
    [ intros p' HIn; simpl in HIn;
      try (exfalso; intuition congruence);
      (split; [intuition congruence|]);
      (split; [reflexivity|]);
      (split; [saved_cases; intuition congruence|]);
      intros c Hc; simpl in Hc; intuition (subst; reflexivity)
    | ].
  all: split; [simpl; intuition congruence|].
  all: split;
    [ intros Hr; try discriminate Hr
    | intros msg Hr; try discriminate Hr ].
  all: match goal with
       | |- exists l1, ?l = _ /\ _ =>
           first [ exists []; simpl; split; [reflexivity|]; solve [auto]
                 | exists (removelast (removelast l)); simpl;
                   split; [reflexivity|]; solve [auto]
                 | exists (removelast l); simpl;
                   split; [reflexivity|]; solve [auto; split; congruence] ]
       end.
Qed.

(** X27. [newDocument] always returns. The document is replaced only
    after the changes are settled and the compile dialog is closed. The
    result is false exactly when the document was not replaced; otherwise
    replacing it was the last call, and the result is true or the error of
    the document. *)
Theorem newDocument_guard (f : Frame) :
  let w := world f in
  exists r f' l,
    newDocument f = Ret r f' /\ calls f' = calls f ++ l /\
    world f' = replay w l /\
    (In DocumentNew l ->
       m_compilationDialog f' = None /\
       (changes_discarded w \/ (changes_kept w /\ saved w l)) /\
       forall c, In c l -> is_critical c = false) /\
    (r = Value false <-> ~ In DocumentNew l) /\
    (r <> Value false ->
     exists l1, l = l1 ++ [DocumentNew] /\
       r = if fails DocumentNew (replay w l1)
           then Error (error_message DocumentNew (replay w l1))
           else Value true).
Proof.
  destruct f as [cd fm w cs]. unfold changes_discarded, changes_kept.
  shell_run.
  all: eexists; eexists; eexists; (split; [reflexivity|]); simpl;
    (split; [shell_trace|]); (split; [reflexivity|]).
  all: split;
    [ intros HIn; simpl in HIn;
      try (exfalso; intuition congruence);
      (split; [reflexivity|]);
      (split; [saved_cases; intuition congruence|]);
      intros c Hc; simpl in Hc; intuition (subst; reflexivity)
    | ].
  all: split; [simpl; intuition congruence|].
  all: intros Hr; try congruence.
  all: match goal with
       | |- exists l1, ?l = _ /\ _ =>
           first [ exists []; simpl; split; [reflexivity|];
                   match goal with E : fails _ _ = _ |- _ => rewrite E end;
                   reflexivity
                 | exists (removelast l); simpl;
                   split; [reflexivity|];
                   match goal with E : fails _ _ = _ |- _ => rewrite E end;
                   reflexivity ]
       end.
Qed.

(** X28. [exportDocument] always returns and never hands the document a
    path that compares equal to the path of the current document, that
    path itself included: for such a path it only shows an error box and
    answers false. For another path it exports: it answers true when the
    export succeeds, and when the export fails it logs the error with the
    path as a stream writes it, between double quotes, shows an error box
    and answers false. It answers false exactly when an error box was
    shown. *)
Theorem exportDocument_never_overwrites (exportPath : string) (f : Frame) :
  let w := world f in
  exists b f' l,
    exportDocument exportPath f = Ret b f' /\ calls f' = calls f ++ l /\
    world f' = replay w l /\
    (forall p, In (DocumentExportAs p) l <->
               p = exportPath /\ path_equal exportPath (path w) = false) /\
    ~ In (DocumentExportAs (path w)) l /\
    (path_equal exportPath (path w) = true ->
     b = false /\ l = [CriticalMessage overwrite_message]) /\
    (path_equal exportPath (path w) = false ->
     fails (DocumentExportAs exportPath) w = false ->
     b = true /\ l = [DocumentExportAs exportPath; LoggerInfo]) /\
    (path_equal exportPath (path w) = false ->
     fails (DocumentExportAs exportPath) w = true ->
     b = false /\
     l = [DocumentExportAs exportPath;
          LoggerError ("Could not export '" ++ quoted exportPath ++ "': "
                       ++ error_message (DocumentExportAs exportPath) w);
          CriticalMessage (error_message (DocumentExportAs exportPath) w)]) /\
    (b = false <-> exists msg, In (CriticalMessage msg) l).
Proof.
  destruct f as [cd fm w cs].
  pose proof (path_equal_refl (path w)) as Hrefl.
  shell_run.
  all: eexists; eexists; eexists; (split; [reflexivity|]); simpl;
    (split; [shell_trace|]); (split; [reflexivity|]).
  all: split; [intros p'; simpl; intuition congruence|].
  all: split; [simpl; intuition congruence|].
  all: split; [intros E; try discriminate E; split; reflexivity|].
  all: split; [intros E1 E2; try discriminate E1; try discriminate E2;
               try congruence; split; reflexivity|].
  all: split; [intros E1 E2; try discriminate E1; try discriminate E2;
               try congruence; split; reflexivity|].
  all: split;
    [ intros Hb; try discriminate Hb; eexists; simpl; eauto 6
    | intros (msg & Hm); simpl in Hm; intuition congruence ].
Qed.

End ShellFacts.

(** * The palette in use *)

Section PaletteUse.
Import Palette.

(** X29. With a palette file of at least 768 and fewer than 2^31 bytes,
    the constructor followed by [indexToRgb] returns in debug and release
    builds for every image that fits its buffers: each pixel receives the
    three bytes of its colour and the rest of the output is untouched. *)
Theorem indexToRgb_full_palette NDEBUG (file indexedImage rgbImage : list byte)
        (pixelCount : nat) :
  768 <= Z.of_nat (length file) < 2 ^ 31 ->
  (pixelCount <= length indexedImage)%nat ->
  (3 * pixelCount <= length rgbImage)%nat ->
  3 * Z.of_nat pixelCount <= 2 ^ 32 ->
  exists p out,
    Palette_new NDEBUG (Some file) = Done p /\
    indexToRgb NDEBUG p indexedImage rgbImage (Z.of_nat pixelCount)
    = Done out /\
    length out = length rgbImage /\
    (forall k, (3 * pixelCount <= k)%nat -> out !! k = rgbImage !! k) /\
    (forall k b j, (k < pixelCount)%nat -> indexedImage !! k = Some b ->
                   (j < 3)%nat ->
                   out !! (3 * k + j)%nat =
                   file !! (3 * Z.to_nat (byte_val b) + j)%nat).
Proof.
  intros Hfile Himg Hrgb Hwrap.
  set (p := mkPalette file (Z.of_nat (length file))).
  destruct (indexToRgb_in_bounds NDEBUG p indexedImage rgbImage pixelCount
              Himg Hrgb Hwrap) as (out & Hrun & Hlen & Hrest & Hpix).
  { intros k b _ _. pose proof (byte_val_range b). simpl. lia. }
  exists p, out. split; [apply Palette_new_loads; lia|].
  repeat split; assumption.
Qed.

(** X30. A palette the constructor returns has a size between 0 and
    2^31 - 1 and a buffer of exactly that many bytes, read from the start
    of a file that could be opened; the size is the file length modulo 2^32.
    A file that cannot be opened, or whose length wraps to a negative [int],
    gives no palette. *)
Theorem Palette_new_invariant NDEBUG (file : option (list byte)) (p : Palette) :
  Palette_new NDEBUG file = Done p ->
  0 <= m_size p < 2 ^ 31 /\
  Z.of_nat (length (m_data p)) = m_size p /\
  file <> None /\
  (forall bytes, file = Some bytes ->
     m_data p = take (Z.to_nat (m_size p)) bytes /\
     m_size p = to_int (Z.of_nat (length bytes)) /\
     (m_size p - Z.of_nat (length bytes)) mod 2 ^ 32 = 0).
Proof.
  unfold Palette_new, assert.
  intros Hrun.
  assert (Hint : forall z, - 2 ^ 31 <= to_int z < 2 ^ 31).
  { intros z. unfold to_int. pose proof (Z.mod_pos_bound (z + 2 ^ 31) (2 ^ 32)).
    lia. }
  assert (Hmod : forall z, (to_int z - z) mod 2 ^ 32 = 0).
  { intros z. unfold to_int.
    rewrite (Z.mod_eq (z + 2 ^ 31) (2 ^ 32)) by lia.
    replace (z + 2 ^ 31 - 2 ^ 32 * ((z + 2 ^ 31) / 2 ^ 32) - 2 ^ 31 - z)
      with (- ((z + 2 ^ 31) / 2 ^ 32) * 2 ^ 32) by ring.
    apply Z.mod_mul. lia. }
  destruct file as [bytes|].
  - set (size := to_int (Z.of_nat (length bytes))) in *.
    assert (Hdone : (if size <? 0 then BadAlloc
                     else Done (mkPalette (take (Z.to_nat size) bytes) size))
                    = Done p).
    { revert Hrun. unfold mbind, Res_bind, mret, Res_ret.
      rewrite bool_decide_true by discriminate.
      destruct NDEBUG; simpl; auto. }
    destruct (Z.ltb_spec size 0) as [Hneg|Hpos]; [discriminate Hdone|].
    inversion Hdone; subst p; simpl.
    pose proof (Hint (Z.of_nat (length bytes))) as Hr. fold size in Hr.
    pose proof (Hmod (Z.of_nat (length bytes))) as Hm. fold size in Hm.
    assert (Hle : size <= Z.of_nat (length bytes)).
    { destruct (Z.le_gt_cases size (Z.of_nat (length bytes))) as [|Hgt];
        [assumption|].
      exfalso. rewrite Z.mod_small in Hm by lia. lia. }
    split; [lia|]. split.
    { rewrite length_take. lia. }
    split; [discriminate|].
    intros bytes' Hb. inversion Hb; subst bytes'. auto.
  - exfalso. revert Hrun. unfold mbind, Res_bind.
    rewrite bool_decide_false by (intros Hn; apply Hn; reflexivity).
    destruct NDEBUG; simpl; discriminate.
Qed.

End PaletteUse.
(** * The frame, the status bar and the palette on the bench *)

Section SelectionRuns.
Import MapFrame MapFrameSelection.

Lemma commonClassnameForEntityList_spec_witness :
  "light"%string <> ""%string /\
  (commonClassnameForEntityList id ["light"; "light"]%string = "light"%string
   <-> ["light"; "light"]%string <> []
       /\ Forall (fun node => id node = "light"%string)
                 ["light"; "light"]%string).
Proof.
  split; [discriminate|].
  apply (commonClassnameForEntityList_spec id ["light"; "light"]%string
           "light"%string).
  discriminate.
Defined.

Lemma csgIntersect_enables_all_witness :
  csgIntersect two_brushes = true /\
  csgSubtract two_brushes = true /\ csgHollow two_brushes = true /\
  csgConvexMerge two_brushes <> None /\
  (tool_can_merge two_brushes \/
   csgConvexMerge two_brushes = Some DocumentMerge).
Proof.
  split; [reflexivity|].
  apply (csgIntersect_enables_all two_brushes). reflexivity.
Defined.

End SelectionRuns.

Section ShellRuns.
Import MapFrameShell ShellTrace BenchShell.

Lemma closeEvent_accept_witness :
  closeEvent (frame_over (editing No)) = Ret tt closed_frame /\
  (let w1 := after_compile_dialog (frame_over (editing No)) in
   exists l,
     calls closed_frame = calls (frame_over (editing No)) ++ l /\
     world closed_frame = replay (world (frame_over (editing No))) l /\
     (In EventAccept l <->
      compile_dialog_closes (frame_over (editing No)) = true /\
      (changes_discarded w1 \/
       (changes_kept w1 /\ saved (world (frame_over (editing No))) l))) /\
     (In EventAccept l ->
      m_compilationDialog closed_frame = None /\ In RemoveFrame l /\
      ~ In EventIgnore l /\
      forall c, In c l -> is_critical c = false)).
Proof.
  split; [vm_compute; reflexivity|].
  apply (closeEvent_accept (frame_over (editing No)) closed_frame).
  vm_compute; reflexivity.
Defined.

Lemma closeEvent_ignore_witness :
  closeEvent (compiling (editing Cancel)) = Ret tt kept_frame /\
  (exists l,
     calls kept_frame = calls (compiling (editing Cancel)) ++ l /\
     (In EventIgnore l <-> ~ In EventAccept l) /\
     (In EventIgnore l ->
      ~ In RemoveFrame l /\ forall c, In c l -> is_window_save c = false) /\
     (compile_dialog_closes (compiling (editing Cancel)) = false ->
      l = [CompilationDialogClose; EventIgnore] /\
      m_compilationDialog kept_frame
      = m_compilationDialog (compiling (editing Cancel)))).
Proof.
  split; [vm_compute; reflexivity|].
  apply (closeEvent_ignore (compiling (editing Cancel)) kept_frame).
  vm_compute; reflexivity.
Defined.

(** On the bench the path of the document written with a doubled
    separator is the same path: nothing is exported. *)
Example exportDocument_other_spelling :
  exportDocument "maps//e1m1.map" (frame_over faces_only) =
  Ret false (mkFrame None (Some 1%nat) faces_only
                     [CriticalMessage overwrite_message]).
Proof. vm_compute. reflexivity. Qed.

End ShellRuns.

Section PaletteRuns.
Import Palette BenchPalette.

Lemma indexToRgb_full_palette_witness :
  768 <= Z.of_nat (length grey_file) < 2 ^ 31 /\
  (2 <= length two_pixels)%nat /\
  (3 * 2 <= length blank_rgb6)%nat /\
  3 * Z.of_nat 2 <= 2 ^ 32 /\
  exists p out,
    Palette_new false (Some grey_file) = Done p /\
    indexToRgb false p two_pixels blank_rgb6 (Z.of_nat 2) = Done out /\
    length out = length blank_rgb6 /\
    (forall k, (3 * 2 <= k)%nat -> out !! k = blank_rgb6 !! k) /\
    (forall k b j, (k < 2)%nat -> two_pixels !! k = Some b ->
                   (j < 3)%nat ->
                   out !! (3 * k + j)%nat =
                   grey_file !! (3 * Z.to_nat (byte_val b) + j)%nat).
Proof.
  assert (H1 : 768 <= Z.of_nat (length grey_file) < 2 ^ 31)
    by (vm_compute; split; [intros E; discriminate E | reflexivity]).
  assert (H2 : (2 <= length two_pixels)%nat) by (simpl; lia).
  assert (H3 : (3 * 2 <= length blank_rgb6)%nat) by (simpl; lia).
  assert (H4 : 3 * Z.of_nat 2 <= 2 ^ 32)
    by (vm_compute; intros E; discriminate E).
  repeat (split; [assumption|]).
  exact (indexToRgb_full_palette false grey_file two_pixels blank_rgb6 2
           H1 H2 H3 H4).
Defined.

Lemma Palette_new_invariant_witness :
  Palette_new false (Some one_colour_file) = Done one_colour /\
  (0 <= m_size one_colour < 2 ^ 31 /\
   Z.of_nat (length (m_data one_colour)) = m_size one_colour /\
   Some one_colour_file <> None /\
   (forall bytes, Some one_colour_file = Some bytes ->
      m_data one_colour = take (Z.to_nat (m_size one_colour)) bytes /\
      m_size one_colour = to_int (Z.of_nat (length bytes)) /\
      (m_size one_colour - Z.of_nat (length bytes)) mod 2 ^ 32 = 0)).
Proof.
  split; [vm_compute; reflexivity|].
  apply (Palette_new_invariant false (Some one_colour_file) one_colour).
  vm_compute; reflexivity.
Defined.

End PaletteRuns.
